(** * pptx-in-html-out: the PPTX to HTML converter of [src/index.js]

    A shallow embedding of the class [PPTXInHTMLOut].  JavaScript strings are
    modelled by [string], one character per UTF-16 code unit; the strings
    covered are those whose code units lie below 256 (ASCII and Latin-1),
    which includes the part names and markup literals the converter inspects.
    The archive is modelled by the ordered table [zip.files], parsed markup by
    the object graph that xml2js builds, and the asynchronous methods by a
    state-and-exception monad over the converter instance and its environment
    (console, OCR workers).  The archive reader, the markup parser and the OCR
    engine are collaborators and enter as parameters. *)

From Stdlib Require Import String Ascii List Bool Arith Lia Sorted.
Import ListNotations.
Local Open Scope list_scope.
Local Open Scope string_scope.

(** ** JavaScript string primitives *)

Module JsString.

(** The double quote character, for markup literals such as [class="slide"]. *)
Definition dq : string := String "034"%char EmptyString.

Definition is_digit (c : ascii) : bool :=
  Nat.leb 48 (nat_of_ascii c) && Nat.leb (nat_of_ascii c) 57.

Definition is_lower (c : ascii) : bool :=
  Nat.leb 97 (nat_of_ascii c) && Nat.leb (nat_of_ascii c) 122.

Definition is_upper (c : ascii) : bool :=
  Nat.leb 65 (nat_of_ascii c) && Nat.leb (nat_of_ascii c) 90.

(** [String.prototype.startsWith]. *)
Definition startsWith (p s : string) : bool := String.prefix p s.

(** Drops the first [n] characters. *)
Fixpoint skip (n : nat) (s : string) : string :=
  match n, s with
  | O, _ => s
  | S n', String _ s' => skip n' s'
  | S _, EmptyString => EmptyString
  end.

(** [String.prototype.endsWith]. *)
Definition endsWith (suffix s : string) : bool :=
  Nat.leb (String.length suffix) (String.length s) &&
  String.eqb (skip (String.length s - String.length suffix) s) suffix.

(** [String.prototype.includes]. *)
Fixpoint includes (sub s : string) : bool :=
  String.prefix sub s ||
  match s with
  | EmptyString => false
  | String _ s' => includes sub s'
  end.

(** [s.split('/').pop()]: the text after the last slash. *)
Fixpoint last_segment_from (acc s : string) : string :=
  match s with
  | EmptyString => acc
  | String c s' =>
      if Ascii.eqb c "/"%char then last_segment_from EmptyString s'
      else last_segment_from (acc ++ String c EmptyString) s'
  end.

Definition last_segment (s : string) : string := last_segment_from EmptyString s.

(** The longest prefix whose characters satisfy [p], and the rest. *)
Fixpoint span (p : ascii -> bool) (s : string) : string * string :=
  match s with
  | EmptyString => (EmptyString, EmptyString)
  | String c s' =>
      if p c then let '(a, b) := span p s' in (String c a, b)
      else (EmptyString, s)
  end.

(** A regular expression of the shape [pre [0-9]+ post], matched at the start
    of [s]; the result is the digit group.  The digit run is greedy, and since
    [post] starts with a non-digit no shorter run can match. *)
Definition match_digits_between (pre post s : string) : option string :=
  if String.prefix pre s then
    let '(ds, rest) := span is_digit (skip (String.length pre) s) in
    match ds with
    | EmptyString => None
    | _ => if String.prefix post rest then Some ds else None
    end
  else None.

(** Leftmost match of an unanchored pattern. *)
Fixpoint search {A : Type} (m : string -> option A) (s : string) : option A :=
  match m s with
  | Some r => Some r
  | None =>
      match s with
      | EmptyString => None
      | String _ s' => search m s'
      end
  end.

(** [f.match(/ppt\/slides\/slide[0-9]+\.xml/)], as a truth value. *)
Definition matches_slide_part (f : string) : bool :=
  match search (match_digits_between "ppt/slides/slide" ".xml") f with
  | Some _ => true
  | None => false
  end.

(** [slideFile.match(/slide(\d+)\.xml/)], group 1 ([None] when the match is null). *)
Definition match_slide_number (slideFile : string) : option string :=
  search (match_digits_between "slide" ".xml") slideFile.

(** [name.replace(/^[a-z]+:/, '')]. *)
Definition strip_lower_prefix (name : string) : string :=
  let '(letters, rest) := span is_lower name in
  match letters, rest with
  | String _ _, String c rest' => if Ascii.eqb c ":"%char then rest' else name
  | _, _ => name
  end.

(** The upper-case letters of Latin-1 beyond [A-Z]: U+00C0 to U+00DE without
    the multiplication sign U+00D7. *)
Definition is_upper_latin1 (c : ascii) : bool :=
  Nat.leb 192 (nat_of_ascii c) && Nat.leb (nat_of_ascii c) 222 &&
  negb (Nat.eqb (nat_of_ascii c) 215).

(** Each upper-case letter below 256 lies 32 under its lower-case form, and
    lower-casing changes no other code unit below 256.  A character stands
    for the code unit with its number: the letter U+00C9 is the character
    201, and its lower-case form U+00E9 the character 233. *)
Definition lower_char (c : ascii) : ascii :=
  if is_upper c || is_upper_latin1 c then ascii_of_nat (nat_of_ascii c + 32) else c.

(** [String.prototype.toLowerCase]. *)
Fixpoint toLowerCase (s : string) : string :=
  match s with
  | EmptyString => EmptyString
  | String c s' => String (lower_char c) (toLowerCase s')
  end.

(** [Array.prototype.sort()] without a comparator: ascending order of the
    code-unit sequences.  The keys of an object are pairwise distinct, so the
    result does not depend on the sorting algorithm. *)
Fixpoint insert_sorted (x : string) (l : list string) : list string :=
  match l with
  | [] => [x]
  | y :: l' => if String.leb x y then x :: l else y :: insert_sorted x l'
  end.

Definition sort (l : list string) : list string := fold_right insert_sorted [] l.

End JsString.
Import JsString.

(** ** Outcomes

    An evaluation returns a value or throws.  A third outcome stands for the
    end of the process: an error thrown where no handler of the converter can
    catch it, after which nothing of the converter runs any more. *)

Inductive JsError : Type :=
| TypeError
| Error (message : string)
| Rejection (source : string).

Inductive Outcome (A : Type) : Type :=
| Returned (a : A)
| Thrown (e : JsError)
| Exited.
Arguments Returned {A} a.
Arguments Thrown {A} e.
Arguments Exited {A}.

(** ** Parsed markup

    With its default options xml2js turns an element into an object whose
    attributes live under [$] and whose child elements are grouped by tag name
    into arrays in document order; an element that carries character data only
    becomes a plain string. *)

#[local] Set Warnings "-register-all".

Inductive node : Type :=
| Str (s : string)
| Obj (attrs : list (string * string)) (kids : list (string * list node)).

Fixpoint assoc {A : Type} (key : string) (l : list (string * A)) : option A :=
  match l with
  | [] => None
  | (k, v) :: l' => if String.eqb key k then Some v else assoc key l'
  end.

(** [n[key]] for a tag name [key]; a string has no such property. *)
Definition prop (n : node) (key : string) : option (list node) :=
  match n with
  | Str _ => None
  | Obj _ kids => assoc key kids
  end.

(** [a?.[0]]. *)
Definition first (a : option (list node)) : option node :=
  match a with
  | Some (x :: _) => Some x
  | _ => None
  end.

(** [n?.[key]?.[0]]. *)
Definition child (n : option node) (key : string) : option node :=
  match n with
  | Some n' => first (prop n' key)
  | None => None
  end.

(** [n?.$?.[key]]. *)
Definition attribute (n : option node) (key : string) : option string :=
  match n with
  | Some (Obj attrs _) => assoc key attrs
  | _ => None
  end.

(** JavaScript truthiness: of the values above only the empty string is falsy. *)
Definition truthy (n : node) : bool :=
  match n with
  | Str EmptyString => false
  | _ => true
  end.

Definition nonempty (s : string) : bool :=
  match s with
  | EmptyString => false
  | _ => true
  end.

(** What a template literal interpolates for a node: the string itself, and
    for an object the result of its [toString].  That is
    [Object.prototype.toString] unless the element has a child element named
    [toString]: xml2js stores the children under that name as an own property,
    an array, which cannot be called, and [Object.prototype.valueOf] yields no
    primitive either, so the conversion throws a [TypeError]. *)
Definition interpolate (n : node) : Outcome string :=
  match n with
  | Str s => Returned s
  | Obj _ kids =>
      match assoc "toString" kids with
      | Some _ => Thrown TypeError
      | None => Returned "[object Object]"
      end
  end.

(** The result of [parseStringPromise]: a rejection, [null] (blank input), or
    an object with the root tag as its single key. *)
Inductive ParseResult : Type :=
| ParseError
| ParsedNull
| Parsed (root : string) (n : node).

(** ** The archive *)

(** An entry of [zip.files]; [data = None] stands for an entry whose
    [async(...)] read rejects. *)
Record ZipObject : Type := { dir : bool; data : option string }.

(** [zip.files] with its keys in enumeration order. *)
Definition ZipFiles : Type := list (string * ZipObject).

(** [Object.keys(zip.files)]. *)
Definition keys (z : ZipFiles) : list string := map fst z.

(** [zip.file(name)]: the entry unless it is missing or a folder. *)
Definition zip_file (z : ZipFiles) (name : string) : option ZipObject :=
  match assoc name z with
  | Some o => if dir o then None else Some o
  | None => None
  end.

(** The constructor argument. *)
Inductive JsInput : Type :=
| Buffer (bytes : string)
| NotABuffer.

(** ** Collaborators *)

(** How tesseract.js behaves for one invocation on given image bytes.  A
    call of [createWorker()] or [recognize] can fail in two ways.  It can
    reject, which the caller may catch.  Or the worker reports the failure to
    the message handler of the engine, which rejects the call and, because
    [createWorker()] is given no [errorHandler], throws the error as well:
    that error is thrown outside every [try] block, and the process ends
    with it. *)
Inductive OcrBehaviour : Type :=
| CreateWorkerFails
| RecognizeFails (terminate_returns : bool)
| Recognizes (text : string) (terminate_returns : bool)
| CreateWorkerAborts
| RecognizeAborts.

Record Collaborators : Type := {
  loadAsync : JsInput -> option ZipFiles;          (* JSZip.loadAsync *)
  parseStringPromise : string -> ParseResult;      (* xml2js *)
  tesseract : string -> OcrBehaviour               (* createWorker / recognize / terminate *)
}.

(** ** Converter instance and environment *)

Record Slide : Type := { file : string; content : option (string * node) }.

Record Instance : Type := {
  pptxBuffer : JsInput;
  zip : option ZipFiles;
  debug : bool;
  ocrWorker : option nat;
  slides : list Slide;
  slideFiles : option (list string)
}.

Inductive ConsoleLine : Type :=
| ConsoleError (msg : string)
| ConsoleLog (msg : string).

Inductive OcrEvent : Type :=
| WorkerCreated (w : nat)
| Recognition (w : nat) (image : string)
| WorkerTerminated (w : nat).

Record World : Type := {
  console : list ConsoleLine;
  next_worker : nat;
  live_workers : list nat;
  ocr_events : list OcrEvent
}.

Record State : Type := { this : Instance; world : World }.

(** [new PPTXInHTMLOut(pptxBuffer)]. *)
Definition constructor (pptxBuffer : JsInput) : Instance :=
  {| pptxBuffer := pptxBuffer; zip := None; debug := false; ocrWorker := None;
     slides := []; slideFiles := None |}.

Definition empty_world : World :=
  {| console := []; next_worker := 0; live_workers := []; ocr_events := [] |}.

(** ** The monad of asynchronous methods

    A thrown error keeps the state changes made before it, as in JavaScript;
    so does the end of the process, which no handler catches. *)

Definition M (A : Type) : Type := State -> Outcome A * State.

Definition ret {A : Type} (a : A) : M A := fun s => (Returned a, s).

Definition bind {A B : Type} (c : M A) (k : A -> M B) : M B :=
  fun s =>
    match c s with
    | (Returned a, s') => k a s'
    | (Thrown e, s') => (Thrown e, s')
    | (Exited, s') => (Exited, s')
    end.

Definition throw {A : Type} (e : JsError) : M A := fun s => (Thrown e, s).

(** The process ends. *)
Definition exit {A : Type} : M A := fun s => (Exited, s).

(** The outcome of an expression that leaves the state alone. *)
Definition of_outcome {A : Type} (o : Outcome A) : M A := fun s => (o, s).

(** [try { c } catch (error) { h error }]. *)
Definition try_catch {A : Type} (c : M A) (h : JsError -> M A) : M A :=
  fun s =>
    match c s with
    | (Returned a, s') => (Returned a, s')
    | (Thrown e, s') => h e s'
    | (Exited, s') => (Exited, s')
    end.

Declare Scope js_scope.
Delimit Scope js_scope with js.
Notation "x <- c ;; k" := (bind c (fun x => k))
  (at level 61, c at next level, right associativity) : js_scope.
Notation "c ;; k" := (bind c (fun _ => k))
  (at level 61, right associativity) : js_scope.
Local Open Scope js_scope.

Definition get_this : M Instance := fun s => (Returned (this s), s).

Definition set_this (f : Instance -> Instance) : M unit :=
  fun s => (Returned tt, {| this := f (this s); world := world s |}).

Definition set_world (f : World -> World) : M unit :=
  fun s => (Returned tt, {| this := this s; world := f (world s) |}).

Definition with_zip (z : option ZipFiles) (i : Instance) : Instance :=
  {| pptxBuffer := pptxBuffer i; zip := z; debug := debug i;
     ocrWorker := ocrWorker i; slides := slides i; slideFiles := slideFiles i |}.

Definition with_slides (l : list Slide) (i : Instance) : Instance :=
  {| pptxBuffer := pptxBuffer i; zip := zip i; debug := debug i;
     ocrWorker := ocrWorker i; slides := l; slideFiles := slideFiles i |}.

Definition with_slideFiles (l : list string) (i : Instance) : Instance :=
  {| pptxBuffer := pptxBuffer i; zip := zip i; debug := debug i;
     ocrWorker := ocrWorker i; slides := slides i; slideFiles := Some l |}.

Definition with_debug (b : bool) (i : Instance) : Instance :=
  {| pptxBuffer := pptxBuffer i; zip := zip i; debug := b;
     ocrWorker := ocrWorker i; slides := slides i; slideFiles := slideFiles i |}.

Definition print (line : ConsoleLine) (w : World) : World :=
  {| console := (console w ++ [line])%list; next_worker := next_worker w;
     live_workers := live_workers w; ocr_events := ocr_events w |}.

Definition console_error (msg : string) : M unit := set_world (print (ConsoleError msg)).

(** [this.log(...)]: prints only in debug mode. *)
Definition log (msg : string) : M unit :=
  i <- get_this ;;
  if debug i then set_world (print (ConsoleLog msg)) else ret tt.

(** [this.zip] dereferenced: a [TypeError] while it is still [null]. *)
Definition the_zip : M ZipFiles :=
  i <- get_this ;;
  match zip i with
  | Some z => ret z
  | None => throw TypeError
  end.

(** [await entry.async(...)] on the result of [zip.file(...)]. *)
Definition async (entry : option ZipObject) : M string :=
  match entry with
  | None => throw TypeError
  | Some o =>
      match data o with
      | Some bytes => ret bytes
      | None => throw (Rejection "jszip")
      end
  end.

(** [for (const x of l) { f x }]. *)
Fixpoint for_of {A : Type} (l : list A) (f : A -> M unit) : M unit :=
  match l with
  | [] => ret tt
  | x :: l' => f x ;; for_of l' f
  end.

(** A loop that grows a local accumulator, [acc = step acc x] for each [x]. *)
Fixpoint for_of_acc {A B : Type} (l : list A) (acc : B) (step : B -> A -> M B) : M B :=
  match l with
  | [] => ret acc
  | x :: l' => acc' <- step acc x ;; for_of_acc l' acc' step
  end.

(** ** The OCR engine seen from the converter *)

Definition worker_created (k : nat) (w : World) : World :=
  {| console := console w; next_worker := S k;
     live_workers := k :: live_workers w;
     ocr_events := (ocr_events w ++ [WorkerCreated k])%list |}.

Definition worker_used (k : nat) (image : string) (w : World) : World :=
  {| console := console w; next_worker := next_worker w;
     live_workers := live_workers w;
     ocr_events := (ocr_events w ++ [Recognition k image])%list |}.

Definition worker_terminated (k : nat) (w : World) : World :=
  {| console := console w; next_worker := next_worker w;
     live_workers := filter (fun j => negb (Nat.eqb j k)) (live_workers w);
     ocr_events := (ocr_events w ++ [WorkerTerminated k])%list |}.

(** [createWorker()]: a worker nobody else holds, or a failure. *)
Definition createWorker (b : OcrBehaviour) : M nat :=
  match b with
  | CreateWorkerFails => throw (Rejection "createWorker")
  | CreateWorkerAborts => exit
  | _ => fun s => let k := next_worker (world s) in
                  (Returned k, {| this := this s; world := worker_created k (world s) |})
  end.

(** [worker.recognize(imageBuffer)], projected to [data.text]. *)
Definition recognize (b : OcrBehaviour) (worker : nat) (imageBuffer : string) : M string :=
  set_world (worker_used worker imageBuffer) ;;
  match b with
  | Recognizes text _ => ret text
  | RecognizeAborts => exit
  | _ => throw (Rejection "recognize")
  end.

(** [worker.terminate()]. *)
Definition terminate (b : OcrBehaviour) (worker : nat) : M unit :=
  set_world (worker_terminated worker) ;;
  match b with
  | RecognizeFails false | Recognizes _ false => throw (Rejection "terminate")
  | _ => ret tt
  end.

(** ** Markup literals *)

Definition nl : string := String "010"%char EmptyString.

Definition slide_open : string :=
  "<div class=" ++ dq ++ "slide" ++ dq ++ "><div class=" ++ dq ++ "slide-content" ++ dq ++ ">".

Definition slide_close : string := "</div></div>".

Definition shape_open : string := "<div class=" ++ dq ++ "shape" ++ dq ++ ">".

Definition picture_fragment (text : string) : string :=
  "<div class=" ++ dq ++ "picture" ++ dq ++ ">" ++ nl ++
  "                <p class=" ++ dq ++ "ocr-text" ++ dq ++ ">" ++ text ++ "</p>" ++ nl ++
  "              </div>".

(** [generateStyles()]. *)
Definition generateStyles : string :=
  "
      <style>
        .slide {
          position: relative;
          width: 100%;
          height: 0;
          padding-bottom: 56.25%;
          margin-bottom: 20px;
          background: white;
        }
        .slide-content {
          position: absolute;
          top: 0;
          left: 0;
          width: 100%;
          height: 100%;
        }
        .shape {
          position: absolute;
          box-sizing: border-box;
        }
        .text {
          word-wrap: break-word;
          overflow-wrap: break-word;
        }
        .image {
          max-width: 100%;
          height: auto;
        }
      </style>
    ".

Definition document_head : string :=
  "<!DOCTYPE html>" ++ nl ++
  "<html>" ++ nl ++
  "<head>" ++ nl ++
  "  <meta charset=" ++ dq ++ "UTF-8" ++ dq ++ ">" ++ nl ++
  "  <meta name=" ++ dq ++ "viewport" ++ dq ++ " content=" ++ dq ++
       "width=device-width, initial-scale=1.0" ++ dq ++ ">" ++ nl ++
  "  <title>PowerPoint Presentation</title>" ++ nl ++
  "  ".

Definition document_neck : string := nl ++ "</head>" ++ nl ++ "<body>".

Definition document_tail : string := "</body>" ++ nl ++ "</html>".

(** ** The methods of [PPTXInHTMLOut] *)

Section Methods.

Variable C : Collaborators.

(** [initialize()]. *)
Definition initialize : M unit :=
  try_catch
    (i <- get_this ;;
     match loadAsync C (pptxBuffer i) with
     | Some z => set_this (with_zip (Some z))
     | None => throw (Rejection "jszip")
     end)
    (fun error => console_error "Error initializing:" ;; throw error).

Definition requiredFiles : list string := ["ppt/presentation.xml"; "_rels/.rels"].

(** [validatePPTX()]. *)
Definition validatePPTX : M unit :=
  z <- the_zip ;;
  let files := keys z in
  log "Files in PPTX:" ;;
  for_of requiredFiles (fun file =>
    if existsb (String.eqb file) files then ret tt
    else throw (Error ("Invalid PPTX file: missing " ++ file))) ;;
  let slideFiles := filter matches_slide_part files in
  match slideFiles with
  | [] => throw (Error "Invalid PPTX file: no slides found")
  | _ => set_this (with_slideFiles slideFiles)
  end.

(** [load()]. *)
Definition load : M unit :=
  i <- get_this ;;
  match pptxBuffer i with
  | NotABuffer => throw (Error "Input must be a Buffer")
  | Buffer _ =>
      try_catch
        (log "Loading PPTX buffer of size:" ;;
         initialize ;;
         validatePPTX)
        (fun error => log "Error during load:" ;; throw error)
  end.

(** The name processors that [parseXml] hands to xml2js.  [normalizeTags]
    puts the lower-casing processor in front of the tag processors; attribute
    names only go through the prefix pattern. *)
Definition tagNameProcessors (name : string) : string :=
  strip_lower_prefix (toLowerCase name).

Definition attrNameProcessors (name : string) : string :=
  strip_lower_prefix name.

(** The filter of [parseSlides()]. *)
Definition is_slide_file (name : string) : bool :=
  startsWith "ppt/slides/slide" name && endsWith ".xml" name.

Definition push_slide (sl : Slide) : M unit :=
  set_this (fun i => with_slides (slides i ++ [sl])%list i).

(** [await parseStringPromise(text)]. *)
Definition parse (text : string) : M (option (string * node)) :=
  match parseStringPromise C text with
  | ParseError => throw (Rejection "xml2js")
  | ParsedNull => ret None
  | Parsed root n => ret (Some (root, n))
  end.

(** The body of the loop of [parseSlides()] over the slide files. *)
Definition parse_slide_file (z : ZipFiles) (slideFile : string) : M unit :=
  try_catch
    (slideContent <- async (zip_file z slideFile) ;;
     slideXml <- parse slideContent ;;
     log "Parsing slide:" ;;
     log "Full result:" ;;
     push_slide {| file := slideFile; content := slideXml |})
    (fun _ => console_error ("Error parsing slide " ++ slideFile ++ ":")).

(** [parseSlides()]. *)
Definition parseSlides : M (list Slide) :=
  z <- the_zip ;;
  let slideFiles := sort (filter is_slide_file (keys z)) in
  set_this (with_slides []) ;;
  for_of slideFiles (parse_slide_file z) ;;
  log "Successfully parsed slides:" ;;
  i <- get_this ;;
  match slides i with
  | [] => ret tt
  | _ => log "First slide content:"
  end ;;
  ret (slides i).

(** One relationship as [getSlideRels] stores it. *)
Record Rel : Type := { Id : string; Target : string }.

(** The loop body of [getSlideRels]: [rels[id] = {...}] when both attributes
    are non-empty; a later entry with the same id replaces an earlier one. *)
Definition add_rel (rels : list (string * Rel)) (rel : node) : list (string * Rel) :=
  match attribute (Some rel) "Id", attribute (Some rel) "Target" with
  | Some id, Some target =>
      if nonempty id && nonempty target
      then (id, {| Id := id; Target := target |}) :: rels
      else rels
  | _, _ => rels
  end.

(** [getSlideRels(slideFile)]; [None] is [null]. *)
Definition getSlideRels (slideFile : string) : M (option (list (string * Rel))) :=
  try_catch
    (match match_slide_number slideFile with
     | None => throw TypeError
     | Some slideNumber =>
         z <- the_zip ;;
         match zip_file z ("ppt/slides/_rels/slide" ++ slideNumber ++ ".xml.rels") with
         | None =>
             console_error "No relationships file found for slide:" ;; ret None
         | Some relsFile =>
             relsContent <- async (Some relsFile) ;;
             relsXml <- parse relsContent ;;
             let relationships :=
               match relsXml with
               | Some (root, n) =>
                   if String.eqb root "Relationships" then
                     match prop n "Relationship" with
                     | Some l => l
                     | None => []
                     end
                   else []
               | None => []
               end in
             ret (Some (fold_left add_rel relationships []))
         end
     end)
    (fun _ => console_error "Error getting slide relationships:" ;; ret None).

(** [getImageData(slideFile, rId)]; [None] is [null].  The table is a plain
    object: an id that is not among its own keys is either undefined or a
    member inherited from [Object.prototype], which has no [Target]; both
    guards return [null], so the two cases are not told apart here. *)
Definition getImageData (slideFile rId : string) : M (option string) :=
  try_catch
    (rels <- getSlideRels slideFile ;;
     match rels with
     | None => console_error "No relationship found for rId:" ;; ret None
     | Some table =>
         match assoc rId table with
         | None => console_error "No relationship found for rId:" ;; ret None
         | Some rel =>
             let imagePath := Target rel in
             if nonempty imagePath then
               let fullPath := "ppt/media/" ++ last_segment imagePath in
               z <- the_zip ;;
               match zip_file z fullPath with
               | None => console_error "Image file not found:" ;; ret None
               | Some imageFile =>
                   imageBuffer <- async (Some imageFile) ;;
                   ret (Some imageBuffer)
               end
             else (console_error "No target path found for relationship:" ;; ret None)
         end
     end)
    (fun _ => console_error "Error getting image data:" ;; ret None).

(** The value [{ text }] returned by [processImage]. *)
Record OcrResult : Type := { text : string }.

(** [processImage(imageBuffer)].  The three blocks are written out because
    [finally] reads the local [worker] that the [try] block assigns.  When the
    process ends inside the [try] block, neither [catch] nor [finally] runs. *)
Definition processImage (imageBuffer : string) : M (option OcrResult) :=
  fun s =>
    let b := tesseract C imageBuffer in
    (* try *)
    let '(body, worker, s1) :=
      match createWorker b s with
      | (Thrown e, s') => (Thrown e, None, s')
      | (Exited, s') => (Exited, None, s')
      | (Returned w, s') =>
          match recognize b w imageBuffer s' with
          | (Thrown e, s'') => (Thrown e, Some w, s'')
          | (Exited, s'') => (Exited, Some w, s'')
          | (Returned t, s'') => (Returned (Some {| text := t |}), Some w, s'')
          end
      end in
    match body with
    | Exited => (Exited, s1)
    | _ =>
        (* catch *)
        let '(result, s2) :=
          match body with
          | Thrown _ =>
              (console_error "Error processing image with OCR:" ;; ret None) s1
          | _ => (body, s1)
          end in
        (* finally *)
        match worker with
        | Some w =>
            match terminate b w s2 with
            | (Returned _, s3) => (result, s3)
            | (Thrown e, s3) => (Thrown e, s3)
            | (Exited, s3) => (Exited, s3)
            end
        | None => (result, s2)
        end
    end.

(** The text of one run: [run['a:t']?.[0] || ''], as the template literal
    interpolates it. *)
Definition run_text (run : node) : Outcome string :=
  match first (prop run "a:t") with
  | Some t => interpolate t
  | None => Returned ""
  end.

(** The body of the loop over [paragraph['a:r']]. *)
Definition append_run (html : string) (run : node) : M string :=
  text <- of_outcome (run_text run) ;;
  ret (html ++ "<span>" ++ text ++ "</span>").

(** The body of the loop over the paragraphs of a text body. *)
Definition append_paragraph (html : string) (paragraph : node) : M string :=
  let html := html ++ "<p>" in
  html <- match prop paragraph "a:r" with
          | Some runs => for_of_acc runs html append_run
          | None => ret html
          end ;;
  ret (html ++ "</p>").

(** The body of the loop over [spTree['p:sp']]. *)
Definition append_shape (html : string) (shape : node) : M string :=
  match first (prop shape "p:txBody") with
  | Some txBody =>
      if truthy txBody then
        let html := html ++ shape_open in
        let paragraphs :=
          match prop txBody "a:p" with
          | Some l => l
          | None => []
          end in
        html <- for_of_acc paragraphs html append_paragraph ;;
        ret (html ++ "</div>")
      else ret html
  | None => ret html
  end.

(** The embed id of a picture: [pic['p:blipFill']?.[0]?.['a:blip']?.[0]?.$?.['r:embed']]. *)
Definition embed_id (pic : node) : option string :=
  attribute (child (first (prop pic "p:blipFill")) "a:blip") "r:embed".

(** The body of the loop over [spTree['p:pic']]. *)
Definition append_picture (slideFile : string) (html : string) (pic : node) : M string :=
  match embed_id pic with
  | Some rId =>
      if nonempty rId then
        imageData <- getImageData slideFile rId ;;
        match imageData with
        | Some buffer =>
            processedImage <- processImage buffer ;;
            match processedImage with
            | Some r =>
                if nonempty (text r) then ret (html ++ picture_fragment (text r))
                else ret html
            | None => ret html
            end
        | None => ret html
        end
      else ret html
  | None => ret html
  end.

(** The shape tree [sld['p:cSld']?.[0]?.['p:spTree']?.[0]]. *)
Definition shape_tree (sld : node) : option node :=
  child (first (prop sld "p:cSld")) "p:spTree".

(** [convertSlideToHTML(slide)]. *)
Definition convertSlideToHTML (slide : Slide) : M string :=
  match content slide with
  | None => console_error "Invalid slide content" ;; ret ""
  | Some (root, sld) =>
      if String.eqb root "p:sld" && truthy sld then
        match shape_tree sld with
        | Some spTree =>
            if truthy spTree then
              let html := slide_open in
              html <- match prop spTree "p:sp" with
                      | Some shapes => for_of_acc shapes html append_shape
                      | None => ret html
                      end ;;
              html <- match prop spTree "p:pic" with
                      | Some pics => for_of_acc pics html (append_picture (file slide))
                      | None => ret html
                      end ;;
              ret (html ++ slide_close)
            else (console_error "No spTree found in slide, full content:" ;; ret "")
        | None => console_error "No spTree found in slide, full content:" ;; ret ""
        end
      else (console_error "No p:sld found in slide content" ;; ret "")
  end.

(** [generateHTML(slides)]. *)
Definition generateHTML (slides : list Slide) : M string :=
  slidesHTML <- for_of_acc slides ""
                  (fun slidesHTML slide =>
                     slideHTML <- convertSlideToHTML slide ;;
                     ret (slidesHTML ++ slideHTML)) ;;
  ret (document_head ++ generateStyles ++ document_neck ++ slidesHTML ++ document_tail).

(** The argument a caller may pass to [toHTML]. *)
Record Options : Type := { includeStyles : option bool }.

(** [toHTML()].  The method declares no parameter, so whatever a caller
    passes is dropped. *)
Definition toHTML (options : option Options) : M string :=
  try_catch
    (initialize ;;
     slides <- parseSlides ;;
     html <- generateHTML slides ;;
     ret html)
    (fun error => console_error "Error converting to HTML:" ;; throw error).

End Methods.

(** Running a method on a fresh converter for [input]. *)
Definition start (input : JsInput) : State :=
  {| this := constructor input; world := empty_world |}.

(** ** Vocabulary of the properties *)

(** [agree RI c]: started in two states whose instances are related by [RI],
    [c] ends with the same outcome and again in related instances. *)
Definition agree {A : Type} (RI : Instance -> Instance -> Prop) (c : M A) : Prop :=
  forall s1 s2, RI (this s1) (this s2) ->
    fst (c s1) = fst (c s2) /\ RI (this (snd (c s1))) (this (snd (c s2))).

(** Instances built from the bytes [b] that hold the same archive. *)
Definition same_archive (b : JsInput) (i1 i2 : Instance) : Prop :=
  pptxBuffer i1 = b /\ pptxBuffer i2 = b /\ zip i1 = zip i2.

(** ... and the same list of parsed slides. *)
Definition same_slides (b : JsInput) (i1 i2 : Instance) : Prop :=
  same_archive b i1 i2 /\ slides i1 = slides i2.

(** Both instances are the instance [i]. *)
Definition both (i : Instance) (i1 i2 : Instance) : Prop := i1 = i /\ i2 = i.






(** [keeps I c]: [c] maintains the invariant [I] of the environment,
    whether it returns or throws, as long as the process goes on. *)
Definition keeps {A : Type} (I : World -> Prop) (c : M A) : Prop :=
  forall s, I (world s) -> fst (c s) <> Exited -> I (world (snd (c s))).

(** [stays c]: [c] never ends the process. *)
Definition stays {A : Type} (c : M A) : Prop :=
  forall s, fst (c s) <> Exited.

(** Whether [worker.terminate()] returns under a behaviour. *)
Definition terminate_returns (b : OcrBehaviour) : bool :=
  match b with
  | RecognizeFails false | Recognizes _ false => false
  | _ => true
  end.

(** Whether the engine ends the process under a behaviour. *)
Definition ends_process (b : OcrBehaviour) : bool :=
  match b with
  | CreateWorkerAborts | RecognizeAborts => true
  | _ => false
  end.

(** The shape tree that [convertSlideToHTML] walks; [None] for a slide it
    gives up on. *)
Definition slide_shape_tree (slide : Slide) : option node :=
  match content slide with
  | Some (root, sld) =>
      if String.eqb root "p:sld" && truthy sld then
        match shape_tree sld with
        | Some spTree => if truthy spTree then Some spTree else None
        | None => None
        end
      else None
  | None => None
  end.

(** The text shapes [convertSlideToHTML] visits, in order: the elements
    [p:sp] directly under the shape tree. *)
Definition slide_shapes (slide : Slide) : list node :=
  match content slide with
  | Some (_, sld) =>
      match shape_tree sld with
      | Some spTree =>
          match prop spTree "p:sp" with
          | Some shapes => shapes
          | None => []
          end
      | None => []
      end
  | None => []
  end.

(** The pictures [convertSlideToHTML] visits, in order. *)
Definition slide_pictures (slide : Slide) : list node :=
  match content slide with
  | Some (_, sld) =>
      match shape_tree sld with
      | Some spTree =>
          match prop spTree "p:pic" with
          | Some pics => pics
          | None => []
          end
      | None => []
      end
  | None => []
  end.

(** A picture that leaves the markup as it is. *)
Definition skipped (C : Collaborators) (slideFile : string) (pic : node) (s : State) : Prop :=
  forall html, fst (append_picture C slideFile html pic s) = Returned html.

(** [returns c]: [c] always returns a value. *)
Definition returns {A : Type} (c : M A) : Prop :=
  forall s, exists a, fst (c s) = Returned a.

Definition same_zip (i1 i2 : Instance) : Prop := zip i1 = zip i2.

(** Concatenation of a list of strings. *)
Definition join (l : list string) : string := fold_right append "" l.

(** The values of a list of optional values, when none is missing. *)
Fixpoint sequence {A : Type} (l : list (option A)) : option (list A) :=
  match l with
  | [] => Some []
  | Some a :: l' => option_map (cons a) (sequence l')
  | None :: _ => None
  end.

(** The markup the specification describes: a span per run, a paragraph container
    per paragraph, in the order of the lists.  There is no markup ([None])
    when the text of a run cannot be interpolated. *)
Definition span_html (run : node) : option string :=
  match run_text run with
  | Returned text => Some ("<span>" ++ text ++ "</span>")
  | _ => None
  end.

Definition paragraph_runs (paragraph : node) : list node :=
  match prop paragraph "a:r" with
  | Some runs => runs
  | None => []
  end.

Definition paragraph_html (paragraph : node) : option string :=
  option_map (fun spans => "<p>" ++ join spans ++ "</p>")
    (sequence (map span_html (paragraph_runs paragraph))).

Definition shape_paragraphs (txBody : node) : list node :=
  match prop txBody "a:p" with
  | Some paragraphs => paragraphs
  | None => []
  end.

Definition shape_html (txBody : node) : option string :=
  option_map (fun paragraphs => shape_open ++ join paragraphs ++ "</div>")
    (sequence (map paragraph_html (shape_paragraphs txBody))).

(** The slide that [parseSlides] records for the part [name], if it can be
    read and parsed. *)
Definition slide_of (C : Collaborators) (z : ZipFiles) (name : string) : list Slide :=
  match zip_file z name with
  | Some o =>
      match data o with
      | Some bytes =>
          match parseStringPromise C bytes with
          | ParseError => []
          | ParsedNull => [{| file := name; content := None |}]
          | Parsed root n => [{| file := name; content := Some (root, n) |}]
          end
      | None => []
      end
  | None => []
  end.

Definition parsed_slides (C : Collaborators) (z : ZipFiles) : list Slide :=
  flat_map (slide_of C z) (sort (filter is_slide_file (keys z))).

(** Whether every character of [s] satisfies [p]. *)
Fixpoint all_chars (p : ascii -> bool) (s : string) : bool :=
  match s with
  | EmptyString => true
  | String c s' => p c && all_chars p s'
  end.

(** What a shape adds to the markup: its container when it has a text body. *)
Definition shape_contribution (shape : node) : option string :=
  match first (prop shape "p:txBody") with
  | Some txBody => if truthy txBody then shape_html txBody else Some ""
  | None => Some ""
  end.

(** The markup of a slide before its pictures are visited; [None] when the
    text of one of its runs cannot be interpolated. *)
Definition slide_text_html (slide : Slide) : option string :=
  option_map (fun shapes => slide_open ++ join shapes)
    (sequence (map shape_contribution (slide_shapes slide))).

(** Whether the texts of a slide can be rendered: the slide has no shape tree
    to walk, or every run text of its shapes can be interpolated. *)
Definition renderable (slide : Slide) : bool :=
  match slide_shape_tree slide, slide_text_html slide with
  | Some _, None => false
  | _, _ => true
  end.

(** The fragment of a slide is one slide container, or nothing for a slide
    without a shape tree. *)
Definition slide_fragment (slide : Slide) (fragment : string) : Prop :=
  match slide_shape_tree slide with
  | Some _ => exists inner, fragment = slide_open ++ inner ++ slide_close
  | None => fragment = ""
  end.

(** ** Sample decks

    Small archives with a table-driven reader, parser and OCR engine, used to
    run the converter on concrete inputs. *)

Module Samples.

Definition run_node (t : string) : node := Obj [] [("a:t", [Str t])].

Definition paragraph_node (runs : list string) : node :=
  Obj [] [("a:r", map run_node runs)].

Definition text_shape (paragraphs : list (list string)) : node :=
  Obj [] [("p:txBody", [Obj [] [("a:p", map paragraph_node paragraphs)]])].

Definition picture_shape (rId : string) : node :=
  Obj [] [("p:blipFill", [Obj [] [("a:blip", [Obj [("r:embed", rId)] []])]])].

Definition slide_node (shapes pictures : list node) : node :=
  Obj [] [("p:cSld", [Obj [] [("p:spTree", [Obj [] [("p:sp", shapes); ("p:pic", pictures)]])]])].

(** A slide whose shape tree holds one group shape with the text shapes
    [shapes] inside. *)
Definition group_slide_node (shapes : list node) : node :=
  Obj [] [("p:cSld",
           [Obj [] [("p:spTree", [Obj [] [("p:grpSp", [Obj [] [("p:sp", shapes)]])]])]])].

(** A text shape with one run whose text element has a child element named
    [toString], as in [<a:t><toString/></a:t>]. *)
Definition odd_text_shape : node :=
  Obj [] [("p:txBody",
           [Obj [] [("a:p",
                     [Obj [] [("a:r",
                               [Obj [] [("a:t", [Obj [] [("toString", [Str ""])]])]])]])]])].

Definition rels_node (rels : list (string * string)) : node :=
  Obj [] [("Relationship",
           map (fun r => Obj [("Id", fst r); ("Target", snd r)] []) rels)].

Definition entry (bytes : string) : ZipObject := {| dir := false; data := Some bytes |}.

(** Part contents are opaque to the converter; the sample parser maps each
    marker to the tree xml2js would build for such a part. *)
Definition sample_parse (markup : string) : ParseResult :=
  if String.eqb markup "<slide second/>" then
    Parsed "p:sld" (slide_node [text_shape [["second"]]] [])
  else if String.eqb markup "<slide tenth/>" then
    Parsed "p:sld" (slide_node [text_shape [["tenth"]]] [])
  else if String.eqb markup "<slide hello-world/>" then
    Parsed "p:sld" (slide_node [text_shape [["Hello"]; ["World"]]] [])
  else if String.eqb markup "<slide title+picture rId7/>" then
    Parsed "p:sld" (slide_node [text_shape [["Title"]]] [picture_shape "rId7"])
  else if String.eqb markup "<slide stray+picture rId7/>" then
    Parsed "p:sld" (slide_node [text_shape [["Stray"]]] [picture_shape "rId7"])
  else if String.eqb markup "<slide grouped hello-world/>" then
    Parsed "p:sld" (group_slide_node [text_shape [["Hello"]; ["World"]]])
  else if String.eqb markup "<slide odd-text/>" then
    Parsed "p:sld" (slide_node [odd_text_shape] [])
  else if String.eqb markup "<rels rId1=image1.png/>" then
    Parsed "Relationships" (rels_node [("rId1", "../media/image1.png")])
  else if String.eqb markup "<rels rId7=image1.png/>" then
    Parsed "Relationships" (rels_node [("rId7", "../media/image1.png")])
  else ParseError.

(** The sample engine reads two images, rejects on two others, and reports
    every other image as unreadable the way the engine does when it is given
    no [errorHandler]. *)
Definition sample_ocr (image : string) : OcrBehaviour :=
  if String.eqb image "PNG:scanned-text" then Recognizes "SCANNED" true
  else if String.eqb image "PNG:blank" then Recognizes "" true
  else if String.eqb image "PNG:worker-cannot-start" then CreateWorkerFails
  else if String.eqb image "PNG:rejected" then RecognizeFails true
  else if String.eqb image "PNG:stuck" then RecognizeFails false
  else RecognizeAborts.

(** Two slides, numbered 2 and 10. *)
Definition deck_2_10 : ZipFiles :=
  [ ("[Content_Types].xml", entry "<types/>");
    ("_rels/.rels", entry "<rels/>");
    ("ppt/presentation.xml", entry "<presentation/>");
    ("ppt/slides/slide2.xml", entry "<slide second/>");
    ("ppt/slides/slide10.xml", entry "<slide tenth/>") ].

(** One slide and nothing else: no presentation part, no root relationships. *)
Definition deck_bare : ZipFiles :=
  [ ("ppt/slides/slide1.xml", entry "<slide hello-world/>") ].

(** A complete one-slide deck. *)
Definition deck_hello : ZipFiles :=
  [ ("_rels/.rels", entry "<rels/>");
    ("ppt/presentation.xml", entry "<presentation/>");
    ("ppt/slides/slide1.xml", entry "<slide hello-world/>") ].

(** A slide with a picture [rId7]; the relationship file, when there is one,
    is [rels], and the media file holds [image]. *)
Definition deck_picture (rels : option string) (image : string) : ZipFiles :=
  ([ ("_rels/.rels", entry "<rels/>");
     ("ppt/presentation.xml", entry "<presentation/>");
     ("ppt/slides/slide1.xml", entry "<slide title+picture rId7/>") ]
   ++ match rels with
      | Some r => [("ppt/slides/_rels/slide1.xml.rels", entry r)]
      | None => []
      end
   ++ [ ("ppt/media/image1.png", entry image) ])%list.

(** Slide 1 with its relationship file, and a second slide part in a folder
    of its own that has no relationship file. *)
Definition deck_stray : ZipFiles :=
  [ ("_rels/.rels", entry "<rels/>");
    ("ppt/presentation.xml", entry "<presentation/>");
    ("ppt/slides/slide1.xml", entry "<slide title+picture rId7/>");
    ("ppt/slides/_rels/slide1.xml.rels", entry "<rels rId7=image1.png/>");
    ("ppt/slides/slideshow/slide1.xml", entry "<slide stray+picture rId7/>");
    ("ppt/media/image1.png", entry "PNG:scanned-text") ].

(** One slide with the given markup. *)
Definition deck_slide (markup : string) : ZipFiles :=
  [ ("_rels/.rels", entry "<rels/>");
    ("ppt/presentation.xml", entry "<presentation/>");
    ("ppt/slides/slide1.xml", entry markup) ].

Definition sample_load (input : JsInput) : option ZipFiles :=
  match input with
  | Buffer bytes =>
      if String.eqb bytes "PK:2-10" then Some deck_2_10
      else if String.eqb bytes "PK:bare" then Some deck_bare
      else if String.eqb bytes "PK:hello" then Some deck_hello
      else if String.eqb bytes "PK:picture-no-rels" then
        Some (deck_picture None "PNG:scanned-text")
      else if String.eqb bytes "PK:picture-other-id" then
        Some (deck_picture (Some "<rels rId1=image1.png/>") "PNG:scanned-text")
      else if String.eqb bytes "PK:picture-scanned" then
        Some (deck_picture (Some "<rels rId7=image1.png/>") "PNG:scanned-text")
      else if String.eqb bytes "PK:picture-unreadable" then
        Some (deck_picture (Some "<rels rId7=image1.png/>") "PNG:noise")
      else if String.eqb bytes "PK:picture-blank" then
        Some (deck_picture (Some "<rels rId7=image1.png/>") "PNG:blank")
      else if String.eqb bytes "PK:picture-rejected" then
        Some (deck_picture (Some "<rels rId7=image1.png/>") "PNG:rejected")
      else if String.eqb bytes "PK:picture-stuck" then
        Some (deck_picture (Some "<rels rId7=image1.png/>") "PNG:stuck")
      else if String.eqb bytes "PK:stray" then Some deck_stray
      else if String.eqb bytes "PK:grouped" then Some (deck_slide "<slide grouped hello-world/>")
      else if String.eqb bytes "PK:odd-text" then Some (deck_slide "<slide odd-text/>")
      else None
  | NotABuffer => None
  end.

Definition sample : Collaborators :=
  {| loadAsync := sample_load;
     parseStringPromise := sample_parse;
     tesseract := sample_ocr |}.

(** The same collaborators with an engine that reads every image. *)
Definition steady : Collaborators :=
  {| loadAsync := sample_load;
     parseStringPromise := sample_parse;
     tesseract := fun image =>
                    if String.eqb image "PNG:blank" then Recognizes "" true
                    else Recognizes "SCANNED" true |}.

(** A converter for [bytes] whose archive has been opened. *)
Definition opened (bytes : string) : State :=
  {| this := with_zip (sample_load (Buffer bytes)) (constructor (Buffer bytes));
     world := empty_world |}.

(** The same converter in debug mode, in an environment with a history. *)
Definition reused (bytes : string) : State :=
  {| this := with_debug true (with_zip (Some deck_bare) (constructor (Buffer bytes)));
     world := {| console := [ConsoleLog "Files in PPTX:"]; next_worker := 5;
                 live_workers := [3]; ocr_events := [WorkerCreated 3] |} |}.

(** The markup of a slide that holds one text shape. *)
Definition text_slide_html (shape_html : string) : string :=
  slide_open ++ shape_open ++ shape_html ++ "</div>" ++ slide_close.

Definition document (body : string) : string :=
  document_head ++ generateStyles ++ document_neck ++ body ++ document_tail.

End Samples.

(** * Further vocabulary *)

(** The name of the slide part with the number [digits], and of its
    relationship file. *)
Definition slide_part_name (digits : string) : string :=
  "ppt/slides/slide" ++ digits ++ ".xml".

Definition slide_rels_name (digits : string) : string :=
  "ppt/slides/_rels/slide" ++ digits ++ ".xml.rels".

Definition is_letter (c : ascii) : bool := is_lower c || is_upper c.

Definition is_slash (c : ascii) : bool := Ascii.eqb c "/"%char.

(** The relationship that a [Relationship] element stands for, if it has a
    non-empty [Id] and [Target]. *)
Definition rel_of_node (rel : node) : option Rel :=
  match attribute (Some rel) "Id", attribute (Some rel) "Target" with
  | Some id, Some target =>
      if nonempty id && nonempty target then Some {| Id := id; Target := target |}
      else None
  | _, _ => None
  end.

(** The last relationship with the id [id] among the elements [l]. *)
Fixpoint last_rel (id : string) (l : list node) : option Rel :=
  match l with
  | [] => None
  | rel :: l' =>
      match last_rel id l' with
      | Some r => Some r
      | None =>
          match rel_of_node rel with
          | Some r => if String.eqb id (Id r) then Some r else None
          | None => None
          end
      end
  end.

(** The [Relationship] elements of a parsed relationship part. *)
Definition relationship_nodes (relsXml : option (string * node)) : list node :=
  match relsXml with
  | Some (root, n) =>
      if String.eqb root "Relationships" then
        match prop n "Relationship" with
        | Some l => l
        | None => []
        end
      else []
  | None => []
  end.

(** The [Relationship] elements that the archive records for the slide part
    with the number [digits]; [None] when its relationship part is missing,
    a folder, unreadable or unparseable. *)
Definition slide_relationships (C : Collaborators) (z : ZipFiles) (digits : string) :
    option (list node) :=
  match zip_file z (slide_rels_name digits) with
  | Some o =>
      match data o with
      | Some bytes =>
          match parseStringPromise C bytes with
          | ParseError => None
          | ParsedNull => Some []
          | Parsed root n => Some (relationship_nodes (Some (root, n)))
          end
      | None => None
      end
  | None => None
  end.

(** Whether [parseSlides] can read and parse the part [name]. *)
Definition readable_slide (C : Collaborators) (z : ZipFiles) (name : string) : bool :=
  match slide_of C z name with
  | [] => false
  | _ => true
  end.

(** The bytes of the archive entry [name], if it is a readable file. *)
Definition entry_bytes (z : ZipFiles) (name : string) : option string :=
  match zip_file z name with
  | Some o => data o
  | None => None
  end.

(** What the three checks of [validatePPTX] ask of the entry names. *)
Definition valid_container (files : list string) : Prop :=
  In "ppt/presentation.xml" files /\ In "_rels/.rels" files /\
  exists f, In f files /\ matches_slide_part f = true.


(** * The parse stage: [parse()] and the methods it runs

    These methods fill the maps [relationships], [slideLayouts],
    [slideMasters] and [images] of the instance.  The maps are kept beside the
    state of the methods above; a method of this stage runs on both. *)

(** ** JavaScript values

    The tree that [parseXml] returns is read through untyped member access.
    Of a value only its own properties are modelled: the keys the converter
    asks for are not members of the built-in prototypes. *)

Inductive jsval : Type :=
| JUndefined
| JNull
| JStr (s : string)
| JObj (props : list (string * jsval))
| JArr (items : list jsval).

(** [v?.key], and [v.key] for a [v] that is neither [null] nor [undefined]. *)
Definition get (v : jsval) (key : string) : jsval :=
  match v with
  | JObj props =>
      match assoc key props with
      | Some x => x
      | None => JUndefined
      end
  | _ => JUndefined
  end.

Definition nullish (v : jsval) : bool :=
  match v with
  | JUndefined | JNull => true
  | _ => false
  end.

Definition truthy_val (v : jsval) : bool :=
  match v with
  | JUndefined | JNull | JStr EmptyString => false
  | _ => true
  end.

(** [Array.prototype.join] with the default separator, given the
    conversion of an element. *)
Section JoinItems.

Variable element : jsval -> Outcome string.

Fixpoint join_items (l : list jsval) : Outcome string :=
  match l with
  | [] => Returned ""
  | x :: l' =>
      match element x with
      | Returned sx =>
          match l' with
          | [] => Returned sx
          | _ =>
              match join_items l' with
              | Returned rest => Returned (sx ++ "," ++ rest)
              | o => o
              end
          end
      | o => o
      end
  end.

End JoinItems.

(** The conversion of a value to a string, as a template literal and a
    property access [obj[v]] perform it.  An object is converted by its
    [toString]: [Object.prototype.toString], unless the object has an own
    property of that name; none of the values modelled here can be called,
    and [Object.prototype.valueOf] yields no primitive, so the conversion
    then throws a [TypeError].  An array joins the conversions of its
    elements, [null] and [undefined] counting as empty. *)
Fixpoint to_string (v : jsval) : Outcome string :=
  match v with
  | JUndefined => Returned "undefined"
  | JNull => Returned "null"
  | JStr s => Returned s
  | JObj props =>
      match assoc "toString" props with
      | Some _ => Thrown TypeError
      | None => Returned "[object Object]"
      end
  | JArr items =>
      join_items (fun x => match x with
                           | JUndefined | JNull => Returned ""
                           | _ => to_string x
                           end) items
  end.

(** A conversion that returns a string or throws a [TypeError]. *)
Definition converts (o : Outcome string) : Prop :=
  (exists t, o = Returned t) \/ o = Thrown TypeError.

(** [Array.isArray(v) ? v : [v]]. *)
Definition as_array (v : jsval) : list jsval :=
  match v with
  | JArr items => items
  | _ => [v]
  end.

(** [map.set(key, v)] on a [Map], and [obj[key] = v] on the own properties of
    an object: an existing key keeps its place. *)
Fixpoint map_set {A : Type} (key : string) (v : A) (m : list (string * A)) : list (string * A) :=
  match m with
  | [] => [(key, v)]
  | (k, x) :: m' =>
      if String.eqb key k then (k, v) :: m' else (k, x) :: map_set key v m'
  end.

(** [obj[key] = v] for a plain object: assigning to [__proto__] replaces the
    prototype and adds no property. *)
Definition obj_set (key : string) (v : jsval) (props : list (string * jsval)) :
    list (string * jsval) :=
  if String.eqb key "__proto__" then props else map_set key v props.

(** [s.split(sep)[0]]: the text before the first occurrence of [sep]. *)
Fixpoint before_first (sep s : string) : string :=
  if String.prefix sep s then EmptyString
  else match s with
       | EmptyString => EmptyString
       | String c s' => String c (before_first sep s')
       end.

(** ** Further collaborators *)

(** xml2js run with the options of [parseXml]: the name of the root element
    as the markup writes it, and the object built for it. *)
Inductive XmlResult : Type :=
| XmlError
| XmlNull
| XmlRoot (name : string) (body : jsval).

(** What sharp reports for an image. *)
Record Metadata : Type := { format : string; width : nat; height : nat }.

Record Platform : Type := {
  parseWithOptions : string -> XmlResult;    (* parseStringPromise(content, parserOptions) *)
  probe : string -> option Metadata;         (* sharp(data).metadata(); None when it fails *)
  base64 : string -> string;                 (* data.toString('base64') *)
  utf8 : string -> string                    (* String(buffer) *)
}.

(** ** The maps of the instance *)

(** An entry of [this.images]. *)
Record Image : Type := { image_data : string; image_metadata : Metadata; image_type : string }.

Record Parts : Type := {
  relationships : list (string * jsval);
  slideLayouts : list (string * jsval);
  slideMasters : list (string * jsval);
  images : list (string * Image)
}.

(** The maps as the constructor creates them. *)
Definition no_parts : Parts :=
  {| relationships := []; slideLayouts := []; slideMasters := []; images := [] |}.

Record State2 : Type := { base : State; parts : Parts }.

Definition M2 (A : Type) : Type := State2 -> Outcome A * State2.

Definition ret2 {A : Type} (a : A) : M2 A := fun s => (Returned a, s).

Definition bind2 {A B : Type} (c : M2 A) (k : A -> M2 B) : M2 B :=
  fun s =>
    match c s with
    | (Returned a, s') => k a s'
    | (Thrown e, s') => (Thrown e, s')
    | (Exited, s') => (Exited, s')
    end.

Definition throw2 {A : Type} (e : JsError) : M2 A := fun s => (Thrown e, s).

Definition try_catch2 {A : Type} (c : M2 A) (h : JsError -> M2 A) : M2 A :=
  fun s =>
    match c s with
    | (Returned a, s') => (Returned a, s')
    | (Thrown e, s') => h e s'
    | (Exited, s') => (Exited, s')
    end.

(** A method of the first part run in the larger state. *)
Definition lift {A : Type} (c : M A) : M2 A :=
  fun s =>
    let '(o, b) := c (base s) in
    (o, {| base := b; parts := parts s |}).

Definition get_parts : M2 Parts := fun s => (Returned (parts s), s).

Definition set_parts (f : Parts -> Parts) : M2 unit :=
  fun s => (Returned tt, {| base := base s; parts := f (parts s) |}).

Definition with_relationships (m : list (string * jsval)) (p : Parts) : Parts :=
  {| relationships := m; slideLayouts := slideLayouts p;
     slideMasters := slideMasters p; images := images p |}.

Definition with_slideLayouts (m : list (string * jsval)) (p : Parts) : Parts :=
  {| relationships := relationships p; slideLayouts := m;
     slideMasters := slideMasters p; images := images p |}.

Definition with_slideMasters (m : list (string * jsval)) (p : Parts) : Parts :=
  {| relationships := relationships p; slideLayouts := slideLayouts p;
     slideMasters := m; images := images p |}.

Definition with_images (m : list (string * Image)) (p : Parts) : Parts :=
  {| relationships := relationships p; slideLayouts := slideLayouts p;
     slideMasters := slideMasters p; images := m |}.

Declare Scope js2_scope.
Delimit Scope js2_scope with js2.
Notation "x <- c ;; k" := (bind2 c (fun x => k))
  (at level 61, c at next level, right associativity) : js2_scope.
Notation "c ;; k" := (bind2 c (fun _ => k))
  (at level 61, right associativity) : js2_scope.

Fixpoint for_of2 {A : Type} (l : list A) (f : A -> M2 unit) : M2 unit :=
  match l with
  | [] => ret2 tt
  | x :: l' => bind2 (f x) (fun _ => for_of2 l' f)
  end.

(** [array.reduce(step, acc)] with a callback that may throw. *)
Fixpoint reduce {A B : Type} (l : list A) (acc : B) (step : B -> A -> Outcome B) : Outcome B :=
  match l with
  | [] => Returned acc
  | x :: l' =>
      match step acc x with
      | Returned acc' => reduce l' acc' step
      | Thrown e => Thrown e
      | Exited => Exited
      end
  end.

Module ParseStage.

Local Open Scope js2_scope.

Section Methods2.

Variable C : Collaborators.
Variable P : Platform.

(** [parseXml(content)]: xml2js hands the name of every element to the tag
    processors, so the key of the root is the processed root name. *)
Definition parseXml (content : string) : M2 jsval :=
  match parseWithOptions P content with
  | XmlError => throw2 (Rejection "xml2js")
  | XmlNull => ret2 JNull
  | XmlRoot name body => ret2 (JObj [(tagNameProcessors name, body)])
  end.

(** The callback of the [reduce] in [parseRelationships]. *)
Definition add_relationship (acc : list (string * jsval)) (rel : jsval) :
    Outcome (list (string * jsval)) :=
  if nullish rel then Thrown TypeError
  else
    match to_string (get rel "Id") with
    | Returned key =>
        Returned (obj_set key
                    (JObj [("type", get rel "Type"); ("target", get rel "Target")])
                    acc)
    | Thrown e => Thrown e
    | Exited => Exited
    end.

(** The body of the loop of [parseRelationships()]. *)
Definition parse_rels_file (z : ZipFiles) (relsFile : string) : M2 unit :=
  try_catch2
    (content <- lift (async (zip_file z relsFile)) ;;
     result <- parseXml content ;;
     let found := get (get result "Relationships") "Relationship" in
     if truthy_val found then
       let elements := as_array found in
       let basePath := before_first "/_rels/" relsFile in
       match reduce elements [] add_relationship with
       | Returned table =>
           set_parts (fun p => with_relationships
                                 (map_set basePath (JObj table) (relationships p)) p)
       | Thrown e => throw2 e
       | Exited => fun s => (Exited, s)
       end
     else ret2 tt)
    (fun _ => lift (log ("Warning: Could not parse relationships in " ++ relsFile ++ ":"))).

(** [parseRelationships()]. *)
Definition parseRelationships : M2 unit :=
  z <- lift the_zip ;;
  let relsFiles := filter (endsWith ".rels") (keys z) in
  for_of2 relsFiles (parse_rels_file z).

(** The body of the loop of [parseSlideLayouts()]. *)
Definition parse_layout_file (z : ZipFiles) (layoutFile : string) : M2 unit :=
  content <- lift (async (zip_file z layoutFile)) ;;
  result <- parseXml content ;;
  set_parts (fun p => with_slideLayouts (map_set layoutFile result (slideLayouts p)) p).

(** [parseSlideLayouts()]. *)
Definition parseSlideLayouts : M2 unit :=
  z <- lift the_zip ;;
  let layoutFiles := filter (includes "ppt/slideLayouts/slideLayout") (keys z) in
  for_of2 layoutFiles (parse_layout_file z).

(** The body of the loop of [parseSlideMasters()]. *)
Definition parse_master_file (z : ZipFiles) (masterFile : string) : M2 unit :=
  content <- lift (async (zip_file z masterFile)) ;;
  result <- parseXml content ;;
  set_parts (fun p => with_slideMasters (map_set masterFile result (slideMasters p)) p).

(** [parseSlideMasters()]. *)
Definition parseSlideMasters : M2 unit :=
  z <- lift the_zip ;;
  let masterFiles := filter (includes "ppt/slideMasters/slideMaster") (keys z) in
  for_of2 masterFiles (parse_master_file z).

(** The body of the loop of [extractImages()]. *)
Definition extract_image (z : ZipFiles) (mediaFile : string) : M2 unit :=
  data <- lift (async (zip_file z mediaFile)) ;;
  match probe P data with
  | None => throw2 (Rejection "sharp")
  | Some metadata =>
      set_parts (fun p =>
        with_images
          (map_set mediaFile
             {| image_data := base64 P data; image_metadata := metadata;
                image_type := format metadata |}
             (images p)) p)
  end.

(** [extractImages()]. *)
Definition extractImages : M2 unit :=
  z <- lift the_zip ;;
  let mediaFiles := filter (startsWith "ppt/media/") (keys z) in
  for_of2 mediaFiles (extract_image z).

(** [parse()]. *)
Definition parse : M2 unit :=
  try_catch2
    (parseRelationships ;;
     parseSlideLayouts ;;
     parseSlideMasters ;;
     lift (parseSlides C) ;;
     extractImages)
    (fun error => lift (log "Error during parse:") ;; throw2 error).

End Methods2.

End ParseStage.

(** ** Vocabulary of the parse stage *)

(** What [parseXml] returns for the markup [bytes], if it returns. *)
Definition xml_value (P : Platform) (bytes : string) : option jsval :=
  match parseWithOptions P bytes with
  | XmlError => None
  | XmlNull => Some JNull
  | XmlRoot name body => Some (JObj [(tagNameProcessors name, body)])
  end.

(** The parsed tree of the archive entry [name], if it is a readable file
    that can be parsed. *)
Definition part_value (P : Platform) (z : ZipFiles) (name : string) : option jsval :=
  match entry_bytes z name with
  | Some bytes => xml_value P bytes
  | None => None
  end.

(** The record [extractImages] stores for the entry [name], if it is a
    readable file that sharp can probe. *)
Definition image_value (P : Platform) (z : ZipFiles) (name : string) : option Image :=
  match entry_bytes z name with
  | Some data =>
      match probe P data with
      | Some metadata =>
          Some {| image_data := base64 P data; image_metadata := metadata;
                  image_type := format metadata |}
      | None => None
      end
  | None => None
  end.

Definition layout_files (z : ZipFiles) : list string :=
  filter (includes "ppt/slideLayouts/slideLayout") (keys z).

Definition master_files (z : ZipFiles) : list string :=
  filter (includes "ppt/slideMasters/slideMaster") (keys z).

Definition media_files (z : ZipFiles) : list string :=
  filter (startsWith "ppt/media/") (keys z).

(** The maps other than [slideLayouts] are the same. *)
Definition same_but_layouts (p p' : Parts) : Prop :=
  relationships p' = relationships p /\ slideMasters p' = slideMasters p /\
  images p' = images p.

Definition same_but_masters (p p' : Parts) : Prop :=
  relationships p' = relationships p /\ slideLayouts p' = slideLayouts p /\
  images p' = images p.

Definition same_but_images (p p' : Parts) : Prop :=
  relationships p' = relationships p /\ slideLayouts p' = slideLayouts p /\
  slideMasters p' = slideMasters p.

(** * The alternate renderers

    [convertShapeToHTML], [convertPictureToHTML] and [convertShapeOrPicture]
    read trees of the shape [parseXml] builds; no other method calls them. *)

(** [a || b]. *)
Definition or_else (a b : jsval) : jsval := if truthy_val a then a else b.

Definition alternate_picture (src : string) : string :=
  "<div class=" ++ dq ++ "picture" ++ dq ++ ">" ++ nl ++
  "        <img src=" ++ dq ++ src ++ dq ++ " alt=" ++ dq ++ "Slide Image" ++ dq ++ "/>" ++ nl ++
  "    </div>".

Definition alternate_ocr_fragment (text : string) : string :=
  "<div class=" ++ dq ++ "picture" ++ dq ++ ">" ++ nl ++
  "                  <p class=" ++ dq ++ "ocr-text" ++ dq ++ ">" ++ text ++ "</p>" ++ nl ++
  "              </div>".

Section AlternateRenderers.

Variable C : Collaborators.
Variable P : Platform.

(** The text of a run: [r?.t?._ || ''], as the template literal
    interpolates it. *)
Definition alternate_run_text (r : jsval) : Outcome string :=
  to_string (or_else (get (get r "t") "_") (JStr "")).

(** The body of the loop over the runs of a paragraph. *)
Definition alternate_append_run (shapeHtml : string) (r : jsval) : Outcome string :=
  match alternate_run_text r with
  | Returned text => Returned (shapeHtml ++ "<span>" ++ text ++ "</span>")
  | Thrown e => Thrown e
  | Exited => Exited
  end.

(** The body of the loop over the paragraphs; [p.r] throws for a [p] that is
    [null] or [undefined]. *)
Definition alternate_append_paragraph (shapeHtml : string) (p : jsval) : Outcome string :=
  if nullish p then Thrown TypeError
  else
    let shapeHtml := shapeHtml ++ "<p>" in
    match (if truthy_val (get p "r")
           then reduce (as_array (get p "r")) shapeHtml alternate_append_run
           else Returned shapeHtml) with
    | Returned shapeHtml => Returned (shapeHtml ++ "</p>")
    | Thrown e => Thrown e
    | Exited => Exited
    end.

(** [convertShapeToHTML(shape, options)]. *)
Definition convertShapeToHTML (shape options : jsval) : Outcome string :=
  let txBody := or_else (get shape "txbody") (get shape "txBody") in
  if truthy_val txBody then
    let shapeHtml := shape_open in
    match (if truthy_val (get txBody "p")
           then reduce (as_array (get txBody "p")) shapeHtml alternate_append_paragraph
           else Returned shapeHtml) with
    | Returned shapeHtml => Returned (shapeHtml ++ "</div>")
    | Thrown e => Thrown e
    | Exited => Exited
    end
  else Returned "".

(** [getSlideRels(file)] for an argument that need not be a string: on
    anything else [file.match(...)] throws inside the [try] block. *)
Definition getSlideRels_of (file : jsval) : M (option (list (string * Rel))) :=
  match file with
  | JStr slideFile => getSlideRels C slideFile
  | _ => console_error "Error getting slide relationships:" ;; ret None
  end.

(** [getImageData(file, rId)] for such arguments.  The id is turned into a
    property key when the table is consulted, inside the [try] block. *)
Definition getImageData_of (file rId : jsval) : M (option string) :=
  try_catch
    (rels <- getSlideRels_of file ;;
     match rels with
     | None => console_error "No relationship found for rId:" ;; ret None
     | Some table =>
         key <- of_outcome (to_string rId) ;;
         match assoc key table with
         | None => console_error "No relationship found for rId:" ;; ret None
         | Some rel =>
             let imagePath := Target rel in
             if nonempty imagePath then
               let fullPath := "ppt/media/" ++ last_segment imagePath in
               z <- the_zip ;;
               match zip_file z fullPath with
               | None => console_error "Image file not found:" ;; ret None
               | Some imageFile =>
                   imageBuffer <- async (Some imageFile) ;;
                   ret (Some imageBuffer)
               end
             else (console_error "No target path found for relationship:" ;; ret None)
         end
     end)
    (fun _ => console_error "Error getting image data:" ;; ret None).

(** [convertPictureToHTML(pic, options)]. *)
Definition convertPictureToHTML (pic options : jsval) : M string :=
  let blipFill := or_else (get pic "blipfill") (get pic "blipFill") in
  let blip := get blipFill "blip" in
  if nullish blip then ret ""
  else
    let attrs := get blip "$" in
    if nullish attrs then throw TypeError
    else
      let rId := get attrs "embed" in
      if truthy_val rId then
        imageData <- getImageData_of (get pic "file") rId ;;
        match imageData with
        | Some bytes => ret (alternate_picture (utf8 P bytes))
        | None => ret ""
        end
      else ret "".

(** [slideRels?.[rId]?.Target], the empty string standing for [undefined];
    the id is turned into a property key only when there is a table. *)
Definition target_of (slideRels : option (list (string * Rel))) (rId : jsval) :
    Outcome string :=
  match slideRels with
  | Some table =>
      match to_string rId with
      | Returned key =>
          match assoc key table with
          | Some rel => Returned (Target rel)
          | None => Returned ""
          end
      | Thrown e => Thrown e
      | Exited => Exited
      end
  | None => Returned ""
  end.

(** [convertShapeOrPicture(element)]; [None] is [undefined]. *)
Definition convertShapeOrPicture (element : jsval) : M (option string) :=
  if nullish element then throw TypeError
  else
    let pic := get element "pic" in
    if truthy_val pic then
      let rId := get (get (get (get pic "blipFill") "blip") "$") "r:embed" in
      if truthy_val rId then
        slideRels <- getSlideRels_of (get element "file") ;;
        imagePath <- of_outcome (target_of slideRels rId) ;;
        if nonempty imagePath then
          let fullImagePath := "ppt/media/" ++ last_segment imagePath in
          z <- the_zip ;;
          match zip_file z fullImagePath with
          | Some imageFile =>
              imageData <- async (Some imageFile) ;;
              processedImage <- processImage C imageData ;;
              match processedImage with
              | Some r => ret (Some (alternate_ocr_fragment (text r)))
              | None => ret None
              end
          | None => ret None
          end
        else ret None
      else ret None
    else ret None.

End AlternateRenderers.

(** The markup of a text body as [convertShapeToHTML] should produce it;
    [None] when the text of a run cannot be converted to a string. *)
Definition alternate_span (r : jsval) : option string :=
  match alternate_run_text r with
  | Returned text => Some ("<span>" ++ text ++ "</span>")
  | _ => None
  end.

Definition alternate_runs (p : jsval) : list jsval :=
  if truthy_val (get p "r") then as_array (get p "r") else [].

Definition alternate_paragraph (p : jsval) : option string :=
  option_map (fun spans => "<p>" ++ join spans ++ "</p>")
    (sequence (map alternate_span (alternate_runs p))).

Definition alternate_paragraphs (txBody : jsval) : list jsval :=
  if truthy_val (get txBody "p") then as_array (get txBody "p") else [].

(** * Further samples *)

Module MoreSamples.

(** The slide of [Samples.deck_picture] as [parseSlides] records it. *)
Definition picture_slide : Slide :=
  {| file := "ppt/slides/slide1.xml";
     content := Some ("p:sld",
                      Samples.slide_node [Samples.text_shape [["Title"]]]
                        [Samples.picture_shape "rId7"]) |}.

(** Table-driven stand-ins for xml2js with the options of [parseXml], sharp
    and the two text encodings of a buffer. *)
Definition sample_parseWithOptions (markup : string) : XmlResult :=
  if String.eqb markup "<layout 1/>" then
    XmlRoot "p:sldLayout" (JObj [("csld", JObj [])])
  else if String.eqb markup "<master 1/>" then
    XmlRoot "p:sldMaster" (JObj [("csld", JObj [])])
  else if String.eqb markup "<rels rId7=image1.png/>" then
    XmlRoot "Relationships"
      (JObj [("relationship",
              JObj [("$", JObj [("Id", JStr "rId7");
                                ("Target", JStr "../media/image1.png")])])])
  else XmlError.

Definition sample_probe (data : string) : option Metadata :=
  if String.prefix "PNG:" data
  then Some {| format := "png"; width := 640; height := 480 |}
  else None.

Definition sample_platform : Platform :=
  {| parseWithOptions := sample_parseWithOptions;
     probe := sample_probe;
     base64 := fun data => "base64(" ++ data ++ ")";
     utf8 := fun data => data |}.

(** A deck with a layout, a master and a picture; [layout] is the markup of
    the layout part. *)
Definition deck_full (layout : string) : ZipFiles :=
  [ ("_rels/.rels", Samples.entry "<rels/>");
    ("ppt/presentation.xml", Samples.entry "<presentation/>");
    ("ppt/slides/slide1.xml", Samples.entry "<slide title+picture rId7/>");
    ("ppt/slides/_rels/slide1.xml.rels", Samples.entry "<rels rId7=image1.png/>");
    ("ppt/slideLayouts/slideLayout1.xml", Samples.entry layout);
    ("ppt/slideMasters/slideMaster1.xml", Samples.entry "<master 1/>");
    ("ppt/media/image1.png", Samples.entry "PNG:scanned-text") ].

(** A converter that has opened [z] and parsed nothing yet. *)
Definition opened_with (z : ZipFiles) : State2 :=
  {| base := {| this := with_zip (Some z) (constructor (Buffer "PK:full"));
                world := empty_world |};
     parts := no_parts |}.

(** A paragraph with a single run, as [parseXml] builds it. *)
Definition alternate_paragraph_node (t : string) : jsval :=
  JObj [("r", JObj [("t", JObj [("_", JStr t)])])].

Definition alternate_shape : jsval :=
  JObj [("txBody", JObj [("p", JArr [alternate_paragraph_node "Hello";
                                     alternate_paragraph_node "World"])])].

(** A shape whose one run has a text element with a property [toString]. *)
Definition alternate_odd_shape : jsval :=
  JObj [("txBody",
         JObj [("p", JObj [("r", JObj [("t", JObj [("_", JObj [("toString", JStr "x")])])])])])].

(** A picture element whose embed id is an object with a property
    [toString]. *)
Definition odd_picture_element : jsval :=
  JObj [("pic", JObj [("blipFill",
                       JObj [("blip",
                              JObj [("$", JObj [("r:embed",
                                                 JObj [("toString", JStr "x")])])])])]);
        ("file", JStr "ppt/slides/slide1.xml")].

(** A picture element with the embed id [rId7] on slide 1. *)
Definition picture_element : jsval :=
  JObj [("pic", JObj [("blipFill",
                       JObj [("blip", JObj [("$", JObj [("r:embed", JStr "rId7")])])])]);
        ("file", JStr "ppt/slides/slide1.xml")].

End MoreSamples.

(** * Properties *)

Local Open Scope js_scope.

(** ** The string primitives on part names *)

Example match_slide_number_slide12 :
  match_slide_number "ppt/slides/slide12.xml" = Some "12" /\
  match_slide_number "ppt/slides/slideshow.xml" = None.
Proof. split; reflexivity. Qed.

Example matches_slide_part_examples :
  matches_slide_part "ppt/slides/slide3.xml" = true /\
  matches_slide_part "ppt/slides/slide.xml" = false /\
  matches_slide_part "ppt/slides/_rels/slide3.xml.rels" = false.
Proof. repeat split; reflexivity. Qed.

Example is_slide_file_examples :
  is_slide_file "ppt/slides/slide3.xml" = true /\
  is_slide_file "ppt/slides/_rels/slide3.xml.rels" = false /\
  is_slide_file "ppt/slideLayouts/slideLayout1.xml" = false.
Proof. repeat split; reflexivity. Qed.

Example last_segment_examples :
  last_segment "../media/image1.png" = "image1.png" /\
  last_segment "image1.png" = "image1.png" /\
  last_segment "media/" = "".
Proof. repeat split; reflexivity. Qed.

Example sort_compares_characters :
  sort ["slide2"; "slide10"; "slide1"] = ["slide1"; "slide10"; "slide2"].
Proof. reflexivity. Qed.

(** ** What a method's result depends on

    The outcome of a method is determined by the converter instance; console
    and OCR bookkeeping never feed back into it. *)

Section Agreement.

Variable C : Collaborators.
Variable RI : Instance -> Instance -> Prop.
Hypothesis RI_zip : forall i1 i2, RI i1 i2 -> zip i1 = zip i2.

Lemma agree_ret {A : Type} (a : A) : agree RI (ret a).
Proof. intros s1 s2 H. split; [reflexivity | exact H]. Qed.

Lemma agree_throw {A : Type} (e : JsError) : agree RI (@throw A e).
Proof. intros s1 s2 H. split; [reflexivity | exact H]. Qed.

Lemma agree_bind {A B : Type} (c : M A) (k : A -> M B) :
  agree RI c -> (forall a, agree RI (k a)) -> agree RI (bind c k).
Proof.
  intros Hc Hk s1 s2 H. unfold bind.
  destruct (Hc s1 s2 H) as [E HR].
  destruct (c s1) as [[a1 | e1 |] t1], (c s2) as [[a2 | e2 |] t2];
    simpl in E, HR; try discriminate E.
  - injection E as ->. apply Hk. exact HR.
  - injection E as ->. split; [reflexivity | exact HR].
  - split; [reflexivity | exact HR].
Qed.

Lemma agree_try_catch {A : Type} (c : M A) (h : JsError -> M A) :
  agree RI c -> (forall e, agree RI (h e)) -> agree RI (try_catch c h).
Proof.
  intros Hc Hh s1 s2 H. unfold try_catch.
  destruct (Hc s1 s2 H) as [E HR].
  destruct (c s1) as [[a1 | e1 |] t1], (c s2) as [[a2 | e2 |] t2];
    simpl in E, HR; try discriminate E.
  - split; [exact E | exact HR].
  - injection E as ->. apply Hh. exact HR.
  - split; [reflexivity | exact HR].
Qed.

Lemma agree_of_outcome {A : Type} (o : Outcome A) : agree RI (of_outcome o).
Proof. intros s1 s2 H. split; [reflexivity | exact H]. Qed.

Lemma agree_set_world (f : World -> World) : agree RI (set_world f).
Proof. intros s1 s2 H. split; [reflexivity | exact H]. Qed.

Lemma agree_console_error (msg : string) : agree RI (console_error msg).
Proof. apply agree_set_world. Qed.

Lemma agree_log (msg : string) : agree RI (log msg).
Proof.
  intros s1 s2 H. unfold log, bind, get_this.
  destruct (debug (this s1)), (debug (this s2)); split; try reflexivity; exact H.
Qed.

Lemma agree_the_zip : agree RI the_zip.
Proof.
  intros s1 s2 H. unfold the_zip, bind, get_this.
  rewrite (RI_zip _ _ H).
  destruct (zip (this s2)); split; try reflexivity; exact H.
Qed.

Lemma agree_async (entry : option ZipObject) : agree RI (async entry).
Proof.
  unfold async. destruct entry as [o |]; [destruct (data o) |];
    first [apply agree_ret | apply agree_throw].
Qed.

Lemma agree_parse (markup : string) : agree RI (parse C markup).
Proof.
  unfold parse. destruct (parseStringPromise C markup);
    first [apply agree_ret | apply agree_throw].
Qed.

Lemma agree_for_of {A : Type} (l : list A) (f : A -> M unit) :
  (forall x, agree RI (f x)) -> agree RI (for_of l f).
Proof.
  intros Hf. induction l as [| x l IH]; simpl.
  - apply agree_ret.
  - apply agree_bind; [apply Hf | intros _; exact IH].
Qed.

Lemma agree_for_of_acc {A B : Type} (l : list A) (step : B -> A -> M B) :
  (forall acc x, agree RI (step acc x)) ->
  forall acc, agree RI (for_of_acc l acc step).
Proof.
  intros Hf. induction l as [| x l IH]; intros acc; simpl.
  - apply agree_ret.
  - apply agree_bind; [apply Hf | intros acc'; apply IH].
Qed.

(** Splits a method along its control flow down to the primitives above. *)
Ltac agree_split :=
  repeat first
    [ apply agree_ret | apply agree_throw | apply agree_console_error
    | apply agree_log | apply agree_the_zip | apply agree_async
    | apply agree_parse | apply agree_set_world | apply agree_of_outcome
    | apply agree_bind; [| intros ?]
    | apply agree_try_catch; [| intros ?]
    | apply agree_for_of_acc; intros ? ?
    | match goal with
      | |- agree _ (match ?x with _ => _ end) => destruct x
      | |- agree _ (if ?b then _ else _) => destruct b
      end ].

Lemma agree_getSlideRels (slideFile : string) : agree RI (getSlideRels C slideFile).
Proof. unfold getSlideRels. agree_split. Qed.

Lemma agree_getImageData (slideFile rId : string) :
  agree RI (getImageData C slideFile rId).
Proof.
  unfold getImageData.
  apply agree_try_catch; [| intros ?; agree_split].
  apply agree_bind; [apply agree_getSlideRels | intros rels].
  agree_split.
Qed.

Lemma agree_processImage (imageBuffer : string) :
  agree RI (processImage C imageBuffer).
Proof.
  intros s1 s2 H. unfold processImage.
  destruct (tesseract C imageBuffer) as [| [|] | t [|] | |]; simpl; split;
    try reflexivity; exact H.
Qed.

Lemma agree_append_shape (html : string) (shape : node) :
  agree RI (append_shape html shape).
Proof. unfold append_shape, append_paragraph, append_run. agree_split. Qed.

Lemma agree_append_picture (slideFile html : string) (pic : node) :
  agree RI (append_picture C slideFile html pic).
Proof.
  unfold append_picture.
  destruct (embed_id pic) as [rId |]; [| apply agree_ret].
  destruct (nonempty rId); [| apply agree_ret].
  apply agree_bind; [apply agree_getImageData | intros [buffer |]]; [| apply agree_ret].
  apply agree_bind; [apply agree_processImage | intros [r |]]; agree_split.
Qed.

Lemma agree_convertSlideToHTML (slide : Slide) :
  agree RI (convertSlideToHTML C slide).
Proof.
  unfold convertSlideToHTML.
  destruct (content slide) as [[root sld] |]; [| agree_split].
  destruct (String.eqb root "p:sld" && truthy sld); [| agree_split].
  destruct (shape_tree sld) as [spTree |]; [| agree_split].
  destruct (truthy spTree); [| agree_split].
  apply agree_bind; [| intros ?].
  - destruct (prop spTree "p:sp"); [| apply agree_ret].
    apply agree_for_of_acc. intros. apply agree_append_shape.
  - apply agree_bind; [| intros ?; apply agree_ret].
    destruct (prop spTree "p:pic"); [| apply agree_ret].
    apply agree_for_of_acc. intros. apply agree_append_picture.
Qed.

Lemma agree_generateHTML (l : list Slide) : agree RI (generateHTML C l).
Proof.
  unfold generateHTML.
  apply agree_bind; [| intros ?; apply agree_ret].
  apply agree_for_of_acc. intros.
  apply agree_bind; [apply agree_convertSlideToHTML | intros ?; apply agree_ret].
Qed.

End Agreement.

Lemma same_archive_zip b i1 i2 : same_archive b i1 i2 -> zip i1 = zip i2.
Proof. intros (_ & _ & H). exact H. Qed.

Lemma same_slides_zip b i1 i2 : same_slides b i1 i2 -> zip i1 = zip i2.
Proof. intros [H _]. exact (same_archive_zip _ _ _ H). Qed.

Lemma both_zip i i1 i2 : both i i1 i2 -> zip i1 = zip i2.
Proof. intros [-> ->]. reflexivity. Qed.

Lemma bind_the_zip {A : Type} (k : ZipFiles -> M A) (s : State) :
  bind the_zip k s =
  match zip (this s) with
  | Some z => k z s
  | None => (Thrown TypeError, s)
  end.
Proof. cbv [bind the_zip get_this]. destruct (zip (this s)); reflexivity. Qed.

Lemma bind_get_this {A : Type} (k : Instance -> M A) (s : State) :
  bind get_this k s = k (this s) s.
Proof. reflexivity. Qed.

Lemma bind_set_this {A : Type} (f : Instance -> Instance) (k : unit -> M A) (s : State) :
  bind (set_this f) k s = k tt {| this := f (this s); world := world s |}.
Proof. reflexivity. Qed.

Lemma initialize_run (C : Collaborators) (s : State) :
  initialize C s =
  match loadAsync C (pptxBuffer (this s)) with
  | Some z => (Returned tt, {| this := with_zip (Some z) (this s); world := world s |})
  | None => (Thrown (Rejection "jszip"),
             {| this := this s; world := print (ConsoleError "Error initializing:") (world s) |})
  end.
Proof.
  cbv [initialize try_catch bind get_this].
  destruct (loadAsync C (pptxBuffer (this s))); reflexivity.
Qed.

Section Conversion.

Variable C : Collaborators.
Variable b : JsInput.

Lemma agree_push_slide (sl : Slide) : agree (same_slides b) (push_slide sl).
Proof.
  intros s1 s2 [(B1 & B2 & Z) S]. split; [reflexivity |].
  simpl. unfold same_slides, same_archive. simpl. rewrite S. auto.
Qed.

Lemma agree_parse_slide_file (z : ZipFiles) (slideFile : string) :
  agree (same_slides b) (parse_slide_file C z slideFile).
Proof.
  unfold parse_slide_file.
  apply agree_try_catch; [| intros _; apply agree_console_error].
  apply agree_bind; [apply agree_async | intros slideContent].
  apply agree_bind; [apply agree_parse | intros slideXml].
  apply agree_bind; [apply agree_log | intros _].
  apply agree_bind; [apply agree_log | intros _].
  apply agree_push_slide.
Qed.

Lemma agree_return_slides :
  agree (same_slides b)
    (i <- get_this ;;
     match slides i with
     | [] => ret tt
     | _ => log "First slide content:"
     end ;;
     ret (slides i)).
Proof.
  intros s1 s2 H. pose proof H as [_ S].
  rewrite !bind_get_this, S.
  assert (Hm : agree (same_slides b)
                 (match slides (this s2) with
                  | [] => ret tt
                  | _ => log "First slide content:"
                  end)).
  { destruct (slides (this s2)); [apply agree_ret | apply agree_log]. }
  apply (agree_bind _ _ _ Hm (fun _ => agree_ret _ _)). exact H.
Qed.

Lemma agree_parseSlides : agree (same_archive b) (parseSlides C).
Proof.
  intros s1 s2 H. pose proof H as (B1 & B2 & Z).
  unfold parseSlides. rewrite !bind_the_zip, Z.
  destruct (zip (this s2)) as [z |] eqn:Z2; [| split; [reflexivity | exact H]].
  set (rest := bind (for_of _ _) _).
  assert (Hrest : agree (same_slides b) rest).
  { apply agree_bind;
      [apply agree_for_of; intros f; apply agree_parse_slide_file | intros _].
    apply agree_bind; [apply agree_log | intros _].
    apply agree_return_slides. }
  rewrite !bind_set_this.
  match goal with
  | |- fst (rest ?t1) = fst (rest ?t2) /\ _ =>
      assert (HS : same_slides b (this t1) (this t2))
        by (repeat split; simpl; congruence);
      destruct (Hrest t1 t2 HS) as [E [R _]]
  end.
  split; [exact E | exact R].
Qed.

Lemma agree_toHTML_body :
  agree (same_archive b)
    (slides <- parseSlides C ;; html <- generateHTML C slides ;; ret html).
Proof.
  apply agree_bind; [apply agree_parseSlides | intros l].
  apply agree_bind; [| intros html; apply agree_ret].
  apply agree_generateHTML. apply same_archive_zip.
Qed.

End Conversion.

(** ** Determinism of the conversion *)

Lemma toHTML_run (C : Collaborators) (options : option Options) (s : State) :
  toHTML C options s =
  match loadAsync C (pptxBuffer (this s)) with
  | Some z =>
      try_catch
        (slides <- parseSlides C ;; html <- generateHTML C slides ;; ret html)
        (fun error => console_error "Error converting to HTML:" ;; throw error)
        {| this := with_zip (Some z) (this s); world := world s |}
  | None =>
      (Thrown (Rejection "jszip"),
       {| this := this s;
          world := print (ConsoleError "Error converting to HTML:")
                     (print (ConsoleError "Error initializing:") (world s)) |})
  end.
Proof.
  unfold toHTML, try_catch. unfold bind at 1. rewrite initialize_run.
  destruct (loadAsync C (pptxBuffer (this s))); reflexivity.
Qed.

Lemma toHTML_agree (C : Collaborators) (options : option Options) (b : JsInput)
    (s1 s2 : State) :
  pptxBuffer (this s1) = b -> pptxBuffer (this s2) = b ->
  fst (toHTML C options s1) = fst (toHTML C options s2) /\
  pptxBuffer (this (snd (toHTML C options s1))) = b.
Proof.
  intros B1 B2. rewrite !toHTML_run, B1, B2.
  destruct (loadAsync C b) as [z |]; [| split; [reflexivity | exact B1]].
  match goal with
  | |- fst (?c ?t1) = fst (?c ?t2) /\ _ =>
      assert (Hc : agree (same_archive b) c);
      [| assert (HS : same_archive b (this t1) (this t2))
           by (repeat split; simpl; assumption);
         destruct (Hc t1 t2 HS) as [E (R & _ & _)] ]
  end.
  - apply agree_try_catch; [apply agree_toHTML_body |].
    intros error. apply agree_bind; [apply agree_console_error | intros _; apply agree_throw].
  - split; [exact E | exact R].
Qed.

(** C8. Determinism: the outcome of [toHTML] is a function of the input
    bytes alone (for fixed collaborators).  Two converters holding the same
    bytes return the same HTML, or fail alike, whatever else their state and
    environment hold; in particular a second invocation on the same converter
    repeats the outcome of the first. *)
Theorem toHTML_deterministic (C : Collaborators) (options : option Options)
    (s1 s2 : State) :
  pptxBuffer (this s1) = pptxBuffer (this s2) ->
  fst (toHTML C options s1) = fst (toHTML C options s2) /\
  fst (toHTML C options (snd (toHTML C options s1))) = fst (toHTML C options s1).
Proof.
  intros B.
  destruct (toHTML_agree C options (pptxBuffer (this s2)) s1 s2 B eq_refl) as [E P].
  split; [exact E |].
  apply (toHTML_agree C options (pptxBuffer (this s2))); [exact P | exact B].
Qed.

(** ** OCR workers *)


(** The outcome of [processImage] under each behaviour of the engine. *)
Lemma processImage_outcome (C : Collaborators) (image : string) (s : State) :
  fst (processImage C image s) =
  match tesseract C image with
  | CreateWorkerFails | RecognizeFails true => Returned None
  | Recognizes t true => Returned (Some {| text := t |})
  | RecognizeFails false | Recognizes _ false => Thrown (Rejection "terminate")
  | CreateWorkerAborts | RecognizeAborts => Exited
  end.
Proof.
  unfold processImage. destruct (tesseract C image) as [| [|] | t [|] | |]; reflexivity.
Qed.

Lemma processImage_exits (C : Collaborators) (image : string) (s : State) :
  fst (processImage C image s) = Exited <-> ends_process (tesseract C image) = true.
Proof.
  rewrite processImage_outcome.
  destruct (tesseract C image) as [| [|] | t [|] | |]; simpl; split;
    intros H; try discriminate H; reflexivity.
Qed.



Section Keeps.

Variable C : Collaborators.
Variable I : World -> Prop.
Hypothesis I_print : forall line w, I w -> I (print line w).
Hypothesis I_processImage : forall image, keeps I (processImage C image).

Lemma keeps_ret {A : Type} (a : A) : keeps I (ret a).
Proof. intros s H _. exact H. Qed.

Lemma keeps_throw {A : Type} (e : JsError) : keeps I (@throw A e).
Proof. intros s H _. exact H. Qed.

Lemma keeps_of_outcome {A : Type} (o : Outcome A) : keeps I (of_outcome o).
Proof. intros s H _. exact H. Qed.

Lemma keeps_bind {A B : Type} (c : M A) (k : A -> M B) :
  keeps I c -> (forall a, keeps I (k a)) -> keeps I (bind c k).
Proof.
  intros Hc Hk s H. unfold bind. specialize (Hc s H).
  destruct (c s) as [[a | e |] t]; simpl in Hc |- *; intros N.
  - apply Hk; [apply Hc; discriminate | exact N].
  - apply Hc. discriminate.
  - contradiction.
Qed.

Lemma keeps_try_catch {A : Type} (c : M A) (h : JsError -> M A) :
  keeps I c -> (forall e, keeps I (h e)) -> keeps I (try_catch c h).
Proof.
  intros Hc Hh s H. unfold try_catch. specialize (Hc s H).
  destruct (c s) as [[a | e |] t]; simpl in Hc |- *; intros N.
  - apply Hc. discriminate.
  - apply Hh; [apply Hc; discriminate | exact N].
  - contradiction.
Qed.

Lemma keeps_set_this (f : Instance -> Instance) : keeps I (set_this f).
Proof. intros s H _. exact H. Qed.

Lemma keeps_console_error (msg : string) : keeps I (console_error msg).
Proof. intros s H _. apply I_print. exact H. Qed.

Lemma keeps_log (msg : string) : keeps I (log msg).
Proof.
  intros s H _. unfold log. rewrite bind_get_this.
  destruct (debug (this s)); [apply I_print |]; exact H.
Qed.

Lemma keeps_the_zip : keeps I the_zip.
Proof.
  intros s H _. unfold the_zip. rewrite bind_get_this. destruct (zip (this s)); exact H.
Qed.

Lemma keeps_get_this : keeps I get_this.
Proof. intros s H _. exact H. Qed.

Lemma keeps_for_of {A : Type} (l : list A) (f : A -> M unit) :
  (forall x, keeps I (f x)) -> keeps I (for_of l f).
Proof.
  intros Hf. induction l as [| x l IH]; simpl.
  - apply keeps_ret.
  - apply keeps_bind; [apply Hf | intros _; exact IH].
Qed.

Lemma keeps_for_of_acc {A B : Type} (l : list A) (step : B -> A -> M B) :
  (forall acc x, keeps I (step acc x)) ->
  forall acc, keeps I (for_of_acc l acc step).
Proof.
  intros Hf. induction l as [| x l IH]; intros acc; simpl.
  - apply keeps_ret.
  - apply keeps_bind; [apply Hf | intros acc'; apply IH].
Qed.

Ltac keeps_split :=
  repeat first
    [ apply keeps_ret | apply keeps_throw | apply keeps_console_error
    | apply keeps_log | apply keeps_the_zip | apply keeps_set_this
    | apply keeps_get_this | apply keeps_of_outcome | apply I_processImage
    | apply keeps_bind; [| intros ?]
    | apply keeps_try_catch; [| intros ?]
    | apply keeps_for_of; intros ?
    | apply keeps_for_of_acc; intros ? ?
    | match goal with
      | |- keeps _ (match ?x with _ => _ end) => destruct x
      | |- keeps _ (if ?b then _ else _) => destruct b
      end ].

Lemma keeps_getImageData (slideFile rId : string) :
  keeps I (getImageData C slideFile rId).
Proof. unfold getImageData, getSlideRels, async, parse. keeps_split. Qed.


Lemma keeps_getImageData_of (file rId : jsval) :
  keeps I (getImageData_of C file rId).
Proof. unfold getImageData_of, getSlideRels_of, getSlideRels, async, parse. keeps_split. Qed.






End Keeps.



(** ** Conversions to a string *)

Lemma jsval_nested_ind (Q : jsval -> Prop) :
  Q JUndefined -> Q JNull -> (forall s, Q (JStr s)) ->
  (forall props, Forall (fun kv => Q (snd kv)) props -> Q (JObj props)) ->
  (forall items, Forall Q items -> Q (JArr items)) ->
  forall v, Q v.
Proof.
  intros HU HN HS HO HA. fix IH 1. intros [| | s | props | items].
  - exact HU.
  - exact HN.
  - apply HS.
  - apply HO. induction props as [| [k x] props IHp]; constructor; [apply IH | exact IHp].
  - apply HA. induction items as [| x items IHl]; constructor; [apply IH | exact IHl].
Qed.

Lemma join_items_converts (element : jsval -> Outcome string) (l : list jsval) :
  Forall (fun x => converts (element x)) l -> converts (join_items element l).
Proof.
  induction 1 as [| x l Hx _ IH]; cbn [join_items].
  - left. now eexists.
  - destruct Hx as [[sx ->] | ->]; [| now right].
    destruct l as [| y l]; [left; now eexists |].
    destruct IH as [[rest ->] | ->]; [left; now eexists | now right].
Qed.

Lemma to_string_converts (v : jsval) : converts (to_string v).
Proof.
  induction v as [| | s | props _ | items IH] using jsval_nested_ind;
    cbn [to_string]; try (left; now eexists).
  - destruct (assoc "toString" props); [now right | left; now eexists].
  - apply join_items_converts. eapply Forall_impl; [| exact IH].
    intros x Hx. destruct x; try exact Hx; left; now eexists.
Qed.

Lemma converts_stays (o : Outcome string) : converts o -> o <> Exited.
Proof. intros [[t ->] | ->]; discriminate. Qed.

(** ** Methods that cannot end the process *)

Lemma stays_ret {A : Type} (a : A) : stays (ret a).
Proof. intros s. discriminate. Qed.

Lemma stays_throw {A : Type} (e : JsError) : stays (@throw A e).
Proof. intros s. discriminate. Qed.

Lemma stays_bind {A B : Type} (c : M A) (k : A -> M B) :
  stays c -> (forall a, stays (k a)) -> stays (bind c k).
Proof.
  intros Hc Hk s. unfold bind. specialize (Hc s).
  destruct (c s) as [[a | e |] t]; simpl in Hc |- *;
    [apply Hk | discriminate | contradiction].
Qed.

Lemma stays_try_catch {A : Type} (c : M A) (h : JsError -> M A) :
  stays c -> (forall e, stays (h e)) -> stays (try_catch c h).
Proof.
  intros Hc Hh s. unfold try_catch. specialize (Hc s).
  destruct (c s) as [[a | e |] t]; simpl in Hc |- *;
    [discriminate | apply Hh | contradiction].
Qed.

Lemma stays_of_outcome {A : Type} (o : Outcome A) : o <> Exited -> stays (of_outcome o).
Proof. intros H s. exact H. Qed.

Lemma stays_set_this (f : Instance -> Instance) : stays (set_this f).
Proof. intros s. discriminate. Qed.

Lemma stays_console_error (msg : string) : stays (console_error msg).
Proof. intros s. discriminate. Qed.

Lemma stays_get_this : stays get_this.
Proof. intros s. discriminate. Qed.

Lemma stays_log (msg : string) : stays (log msg).
Proof.
  intros s. unfold log. rewrite bind_get_this. destruct (debug (this s)); discriminate.
Qed.

Lemma stays_the_zip : stays the_zip.
Proof.
  intros s. unfold the_zip. rewrite bind_get_this. destruct (zip (this s)); discriminate.
Qed.

Lemma stays_async (entry : option ZipObject) : stays (async entry).
Proof.
  unfold async. destruct entry as [o |]; [destruct (data o) |]; intros ?; discriminate.
Qed.

Lemma stays_parse (C : Collaborators) (markup : string) : stays (parse C markup).
Proof. unfold parse. destruct (parseStringPromise C markup); intros ?; discriminate. Qed.

Lemma run_text_stays (run : node) : run_text run <> Exited.
Proof.
  unfold run_text. destruct (first (prop run "a:t")) as [[t | attrs kids] |];
    cbn [interpolate]; try discriminate.
  destruct (assoc "toString" kids); discriminate.
Qed.

Lemma stays_for_of {A : Type} (l : list A) (f : A -> M unit) :
  (forall x, stays (f x)) -> stays (for_of l f).
Proof.
  intros Hf. induction l as [| x l IH]; simpl.
  - apply stays_ret.
  - apply stays_bind; [apply Hf | intros _; exact IH].
Qed.

Lemma stays_for_of_acc {A B : Type} (l : list A) (step : B -> A -> M B) :
  (forall acc x, stays (step acc x)) ->
  forall acc, stays (for_of_acc l acc step).
Proof.
  intros Hf. induction l as [| x l IH]; intros acc; simpl.
  - apply stays_ret.
  - apply stays_bind; [apply Hf | intros acc'; apply IH].
Qed.

Ltac stays_split :=
  repeat first
    [ apply stays_ret | apply stays_throw | apply stays_console_error
    | apply stays_log | apply stays_the_zip | apply stays_set_this
    | apply stays_get_this | apply stays_async | apply stays_parse
    | apply stays_bind; [| intros ?]
    | apply stays_try_catch; [| intros ?]
    | apply stays_for_of; intros ?
    | apply stays_for_of_acc; intros ? ?
    | match goal with
      | |- stays (match ?x with _ => _ end) => destruct x
      | |- stays (if ?b then _ else _) => destruct b
      end ].

Section Stays.

Variable C : Collaborators.

Lemma stays_getSlideRels (slideFile : string) : stays (getSlideRels C slideFile).
Proof. unfold getSlideRels. stays_split. Qed.

Lemma stays_getImageData (slideFile rId : string) : stays (getImageData C slideFile rId).
Proof.
  unfold getImageData.
  apply stays_try_catch; [| intros ?; stays_split].
  apply stays_bind; [apply stays_getSlideRels | intros rels]. stays_split.
Qed.

Lemma stays_append_run (html : string) (run : node) : stays (append_run html run).
Proof.
  unfold append_run.
  apply stays_bind; [apply stays_of_outcome, run_text_stays | intros ?; apply stays_ret].
Qed.

Lemma stays_getSlideRels_of (file : jsval) : stays (getSlideRels_of C file).
Proof.
  unfold getSlideRels_of. destruct file; try apply stays_getSlideRels; stays_split.
Qed.

Lemma stays_getImageData_of (file rId : jsval) : stays (getImageData_of C file rId).
Proof.
  unfold getImageData_of. apply stays_try_catch; [| intros ?; stays_split].
  apply stays_bind; [apply stays_getSlideRels_of | intros [table |]]; [| stays_split].
  apply stays_bind; [apply stays_of_outcome, converts_stays, to_string_converts | intros key].
  stays_split.
Qed.

Lemma stays_append_shape (html : string) (shape : node) : stays (append_shape html shape).
Proof.
  unfold append_shape, append_paragraph.
  destruct (first (prop shape "p:txBody")) as [txBody |]; [| apply stays_ret].
  destruct (truthy txBody); [| apply stays_ret].
  apply stays_bind; [| intros ?; apply stays_ret].
  apply stays_for_of_acc. intros acc paragraph.
  apply stays_bind; [| intros ?; apply stays_ret].
  destruct (prop paragraph "a:r"); [| apply stays_ret].
  apply stays_for_of_acc. intros. apply stays_append_run.
Qed.

Lemma stays_parseSlides : stays (parseSlides C).
Proof. unfold parseSlides, parse_slide_file, push_slide. stays_split. Qed.

Lemma stays_initialize : stays (initialize C).
Proof. unfold initialize. stays_split. Qed.

Hypothesis no_abort : forall image, ends_process (tesseract C image) = false.

Lemma stays_processImage (image : string) : stays (processImage C image).
Proof.
  intros s E. apply processImage_exits in E. rewrite no_abort in E. discriminate E.
Qed.

Lemma stays_append_picture (slideFile html : string) (pic : node) :
  stays (append_picture C slideFile html pic).
Proof.
  unfold append_picture.
  destruct (embed_id pic) as [rId |]; [| apply stays_ret].
  destruct (nonempty rId); [| apply stays_ret].
  apply stays_bind; [apply stays_getImageData | intros [buffer |]]; [| apply stays_ret].
  apply stays_bind; [apply stays_processImage | intros [r |]]; stays_split.
Qed.

Lemma stays_convertSlideToHTML (slide : Slide) : stays (convertSlideToHTML C slide).
Proof.
  unfold convertSlideToHTML.
  destruct (content slide) as [[root sld] |]; [| stays_split].
  destruct (String.eqb root "p:sld" && truthy sld); [| stays_split].
  destruct (shape_tree sld) as [spTree |]; [| stays_split].
  destruct (truthy spTree); [| stays_split].
  apply stays_bind; [| intros ?].
  - destruct (prop spTree "p:sp"); [| apply stays_ret].
    apply stays_for_of_acc. intros. apply stays_append_shape.
  - apply stays_bind; [| intros ?; apply stays_ret].
    destruct (prop spTree "p:pic"); [| apply stays_ret].
    apply stays_for_of_acc. intros. apply stays_append_picture.
Qed.

Lemma stays_generateHTML (l : list Slide) : stays (generateHTML C l).
Proof.
  unfold generateHTML.
  apply stays_bind; [| intros ?; apply stays_ret].
  apply stays_for_of_acc. intros acc slide.
  apply stays_bind; [apply stays_convertSlideToHTML | intros ?; apply stays_ret].
Qed.

Lemma stays_toHTML (options : option Options) : stays (toHTML C options).
Proof.
  unfold toHTML.
  apply stays_try_catch; [| intros ?; stays_split].
  apply stays_bind; [apply stays_initialize | intros _].
  apply stays_bind; [apply stays_parseSlides | intros l].
  apply stays_bind; [apply stays_generateHTML | intros ?; apply stays_ret].
Qed.

End Stays.

(** ** Text shapes *)

Lemma append_assoc (a b c : string) : (a ++ b) ++ c = a ++ (b ++ c).
Proof. induction a as [| x a IH]; simpl; [reflexivity | now rewrite IH]. Qed.

Lemma append_nil_r (a : string) : a ++ "" = a.
Proof. induction a as [| x a IH]; simpl; [reflexivity | now rewrite IH]. Qed.

Lemma join_app (l1 l2 : list string) : join (l1 ++ l2)%list = join l1 ++ join l2.
Proof.
  induction l1 as [| x l1 IH]; simpl; [reflexivity |].
  now rewrite IH, append_assoc.
Qed.

(** A list with markup for each element has markup for every part of it. *)
Lemma sequence_split {A : Type} (f : A -> option string) (l1 l2 : list A) (x : A)
    (ms : list string) :
  sequence (map f (l1 ++ x :: l2)%list) = Some ms ->
  exists ms1 m ms2,
    sequence (map f l1) = Some ms1 /\ f x = Some m /\ sequence (map f l2) = Some ms2 /\
    ms = (ms1 ++ m :: ms2)%list.
Proof.
  revert ms. induction l1 as [| y l1 IH]; intros ms; cbn [app map sequence].
  - destruct (f x) as [m |]; [| discriminate].
    destruct (sequence (map f l2)) as [ms2 |]; [| discriminate].
    intros E. injection E as <-. now exists [], m, ms2.
  - destruct (f y) as [my |]; [| discriminate].
    destruct (sequence (map f (l1 ++ x :: l2)%list)) as [ms' |]; [| discriminate].
    intros E. injection E as <-.
    destruct (IH ms' eq_refl) as (ms1 & m & ms2 & -> & Fx & S2 & ->).
    exists (my :: ms1), m, ms2. cbn [option_map]. now repeat split.
Qed.

(** An element of such a list has its markup inside the joined markup. *)
Lemma sequence_member {A : Type} (f : A -> option string) (l : list A) (x : A)
    (ms : list string) :
  sequence (map f l) = Some ms -> In x l ->
  exists m a b, f x = Some m /\ join ms = a ++ m ++ b.
Proof.
  intros S Hin. apply in_split in Hin as (l1 & l2 & ->).
  destruct (sequence_split f l1 l2 x ms S) as (ms1 & m & ms2 & _ & Fx & _ & ->).
  exists m, (join ms1), (join ms2). split; [exact Fx |].
  rewrite join_app. reflexivity.
Qed.

(** Two elements keep their order in the joined markup. *)
Lemma sequence_order {A : Type} (f : A -> option string) (l1 l2 l3 : list A) (x y : A)
    (ms : list string) :
  sequence (map f (l1 ++ x :: l2 ++ y :: l3)%list) = Some ms ->
  exists mx my a b c,
    f x = Some mx /\ f y = Some my /\ join ms = a ++ mx ++ b ++ my ++ c.
Proof.
  intros S.
  destruct (sequence_split f l1 (l2 ++ y :: l3)%list x ms S)
    as (ms1 & mx & ms' & _ & Fx & S' & ->).
  destruct (sequence_split f l2 l3 y ms' S') as (ms2 & my & ms3 & _ & Fy & _ & ->).
  exists mx, my, (join ms1), (join ms2), (join ms3).
  split; [exact Fx | split; [exact Fy |]].
  rewrite join_app. cbn [join fold_right]. rewrite join_app. cbn [join fold_right].
  now rewrite ?append_assoc.
Qed.

(** A run text is a string, or its interpolation throws a [TypeError]. *)
Lemma run_text_cases (run : node) :
  (exists t, run_text run = Returned t) \/ run_text run = Thrown TypeError.
Proof.
  unfold run_text. destruct (first (prop run "a:t")) as [[t | attrs kids] |];
    cbn [interpolate]; eauto.
  destruct (assoc "toString" kids); eauto.
Qed.

Lemma append_run_run (html : string) (run : node) (s : State) :
  append_run html run s =
  (match span_html run with
   | Some m => Returned (html ++ m)
   | None => Thrown TypeError
   end, s).
Proof.
  unfold append_run, span_html, bind, of_outcome.
  destruct (run_text_cases run) as [[t ->] | ->]; reflexivity.
Qed.

(** A loop whose steps append markup or throw appends the markup of its
    elements in order, or throws. *)
Lemma for_of_acc_markup {A : Type} (f : A -> option string)
    (step : string -> A -> M string) (l : list A) :
  (forall acc x s,
      step acc x s = (match f x with
                      | Some m => Returned (acc ++ m)
                      | None => Thrown TypeError
                      end, s)) ->
  forall acc s,
    for_of_acc l acc step s =
    (match sequence (map f l) with
     | Some ms => Returned (acc ++ join ms)
     | None => Thrown TypeError
     end, s).
Proof.
  intros H. induction l as [| x l IH]; intros acc s; cbn [for_of_acc map sequence].
  - cbn. now rewrite append_nil_r.
  - unfold bind. rewrite H. destruct (f x) as [m |]; [| reflexivity].
    rewrite IH. destruct (sequence (map f l)) as [ms |]; [| reflexivity].
    cbn [option_map join fold_right]. now rewrite append_assoc.
Qed.

Lemma append_paragraph_run (html : string) (paragraph : node) (s : State) :
  append_paragraph html paragraph s =
  (match paragraph_html paragraph with
   | Some m => Returned (html ++ m)
   | None => Thrown TypeError
   end, s).
Proof.
  unfold append_paragraph, paragraph_html, paragraph_runs, bind.
  destruct (prop paragraph "a:r") as [runs |].
  - rewrite (for_of_acc_markup span_html append_run runs append_run_run).
    destruct (sequence (map span_html runs)) as [spans |]; [| reflexivity].
    cbn [option_map ret]. now rewrite ?append_assoc.
  - cbn. now rewrite ?append_assoc.
Qed.

Lemma append_shape_run (html : string) (shape : node) (s : State) :
  append_shape html shape s =
  (match shape_contribution shape with
   | Some m => Returned (html ++ m)
   | None => Thrown TypeError
   end, s).
Proof.
  unfold append_shape, shape_contribution, shape_html, shape_paragraphs.
  destruct (first (prop shape "p:txBody")) as [txBody |];
    [| cbn; now rewrite append_nil_r].
  destruct (truthy txBody); [| cbn; now rewrite append_nil_r].
  unfold bind.
  rewrite (for_of_acc_markup paragraph_html append_paragraph _ append_paragraph_run).
  destruct (sequence (map paragraph_html _)) as [ps |]; [| reflexivity].
  cbn [option_map ret]. now rewrite ?append_assoc.
Qed.

Lemma shapes_run (shapes : list node) (html : string) (s : State) :
  for_of_acc shapes html append_shape s =
  (match sequence (map shape_contribution shapes) with
   | Some ms => Returned (html ++ join ms)
   | None => Thrown TypeError
   end, s).
Proof. apply (for_of_acc_markup shape_contribution append_shape shapes append_shape_run). Qed.

(** The markup of a text body is its container around the markup of its
    paragraphs. *)
Lemma shape_contribution_text (shape txBody : node) (m : string) :
  first (prop shape "p:txBody") = Some txBody ->
  truthy txBody = true ->
  shape_contribution shape = Some m ->
  exists paragraphs,
    sequence (map paragraph_html (shape_paragraphs txBody)) = Some paragraphs /\
    m = shape_open ++ join paragraphs ++ "</div>".
Proof.
  intros F T. unfold shape_contribution, shape_html. rewrite F, T.
  destruct (sequence (map paragraph_html (shape_paragraphs txBody))) as [ps |];
    [| discriminate].
  intros E. injection E as <-. now exists ps.
Qed.

Lemma paragraph_html_spans (p : node) (hp : string) :
  paragraph_html p = Some hp ->
  exists spans,
    sequence (map span_html (paragraph_runs p)) = Some spans /\
    hp = "<p>" ++ join spans ++ "</p>".
Proof.
  unfold paragraph_html.
  destruct (sequence (map span_html (paragraph_runs p))) as [spans |]; [| discriminate].
  intros E. injection E as <-. now exists spans.
Qed.

(** ** Slides and their pictures *)

Lemma bind_ret_r {A B : Type} (c : M A) (f : A -> B) (s : State) :
  fst (bind c (fun a => ret (f a)) s) =
  match fst (c s) with
  | Returned a => Returned (f a)
  | Thrown e => Thrown e
  | Exited => Exited
  end.
Proof. unfold bind. destruct (c s) as [[a | e |] t]; reflexivity. Qed.

Lemma slide_shape_tree_parts (slide : Slide) (spTree : node) :
  slide_shape_tree slide = Some spTree ->
  slide_shapes slide = match prop spTree "p:sp" with Some l => l | None => [] end /\
  slide_pictures slide = match prop spTree "p:pic" with Some l => l | None => [] end.
Proof.
  unfold slide_shape_tree, slide_shapes, slide_pictures.
  destruct (content slide) as [[root sld] |]; [| discriminate].
  destruct (String.eqb root "p:sld" && truthy sld); [| discriminate].
  destruct (shape_tree sld) as [t |]; [| discriminate].
  destruct (truthy t); [| discriminate].
  intros E. injection E as ->. split; reflexivity.
Qed.

(** [convertSlideToHTML] in three steps: it gives up on a slide without a
    shape tree, renders the text shapes, which throws when a text cannot be
    interpolated, and then visits the pictures. *)
Lemma convertSlideToHTML_run (C : Collaborators) (slide : Slide) (s : State) :
  fst (convertSlideToHTML C slide s) =
  match slide_shape_tree slide with
  | None => Returned ""
  | Some _ =>
      match slide_text_html slide with
      | None => Thrown TypeError
      | Some html =>
          match fst (for_of_acc (slide_pictures slide) html
                       (append_picture C (file slide)) s) with
          | Returned html' => Returned (html' ++ slide_close)
          | Thrown e => Thrown e
          | Exited => Exited
          end
      end
  end.
Proof.
  destruct (slide_shape_tree slide) as [spTree |] eqn:T.
  - destruct (slide_shape_tree_parts slide spTree T) as [HS HP].
    unfold slide_text_html. rewrite HS, HP. clear HS HP.
    unfold slide_shape_tree in T. unfold convertSlideToHTML.
    destruct (content slide) as [[root sld] |]; [| discriminate].
    destruct (String.eqb root "p:sld" && truthy sld); [| discriminate].
    destruct (shape_tree sld) as [t |]; [| discriminate].
    destruct (truthy t); [| discriminate].
    injection T as ->. unfold bind at 1.
    destruct (prop spTree "p:sp") as [shapes |].
    + rewrite shapes_run.
      destruct (sequence (map shape_contribution shapes)) as [ms |]; [| reflexivity].
      cbn [option_map]. rewrite bind_ret_r.
      destruct (prop spTree "p:pic"); reflexivity.
    + cbn [ret map sequence option_map join fold_right]. rewrite append_nil_r, bind_ret_r.
      destruct (prop spTree "p:pic"); reflexivity.
  - unfold slide_shape_tree in T. unfold convertSlideToHTML.
    destruct (content slide) as [[root sld] |]; [| reflexivity].
    destruct (String.eqb root "p:sld" && truthy sld); [| reflexivity].
    destruct (shape_tree sld) as [t |]; [| reflexivity].
    destruct (truthy t); [discriminate | reflexivity].
Qed.

Section Pictures.

Variable C : Collaborators.
Variable slideFile : string.

Lemma append_picture_same_zip (html : string) (pic : node) (s1 s2 : State) :
  zip (this s1) = zip (this s2) ->
  fst (append_picture C slideFile html pic s1) =
  fst (append_picture C slideFile html pic s2).
Proof.
  intros Z.
  apply (agree_append_picture C same_zip (fun _ _ H => H) slideFile html pic s1 s2 Z).
Qed.

Lemma append_picture_keeps_this (html : string) (pic : node) (s : State) :
  this (snd (append_picture C slideFile html pic s)) = this s.
Proof.
  apply (agree_append_picture C (both (this s)) (both_zip (this s))
           slideFile html pic s s).
  split; reflexivity.
Qed.

Lemma skipped_same_zip (pic : node) (s1 s2 : State) :
  zip (this s1) = zip (this s2) -> skipped C slideFile pic s1 -> skipped C slideFile pic s2.
Proof.
  intros Z H html. rewrite <- (append_picture_same_zip html pic s1 s2 Z). apply H.
Qed.

Lemma pictures_same_zip (pics : list node) (html : string) (s1 s2 : State) :
  zip (this s1) = zip (this s2) ->
  fst (for_of_acc pics html (append_picture C slideFile) s1) =
  fst (for_of_acc pics html (append_picture C slideFile) s2).
Proof.
  intros Z.
  apply (agree_for_of_acc same_zip pics (append_picture C slideFile)
           (fun acc x => agree_append_picture C same_zip (fun _ _ H => H) slideFile acc x)
           html s1 s2 Z).
Qed.

(** A skipped picture can be struck from the list without changing what the
    loop over the pictures yields. *)
Lemma skipped_in_loop (pic : node) (before after : list node) :
  forall (html : string) (s : State),
    skipped C slideFile pic s ->
    fst (for_of_acc (before ++ pic :: after)%list html (append_picture C slideFile) s) =
    fst (for_of_acc (before ++ after)%list html (append_picture C slideFile) s).
Proof.
  induction before as [| x before IH]; intros html s Hs; simpl.
  - unfold bind. specialize (Hs html).
    pose proof (append_picture_keeps_this html pic s) as T.
    destruct (append_picture C slideFile html pic s) as [o t]. simpl in Hs, T.
    subst o. apply pictures_same_zip. now rewrite T.
  - unfold bind.
    pose proof (append_picture_keeps_this html x s) as T.
    destruct (append_picture C slideFile html x s) as [[h | e |] t]; try reflexivity.
    simpl in T. apply IH. apply (skipped_same_zip pic s t); [now rewrite T | exact Hs].
Qed.

End Pictures.

(** The slide as a whole: a skipped picture among its pictures has no effect
    on the slide's markup nor on whether the slide is completed. *)
Lemma skipped_in_slide (C : Collaborators) (slide : Slide) (pic : node)
    (before after : list node) (s : State) :
  slide_pictures slide = (before ++ pic :: after)%list ->
  skipped C (file slide) pic s ->
  fst (convertSlideToHTML C slide s) =
  match slide_shape_tree slide with
  | None => Returned ""
  | Some _ =>
      match slide_text_html slide with
      | None => Thrown TypeError
      | Some html =>
          match fst (for_of_acc (before ++ after)%list html
                       (append_picture C (file slide)) s) with
          | Returned html' => Returned (html' ++ slide_close)
          | Thrown e => Thrown e
          | Exited => Exited
          end
      end
  end.
Proof.
  intros Hp Hs. rewrite convertSlideToHTML_run, Hp.
  destruct (slide_shape_tree slide); [| reflexivity].
  destruct (slide_text_html slide) as [html |]; [| reflexivity].
  now rewrite (skipped_in_loop C (file slide) pic before after html s Hs).
Qed.

(** ** What [parseSlides] records *)

Lemma bind_returned {A B : Type} (c : M A) (k : A -> M B) (a : A) (s t : State) :
  c s = (Returned a, t) -> bind c k s = k a t.
Proof. intros H. unfold bind. now rewrite H. Qed.

Lemma bind_thrown {A B : Type} (c : M A) (k : A -> M B) (e : JsError) (s t : State) :
  c s = (Thrown e, t) -> bind c k s = (Thrown e, t).
Proof. intros H. unfold bind. now rewrite H. Qed.

Lemma bind_exited {A B : Type} (c : M A) (k : A -> M B) (s t : State) :
  c s = (Exited, t) -> bind c k s = (Exited, t).
Proof. intros H. unfold bind. now rewrite H. Qed.

Lemma log_run (msg : string) (s : State) :
  exists t, log msg s = (Returned tt, t) /\ this t = this s.
Proof.
  unfold log. rewrite bind_get_this.
  destruct (debug (this s)); eexists; split; reflexivity.
Qed.

Lemma with_slides_same (i : Instance) : with_slides (slides i) i = i.
Proof. now destruct i. Qed.

Lemma parse_slide_file_run (C : Collaborators) (z : ZipFiles) (slideFile : string)
    (s : State) :
  exists t,
    parse_slide_file C z slideFile s = (Returned tt, t) /\
    this t = with_slides (slides (this s) ++ slide_of C z slideFile)%list (this s).
Proof.
  unfold parse_slide_file, try_catch, slide_of, async, parse.
  destruct (zip_file z slideFile) as [o |].
  2:{ eexists. split; [reflexivity |]. cbn [this]. now rewrite app_nil_r, with_slides_same. }
  destruct (data o) as [bytes |].
  2:{ eexists. split; [reflexivity |]. cbn [this]. now rewrite app_nil_r, with_slides_same. }
  rewrite (bind_returned (ret bytes) _ bytes s s eq_refl).
  destruct (parseStringPromise C bytes) as [| | root n].
  - eexists. split; [reflexivity |]. cbn [this]. now rewrite app_nil_r, with_slides_same.
  - rewrite (bind_returned (ret None) _ None s s eq_refl).
    destruct (log_run "Parsing slide:" s) as (t1 & L1 & T1).
    rewrite (bind_returned _ _ tt s t1 L1).
    destruct (log_run "Full result:" t1) as (t2 & L2 & T2).
    rewrite (bind_returned _ _ tt t1 t2 L2).
    eexists. split; [reflexivity |]. cbn [this snd]. now rewrite T2, T1.
  - rewrite (bind_returned (ret (Some (root, n))) _ (Some (root, n)) s s eq_refl).
    destruct (log_run "Parsing slide:" s) as (t1 & L1 & T1).
    rewrite (bind_returned _ _ tt s t1 L1).
    destruct (log_run "Full result:" t1) as (t2 & L2 & T2).
    rewrite (bind_returned _ _ tt t1 t2 L2).
    eexists. split; [reflexivity |]. cbn [this snd]. now rewrite T2, T1.
Qed.

Lemma parseSlides_loop (C : Collaborators) (z : ZipFiles) (files : list string) :
  forall s, exists t,
    for_of files (parse_slide_file C z) s = (Returned tt, t) /\
    this t = with_slides (slides (this s) ++ flat_map (slide_of C z) files)%list (this s).
Proof.
  induction files as [| f files IH]; intros s; cbn [for_of flat_map].
  - exists s. split; [reflexivity |]. now rewrite app_nil_r, with_slides_same.
  - destruct (parse_slide_file_run C z f s) as (t1 & R1 & T1).
    rewrite (bind_returned _ _ tt s t1 R1).
    destruct (IH t1) as (t2 & R2 & T2).
    exists t2. split; [exact R2 |]. rewrite T2, T1. cbn. now rewrite app_assoc.
Qed.

(** [parseSlides] returns the readable slide parts in the order [sort] gives
    their names. *)
Lemma parseSlides_result (C : Collaborators) (z : ZipFiles) (s : State) :
  zip (this s) = Some z ->
  fst (parseSlides C s) = Returned (parsed_slides C z).
Proof.
  intros Z. unfold parseSlides. rewrite bind_the_zip, Z, bind_set_this.
  match goal with
  | |- context [bind (for_of ?l _) _ ?t0] =>
      destruct (parseSlides_loop C z l t0) as (t1 & R1 & T1);
      rewrite (bind_returned _ _ tt t0 t1 R1)
  end.
  destruct (log_run "Successfully parsed slides:" t1) as (t2 & L2 & T2).
  rewrite (bind_returned _ _ tt t1 t2 L2), bind_get_this, bind_ret_r.
  rewrite T2, T1. cbn [this slides with_slides app]. fold (parsed_slides C z).
  destruct (parsed_slides C z); [reflexivity |].
  destruct (log_run "First slide content:" t2) as (t3 & L3 & _). now rewrite L3.
Qed.

(** After the archive is opened, [toHTML] ends as [generateHTML] ends on the
    slides that [parseSlides] recorded. *)
Lemma toHTML_generate (C : Collaborators) (options : option Options) (s : State)
    (z : ZipFiles) :
  loadAsync C (pptxBuffer (this s)) = Some z ->
  exists t,
    fst (toHTML C options s) =
    match fst (generateHTML C (parsed_slides C z) t) with
    | Returned html => Returned html
    | Thrown e => Thrown e
    | Exited => Exited
    end.
Proof.
  intros L. rewrite toHTML_run, L. unfold try_catch.
  set (t := {| this := with_zip (Some z) (this s); world := world s |}).
  unfold bind at 1.
  pose proof (parseSlides_result C z t eq_refl) as P.
  destruct (parseSlides C t) as [o t']. cbn [fst] in P. subst o.
  exists t'.
  pose proof (bind_ret_r (generateHTML C (parsed_slides C z)) (fun h => h) t') as B.
  destruct (bind (generateHTML C (parsed_slides C z)) _ t') as [o t'']. cbn [fst] in B.
  subst o. destruct (fst (generateHTML C (parsed_slides C z) t')); reflexivity.
Qed.

(** ** Completion of the conversion *)

Section Completion.

Variable C : Collaborators.

Lemma returns_ret {A : Type} (a : A) : returns (ret a).
Proof. intros s. now exists a. Qed.

Lemma returns_bind {A B : Type} (c : M A) (k : A -> M B) :
  returns c -> (forall a, returns (k a)) -> returns (bind c k).
Proof.
  intros Hc Hk s. unfold bind. destruct (Hc s) as [a E].
  destruct (c s) as [o t]. simpl in E. subst o. apply Hk.
Qed.

Lemma returns_try_catch {A : Type} (c : M A) (h : JsError -> M A) :
  stays c -> (forall e, returns (h e)) -> returns (try_catch c h).
Proof.
  intros Hc Hh s. unfold try_catch. specialize (Hc s).
  destruct (c s) as [[a | e |] t].
  - now exists a.
  - apply Hh.
  - contradiction.
Qed.

Lemma returns_console_error (msg : string) : returns (console_error msg).
Proof. intros s. now exists tt. Qed.

Lemma returns_log (msg : string) : returns (log msg).
Proof.
  intros s. exists tt. unfold log. rewrite bind_get_this.
  destruct (debug (this s)); reflexivity.
Qed.

Lemma returns_for_of {A : Type} (l : list A) (f : A -> M unit) :
  (forall x, returns (f x)) -> returns (for_of l f).
Proof.
  intros Hf. induction l as [| x l IH]; simpl.
  - apply returns_ret.
  - apply returns_bind; [apply Hf | intros _; exact IH].
Qed.

Lemma returns_for_of_acc {A B : Type} (l : list A) (step : B -> A -> M B) :
  (forall acc x, returns (step acc x)) ->
  forall acc, returns (for_of_acc l acc step).
Proof.
  intros Hf. induction l as [| x l IH]; intros acc; simpl.
  - apply returns_ret.
  - apply returns_bind; [apply Hf | intros acc'; apply IH].
Qed.

Lemma returns_getImageData (slideFile rId : string) :
  returns (getImageData C slideFile rId).
Proof.
  unfold getImageData. apply returns_try_catch.
  - apply stays_bind; [apply stays_getSlideRels | intros rels]. stays_split.
  - intros _.
    apply returns_bind; [apply returns_console_error | intros _; apply returns_ret].
Qed.

Hypothesis terminate_ok : forall image, terminate_returns (tesseract C image) = true.
Hypothesis no_abort : forall image, ends_process (tesseract C image) = false.

Lemma returns_processImage (image : string) : returns (processImage C image).
Proof.
  intros s. rewrite processImage_outcome.
  specialize (terminate_ok image). specialize (no_abort image).
  destruct (tesseract C image) as [| [|] | t [|] | |];
    try discriminate terminate_ok; try discriminate no_abort; eauto.
Qed.

Lemma returns_append_picture (slideFile html : string) (pic : node) :
  returns (append_picture C slideFile html pic).
Proof.
  unfold append_picture.
  destruct (embed_id pic) as [rId |]; [| apply returns_ret].
  destruct (nonempty rId); [| apply returns_ret].
  apply returns_bind; [apply returns_getImageData | intros [buffer |]]; [| apply returns_ret].
  apply returns_bind; [apply returns_processImage | intros [r |]]; [| apply returns_ret].
  destruct (nonempty (text r)); apply returns_ret.
Qed.

(** With an engine that neither ends the process nor fails to terminate a
    worker, a slide is rendered exactly when its texts can be interpolated. *)
Lemma convertSlideToHTML_outcome (slide : Slide) (s : State) :
  if renderable slide
  then exists fragment, fst (convertSlideToHTML C slide s) = Returned fragment
  else fst (convertSlideToHTML C slide s) = Thrown TypeError.
Proof.
  rewrite convertSlideToHTML_run. unfold renderable.
  destruct (slide_shape_tree slide) as [spTree |]; [| now eexists].
  destruct (slide_text_html slide) as [html |]; [| reflexivity].
  destruct (returns_for_of_acc (slide_pictures slide) (append_picture C (file slide))
              (returns_append_picture (file slide)) html s) as [h ->].
  now eexists.
Qed.

Lemma generateHTML_loop_outcome (l : list Slide) :
  forall acc s,
    let loop := for_of_acc l acc
                  (fun slidesHTML slide =>
                     slideHTML <- convertSlideToHTML C slide ;;
                     ret (slidesHTML ++ slideHTML)) in
    if forallb renderable l
    then exists body, fst (loop s) = Returned body
    else fst (loop s) = Thrown TypeError.
Proof.
  induction l as [| slide l IH]; intros acc s; cbn [for_of_acc forallb].
  - now eexists.
  - cbv zeta.
    pose proof (convertSlideToHTML_outcome slide s) as O.
    destruct (convertSlideToHTML C slide s) as [o t] eqn:E. cbn [fst] in O.
    destruct (renderable slide); cbn [andb].
    + destruct O as [fragment ->].
      rewrite (bind_returned _ _ (acc ++ fragment) s t);
        [apply IH | now rewrite (bind_returned _ _ fragment s t E)].
    + subst o.
      rewrite (bind_thrown _ _ TypeError s t);
        [reflexivity | now rewrite (bind_thrown _ _ TypeError s t E)].
Qed.

Lemma generateHTML_outcome (l : list Slide) (s : State) :
  if forallb renderable l
  then exists html, fst (generateHTML C l s) = Returned html
  else fst (generateHTML C l s) = Thrown TypeError.
Proof.
  unfold generateHTML. rewrite bind_ret_r.
  pose proof (generateHTML_loop_outcome l "" s) as O. cbv zeta in O.
  destruct (forallb renderable l).
  - destruct O as [body ->]. now eexists.
  - now rewrite O.
Qed.

(** Once the archive can be opened the conversion runs to its end, whatever
    parts are malformed or unreadable and whatever relationships or assets are
    missing, unless the text of a run cannot be interpolated: then it throws
    a [TypeError]. *)
Lemma toHTML_outcome (options : option Options) (s : State) (z : ZipFiles) :
  loadAsync C (pptxBuffer (this s)) = Some z ->
  if forallb renderable (parsed_slides C z)
  then exists html, fst (toHTML C options s) = Returned html
  else fst (toHTML C options s) = Thrown TypeError.
Proof.
  intros L. destruct (toHTML_generate C options s z L) as [t ->].
  pose proof (generateHTML_outcome (parsed_slides C z) t) as G.
  destruct (forallb renderable (parsed_slides C z)).
  - destruct G as [html ->]. now exists html.
  - now rewrite G.
Qed.

End Completion.

(** ** Pictures that cannot be resolved or recognised *)

Section SoftFailures.

Variable C : Collaborators.

Lemma getSlideRels_no_file (slideFile n : string) (z : ZipFiles) (s : State) :
  zip (this s) = Some z ->
  match_slide_number slideFile = Some n ->
  zip_file z ("ppt/slides/_rels/slide" ++ n ++ ".xml.rels") = None ->
  fst (getSlideRels C slideFile s) = Returned None.
Proof.
  intros Z N F. unfold getSlideRels, try_catch.
  rewrite N, bind_the_zip, Z, F. reflexivity.
Qed.

Lemma getImageData_no_table (slideFile rId : string) (s : State) :
  fst (getSlideRels C slideFile s) = Returned None ->
  fst (getImageData C slideFile rId s) = Returned None.
Proof.
  intros G. unfold getImageData, try_catch. unfold bind at 1.
  destruct (getSlideRels C slideFile s) as [o t]. simpl in G. subst o. reflexivity.
Qed.

Lemma getImageData_no_entry (slideFile rId : string) (table : list (string * Rel))
    (s : State) :
  fst (getSlideRels C slideFile s) = Returned (Some table) ->
  assoc rId table = None ->
  fst (getImageData C slideFile rId s) = Returned None.
Proof.
  intros G A. unfold getImageData, try_catch. unfold bind at 1.
  destruct (getSlideRels C slideFile s) as [o t]. simpl in G. subst o.
  rewrite A. reflexivity.
Qed.

Lemma getImageData_no_ocr (slideFile rId : string) (s : State) :
  ocr_events (world (snd (getImageData C slideFile rId s))) = ocr_events (world s).
Proof.
  apply (keeps_getImageData C (fun w => ocr_events w = ocr_events (world s))).
  - intros line w H. exact H.
  - reflexivity.
  - apply stays_getImageData.
Qed.

Lemma append_picture_unresolved (slideFile rId html : string) (pic : node) (s : State) :
  embed_id pic = Some rId ->
  fst (getImageData C slideFile rId s) = Returned None ->
  exists s', append_picture C slideFile html pic s = (Returned html, s') /\
             ocr_events (world s') = ocr_events (world s).
Proof.
  intros E G. unfold append_picture. rewrite E.
  destruct (nonempty rId); [| now exists s].
  unfold bind. pose proof (getImageData_no_ocr slideFile rId s) as W.
  destruct (getImageData C slideFile rId s) as [o t]. simpl in G, W. subst o.
  now exists t.
Qed.

Lemma append_picture_resolved (slideFile rId html image : string) (pic : node) (s : State) :
  embed_id pic = Some rId ->
  fst (getImageData C slideFile rId s) = Returned (Some image) ->
  fst (append_picture C slideFile html pic s) =
  if nonempty rId then
    match fst (processImage C image (snd (getImageData C slideFile rId s))) with
    | Returned (Some r) =>
        Returned (if nonempty (text r) then html ++ picture_fragment (text r) else html)
    | Returned None => Returned html
    | Thrown e => Thrown e
    | Exited => Exited
    end
  else Returned html.
Proof.
  intros E G. unfold append_picture. rewrite E.
  destruct (nonempty rId); [| reflexivity].
  unfold bind.
  destruct (getImageData C slideFile rId s) as [o t]. simpl in G. subst o. simpl.
  destruct (processImage C image t) as [[[r |] | e |] t']; simpl; try reflexivity.
  destruct (nonempty (text r)); reflexivity.
Qed.

(** [append_picture] leaves the markup as it is or appends one picture
    fragment, the latter only for a resolved asset whose recognised text is
    not empty. *)
Lemma append_picture_cases (slideFile html html' : string) (pic0 : node) (s0 : State) :
  fst (append_picture C slideFile html pic0 s0) = Returned html' ->
  html' = html \/
  exists rId0 image0 t,
    embed_id pic0 = Some rId0 /\
    fst (getImageData C slideFile rId0 s0) = Returned (Some image0) /\
    tesseract C image0 = Recognizes t true /\
    nonempty t = true /\
    html' = html ++ picture_fragment t.
Proof.
  intros R.
  destruct (embed_id pic0) as [rId0 |] eqn:E0.
  2:{ unfold append_picture in R. rewrite E0 in R. left. now inversion R. }
  destruct (getImageData C slideFile rId0 s0) as [o t] eqn:G0.
  destruct o as [[image0 |] | e |].
  - rewrite (append_picture_resolved slideFile rId0 html image0 pic0 s0 E0) in R
      by (now rewrite G0).
    destruct (nonempty rId0); [| left; now inversion R].
    rewrite processImage_outcome in R.
    destruct (tesseract C image0) as [| [|] | t0 [|] | |] eqn:B0;
      try discriminate R; try (left; now inversion R).
    simpl in R. destruct (nonempty t0) eqn:N0; [| left; now inversion R].
    right. exists rId0, image0, t0. rewrite G0. inversion R. auto.
  - destruct (append_picture_unresolved slideFile rId0 html pic0 s0 E0) as (s' & A & _);
      [now rewrite G0 |].
    rewrite A in R. left. now inversion R.
  - unfold append_picture in R. rewrite E0 in R.
    destruct (nonempty rId0); [| left; now inversion R].
    unfold bind in R. rewrite G0 in R. discriminate R.
  - unfold append_picture in R. rewrite E0 in R.
    destruct (nonempty rId0); [| left; now inversion R].
    unfold bind in R. rewrite G0 in R. discriminate R.
Qed.

(** C10. When the asset of a picture resolves and recognition succeeds with
    the empty text, the picture adds nothing to the slide's markup, exactly as
    a picture whose resolution failed.  In general [append_picture] either
    leaves the markup as it is or appends one picture fragment, and it appends
    the fragment only for a resolved asset with a non-empty recognised text. *)
Theorem blank_recognition_emits_nothing (slideFile rId image : string) (pic : node)
    (s : State) :
  embed_id pic = Some rId ->
  fst (getImageData C slideFile rId s) = Returned (Some image) ->
  tesseract C image = Recognizes "" true ->
  (forall s0, fst (processImage C image s0) = Returned (Some {| text := "" |})) /\
  (forall html, fst (append_picture C slideFile html pic s) = Returned html) /\
  (forall pic' rId' html,
      embed_id pic' = Some rId' ->
      fst (getImageData C slideFile rId' s) = Returned None ->
      fst (append_picture C slideFile html pic s) =
      fst (append_picture C slideFile html pic' s)) /\
  (forall pic0 s0 html html',
      fst (append_picture C slideFile html pic0 s0) = Returned html' ->
      html' = html \/
      exists rId0 image0 t,
        embed_id pic0 = Some rId0 /\
        fst (getImageData C slideFile rId0 s0) = Returned (Some image0) /\
        tesseract C image0 = Recognizes t true /\
        nonempty t = true /\
        html' = html ++ picture_fragment t).
Proof.
  intros E G B.
  assert (P : forall s0, fst (processImage C image s0) = Returned (Some {| text := "" |})).
  { intros s0. rewrite processImage_outcome, B. reflexivity. }
  assert (K : forall html, fst (append_picture C slideFile html pic s) = Returned html).
  { intros html. rewrite (append_picture_resolved _ _ html _ _ _ E G), P.
    destruct (nonempty rId); reflexivity. }
  split; [exact P | split; [exact K | split]].
  - intros pic' rId' html E' G'. rewrite K.
    destruct (append_picture_unresolved _ _ html _ _ E' G') as (s' & -> & _).
    reflexivity.
  - intros pic0 s0 html html' R. exact (append_picture_cases _ _ _ _ _ R).
Qed.

End SoftFailures.

(** C4. The specification asks that a picture whose slide has no relationship for
    its embed id be rendered empty.  [getSlideRels] finds the relationship
    file of a slide by the number in the slide's name alone, always under
    [ppt/slides/_rels/].  The deck below has slide 1 with its relationship
    file and a second slide part, [ppt/slides/slideshow/slide1.xml], that
    [parseSlides] accepts and that has no relationship file; for the picture
    on that slide the converter reads the relationships of slide 1, resolves
    the picture to the image of slide 1 and renders its text. *)
Theorem relationships_borrowed_from_another_slide :
  is_slide_file "ppt/slides/slideshow/slide1.xml" = true /\
  filter (endsWith ".rels") (keys Samples.deck_stray) =
    ["_rels/.rels"; "ppt/slides/_rels/slide1.xml.rels"] /\
  match_slide_number "ppt/slides/slideshow/slide1.xml" = Some "1" /\
  fst (getImageData Samples.sample "ppt/slides/slideshow/slide1.xml" "rId7"
         (Samples.opened "PK:stray")) = Returned (Some "PNG:scanned-text") /\
  fst (toHTML Samples.sample None (start (Buffer "PK:stray"))) =
    Returned (Samples.document
                (slide_open ++ shape_open ++ "<p><span>Title</span></p></div>"
                   ++ picture_fragment "SCANNED" ++ slide_close ++
                 slide_open ++ shape_open ++ "<p><span>Stray</span></p></div>"
                   ++ picture_fragment "SCANNED" ++ slide_close)).
Proof. repeat split; vm_compute; reflexivity. Qed.

(** C5. The specification asks that a failing recognition be absorbed.
    [processImage] catches a rejection, but it calls [createWorker()] without
    an [errorHandler]: when the engine cannot read an image, it throws the
    error outside the [try] block as well, and the process ends in the middle
    of the conversion, with the worker created and never terminated.  And
    when terminating the worker rejects after a rejected recognition, the
    [finally] block throws and the conversion fails. *)
Theorem failed_recognition_ends_the_conversion :
  (fst (getImageData Samples.sample "ppt/slides/slide1.xml" "rId7"
          (Samples.opened "PK:picture-unreadable")) = Returned (Some "PNG:noise") /\
   tesseract Samples.sample "PNG:noise" = RecognizeAborts /\
   fst (processImage Samples.sample "PNG:noise" (Samples.opened "PK:picture-unreadable")) =
     Exited /\
   toHTML Samples.sample None (start (Buffer "PK:picture-unreadable")) =
     (Exited,
      {| this := with_slides [MoreSamples.picture_slide]
                   (with_zip (Samples.sample_load (Buffer "PK:picture-unreadable"))
                      (constructor (Buffer "PK:picture-unreadable")));
         world := {| console := []; next_worker := 1; live_workers := [0];
                     ocr_events := [WorkerCreated 0; Recognition 0 "PNG:noise"] |} |})) /\
  (tesseract Samples.sample "PNG:stuck" = RecognizeFails false /\
   fst (processImage Samples.sample "PNG:stuck" (Samples.opened "PK:picture-stuck")) =
     Thrown (Rejection "terminate") /\
   fst (toHTML Samples.sample None (start (Buffer "PK:picture-stuck"))) =
     Thrown (Rejection "terminate")).
Proof. repeat split; vm_compute; reflexivity. Qed.

(** ** Order of the slides *)

Lemma insert_sorted_Sorted (x : string) (l : list string) :
  Sorted (fun a b => String.leb a b = true) l ->
  Sorted (fun a b => String.leb a b = true) (insert_sorted x l).
Proof.
  induction 1 as [| y l Hl IH Hy]; simpl.
  - repeat constructor.
  - destruct (String.leb x y) eqn:E.
    + constructor; [constructor; assumption | constructor; exact E].
    + assert (Hyx : String.leb y x = true).
      { destruct (String.leb_total x y) as [H | H]; [congruence | exact H]. }
      constructor; [exact IH |].
      destruct l as [| y' l']; simpl.
      * constructor. exact Hyx.
      * inversion Hy; subst. destruct (String.leb x y'); constructor; assumption.
Qed.

(** [sort] arranges names in ascending order of their characters. *)
Lemma sort_Sorted (l : list string) :
  Sorted (fun a b => String.leb a b = true) (sort l).
Proof.
  induction l as [| x l IH]; simpl; [constructor | now apply insert_sorted_Sorted].
Qed.

(** ** Slide containers *)

Lemma slide_text_html_open (slide : Slide) (html : string) :
  slide_text_html slide = Some html -> exists x, html = slide_open ++ x.
Proof.
  unfold slide_text_html.
  destruct (sequence (map shape_contribution (slide_shapes slide))) as [ms |];
    [| discriminate].
  cbn [option_map]. intros E. injection E as <-. now exists (join ms).
Qed.

Lemma pictures_append (C : Collaborators) (slideFile : string) (pics : list node) :
  forall html html' s,
    fst (for_of_acc pics html (append_picture C slideFile) s) = Returned html' ->
    exists x, html' = html ++ x.
Proof.
  induction pics as [| pic pics IH]; intros html html' s; cbn [for_of_acc].
  - intros E. injection E as <-. exists "". now rewrite append_nil_r.
  - unfold bind.
    destruct (append_picture C slideFile html pic s) as [[h | e |] t] eqn:A;
      try discriminate.
    intros R. destruct (IH h html' t R) as [x ->].
    destruct (append_picture_cases C slideFile html h pic s)
      as [-> | (rId & image & w & _ & _ & _ & _ & ->)];
      [now rewrite A | eauto |].
    exists (picture_fragment w ++ x). now rewrite ?append_assoc.
Qed.

(** ** Text shapes on a slide *)

(** C6.  For a text shape that stands directly in the shape tree of a
    slide (a shape inside a group is never visited), whenever the slide is rendered its fragment holds the
    container of the shape with one paragraph container per paragraph of the
    text body and, inside each, one span per run, in document order: of two
    paragraphs of the shape the earlier one comes first in the fragment, and
    so for two runs of a paragraph.  And the slide is rendered whenever its
    texts can be interpolated and the engine neither ends the process nor
    fails to terminate a worker. *)
Theorem text_shape_in_document_order (C : Collaborators) (slide : Slide)
    (before after : list node) (shape txBody : node) (s : State) :
  slide_shape_tree slide <> None ->
  slide_shapes slide = (before ++ shape :: after)%list ->
  first (prop shape "p:txBody") = Some txBody ->
  truthy txBody = true ->
  (slide_text_html slide <> None ->
   (forall image, terminate_returns (tesseract C image) = true) ->
   (forall image, ends_process (tesseract C image) = false) ->
   exists fragment, fst (convertSlideToHTML C slide s) = Returned fragment) /\
  (forall fragment,
      fst (convertSlideToHTML C slide s) = Returned fragment ->
      exists paragraphs,
        sequence (map paragraph_html (shape_paragraphs txBody)) = Some paragraphs /\
        (exists a b, fragment = a ++ (shape_open ++ join paragraphs ++ "</div>") ++ b) /\
        (forall ps1 p ps2 q ps3,
            shape_paragraphs txBody = (ps1 ++ p :: ps2 ++ q :: ps3)%list ->
            exists hp hq a b c,
              paragraph_html p = Some hp /\ paragraph_html q = Some hq /\
              fragment = a ++ hp ++ b ++ hq ++ c) /\
        (forall p rs1 r rs2 r' rs3,
            In p (shape_paragraphs txBody) ->
            paragraph_runs p = (rs1 ++ r :: rs2 ++ r' :: rs3)%list ->
            exists hr hr' a b c,
              span_html r = Some hr /\ span_html r' = Some hr' /\
              fragment = a ++ hr ++ b ++ hr' ++ c)).
Proof.
  intros HT HS F T. split.
  - intros R TO NA.
    pose proof (convertSlideToHTML_outcome C TO NA slide s) as O.
    unfold renderable in O.
    destruct (slide_shape_tree slide); [| contradiction].
    destruct (slide_text_html slide); [exact O | contradiction].
  - intros fragment R. rewrite convertSlideToHTML_run in R.
    destruct (slide_shape_tree slide) as [spTree |]; [| contradiction].
    unfold slide_text_html in R. rewrite HS in R.
    destruct (sequence (map shape_contribution (before ++ shape :: after)%list))
      as [ms |] eqn:SQ; [| discriminate R].
    cbn [option_map] in R.
    destruct (fst (for_of_acc _ _ _ s)) as [html' | |] eqn:P; try discriminate R.
    injection R as <-.
    destruct (pictures_append _ _ _ _ _ _ P) as [x ->].
    destruct (sequence_split _ _ _ _ _ SQ) as (ms1 & m & ms2 & _ & SC & _ & ->).
    destruct (shape_contribution_text shape txBody m F T SC) as (paragraphs & SP & ->).
    exists paragraphs. split; [exact SP |].
    assert (Whole : forall inner a b,
               join paragraphs = a ++ inner ++ b ->
               exists a' b',
                 ((slide_open
                     ++ join (ms1 ++ (shape_open ++ join paragraphs ++ "</div>")%string
                                :: ms2)%list) ++ x) ++ slide_close =
                 a' ++ inner ++ b').
    { intros inner a b E. rewrite join_app. cbn [join fold_right]. rewrite E.
      exists (slide_open ++ join ms1 ++ shape_open ++ a),
             (b ++ "</div>" ++ join ms2 ++ x ++ slide_close).
      now rewrite ?append_assoc. }
    split; [| split].
    + rewrite join_app. cbn [join fold_right].
      exists (slide_open ++ join ms1), (join ms2 ++ x ++ slide_close).
      now rewrite ?append_assoc.
    + intros ps1 p ps2 q ps3 E. rewrite E in SP.
      destruct (sequence_order _ _ _ _ _ _ _ SP) as (hp & hq & a & b & c & Hp & Hq & J).
      destruct (Whole (hp ++ b ++ hq) a c) as (a' & b' & W);
        [rewrite J; now rewrite ?append_assoc |].
      exists hp, hq, a', b, b'. split; [exact Hp | split; [exact Hq |]].
      rewrite W. now rewrite ?append_assoc.
    + intros p rs1 r rs2 r' rs3 Hin E.
      destruct (sequence_member _ _ _ _ SP Hin) as (hp & a & b & Hp & J).
      destruct (paragraph_html_spans p hp Hp) as (spans & SS & ->).
      rewrite E in SS.
      destruct (sequence_order _ _ _ _ _ _ _ SS) as (hr & hr' & a1 & b1 & c1 & Hr & Hr' & J').
      destruct (Whole (hr ++ b1 ++ hr') (a ++ "<p>" ++ a1) (c1 ++ "</p>" ++ b))
        as (a' & b' & W); [rewrite J, J'; now rewrite ?append_assoc |].
      exists hr, hr', a', b1, b'. split; [exact Hr | split; [exact Hr' |]].
      rewrite W. now rewrite ?append_assoc.
Qed.

(** A text shape inside a group shape: the converter does not descend into
    groups, and the fragment of the slide has no paragraph container. *)
Lemma grouped_text_shape_is_not_rendered :
  let shape := Samples.text_shape [["Hello"]; ["World"]] in
  let slide := {| file := "ppt/slides/slide1.xml";
                  content := Some ("p:sld", Samples.group_slide_node [shape]) |} in
  shape_contribution shape =
    Some (shape_open ++ "<p><span>Hello</span></p><p><span>World</span></p></div>") /\
  fst (convertSlideToHTML Samples.sample slide (Samples.opened "PK:grouped")) =
    Returned (slide_open ++ slide_close) /\
  includes "<p>" (slide_open ++ slide_close) = false /\
  includes "Hello" (slide_open ++ slide_close) = false /\
  fst (toHTML Samples.sample None (start (Buffer "PK:grouped"))) =
    Returned (Samples.document (slide_open ++ slide_close)).
Proof. repeat split; vm_compute; reflexivity. Qed.

(** What [convertSlideToHTML] returns is one slide container, or the empty
    string for a slide it gives up on. *)
Lemma convertSlideToHTML_fragment (C : Collaborators) (slide : Slide) (s : State)
    (fragment : string) :
  fst (convertSlideToHTML C slide s) = Returned fragment ->
  slide_fragment slide fragment.
Proof.
  rewrite convertSlideToHTML_run. unfold slide_fragment.
  destruct (slide_shape_tree slide) as [spTree |].
  - destruct (slide_text_html slide) as [html |] eqn:T; [| discriminate].
    destruct (fst (for_of_acc _ html _ s)) as [html' | |] eqn:P; try discriminate.
    intros E. injection E as <-.
    destruct (pictures_append _ _ _ _ _ _ P) as [y ->].
    destruct (slide_text_html_open _ _ T) as [x ->].
    exists (x ++ y). now rewrite ?append_assoc.
  - intros E. now injection E as <-.
Qed.

Lemma generateHTML_loop_fragments (C : Collaborators) (l : list Slide) :
  forall acc body s,
    fst (for_of_acc l acc
           (fun slidesHTML slide =>
              slideHTML <- convertSlideToHTML C slide ;;
              ret (slidesHTML ++ slideHTML)) s) = Returned body ->
    exists fragments,
      Forall2 slide_fragment l fragments /\ body = acc ++ join fragments.
Proof.
  induction l as [| slide l IH]; intros acc body s; cbn [for_of_acc].
  - intros E. injection E as <-. exists []. split; [constructor |].
    now rewrite append_nil_r.
  - destruct (convertSlideToHTML C slide s) as [[fragment | e |] t] eqn:F.
    + rewrite (bind_returned _ _ (acc ++ fragment) s t)
        by (now rewrite (bind_returned _ _ fragment s t F)).
      intros R. destruct (IH _ _ _ R) as (fragments & HF & ->).
      exists (fragment :: fragments). split.
      * constructor; [| exact HF].
        apply (convertSlideToHTML_fragment C slide s). now rewrite F.
      * cbn [join fold_right]. now rewrite ?append_assoc.
    + rewrite (bind_thrown _ _ e s t) by (now rewrite (bind_thrown _ _ e s t F)).
      discriminate.
    + rewrite (bind_exited _ _ s t) by (now rewrite (bind_exited _ _ s t F)).
      discriminate.
Qed.

(** The body of the document is the concatenation of one fragment per slide
    that [parseSlides] recorded, in that order: as many slide containers as
    there are readable slide parts with a shape tree. *)
Lemma toHTML_slide_containers (C : Collaborators) (options : option Options)
    (s : State) (z : ZipFiles) (html : string) :
  loadAsync C (pptxBuffer (this s)) = Some z ->
  fst (toHTML C options s) = Returned html ->
  exists fragments,
    Forall2 slide_fragment (parsed_slides C z) fragments /\
    html = document_head ++ generateStyles ++ document_neck
             ++ join fragments ++ document_tail.
Proof.
  intros L. destruct (toHTML_generate C options s z L) as [t ->].
  unfold generateHTML. rewrite bind_ret_r.
  destruct (fst (for_of_acc (parsed_slides C z) "" _ t)) as [body | |] eqn:G;
    try discriminate.
  intros E. injection E as <-.
  destruct (generateHTML_loop_fragments C _ _ _ _ G) as (fragments & HF & ->).
  exists fragments. split; [exact HF | reflexivity].
Qed.

(** C1. The specification asks for the slides in ascending order of the number in
    their file names.  [parseSlides] sorts the names as strings, and the
    string [slide10.xml] sorts before [slide2.xml]: on a deck with the parts
    [slide2.xml] and [slide10.xml] the document shows the tenth slide first
    and the second slide after it. *)
Theorem tenth_slide_rendered_before_second :
  String.leb "ppt/slides/slide10.xml" "ppt/slides/slide2.xml" = true /\
  sort (filter is_slide_file (keys Samples.deck_2_10)) =
    ["ppt/slides/slide10.xml"; "ppt/slides/slide2.xml"] /\
  fst (toHTML Samples.sample None (start (Buffer "PK:2-10"))) =
    Returned (Samples.document
                (Samples.text_slide_html "<p><span>tenth</span></p>" ++
                 Samples.text_slide_html "<p><span>second</span></p>")).
Proof. repeat split; vm_compute; reflexivity. Qed.

(** ** Validation *)

Lemma validatePPTX_outcome (s : State) (z : ZipFiles) :
  zip (this s) = Some z ->
  fst (validatePPTX s) =
  if negb (existsb (String.eqb "ppt/presentation.xml") (keys z)) then
    Thrown (Error "Invalid PPTX file: missing ppt/presentation.xml")
  else if negb (existsb (String.eqb "_rels/.rels") (keys z)) then
    Thrown (Error "Invalid PPTX file: missing _rels/.rels")
  else
    match filter matches_slide_part (keys z) with
    | [] => Thrown (Error "Invalid PPTX file: no slides found")
    | _ => Returned tt
    end.
Proof.
  intros Z. unfold validatePPTX. rewrite bind_the_zip, Z.
  destruct (log_run "Files in PPTX:" s) as (t & L & _).
  rewrite (bind_returned _ _ tt s t L).
  unfold requiredFiles. cbn [for_of].
  destruct (existsb (String.eqb "ppt/presentation.xml") (keys z)); [| reflexivity].
  destruct (existsb (String.eqb "_rels/.rels") (keys z)); [| reflexivity].
  destruct (filter matches_slide_part (keys z)); reflexivity.
Qed.

(** [load()] is the method that validates: it fails with the error of
    [validatePPTX] when a required entry is missing. *)
Lemma load_outcome (C : Collaborators) (s : State) (bytes : string) (z : ZipFiles) :
  pptxBuffer (this s) = Buffer bytes ->
  loadAsync C (Buffer bytes) = Some z ->
  fst (load C s) =
  if negb (existsb (String.eqb "ppt/presentation.xml") (keys z)) then
    Thrown (Error "Invalid PPTX file: missing ppt/presentation.xml")
  else if negb (existsb (String.eqb "_rels/.rels") (keys z)) then
    Thrown (Error "Invalid PPTX file: missing _rels/.rels")
  else
    match filter matches_slide_part (keys z) with
    | [] => Thrown (Error "Invalid PPTX file: no slides found")
    | _ => Returned tt
    end.
Proof.
  intros B L. unfold load. rewrite bind_get_this, B. unfold try_catch.
  destruct (log_run "Loading PPTX buffer of size:" s) as (t1 & L1 & T1).
  rewrite (bind_returned _ _ tt s t1 L1).
  assert (I : initialize C t1 =
              (Returned tt, {| this := with_zip (Some z) (this t1); world := world t1 |})).
  { rewrite initialize_run, T1, B, L. reflexivity. }
  rewrite (bind_returned _ _ tt _ _ I).
  match goal with
  | |- context [validatePPTX ?t] =>
      pose proof (validatePPTX_outcome t z eq_refl) as V;
      destruct (validatePPTX t) as [[[] | e |] t2]
  end; cbn [fst] in V; rewrite <- V; [reflexivity | | reflexivity].
  destruct (log_run "Error during load:" t2) as (t3 & L3 & _).
  now rewrite (bind_returned _ _ tt t2 t3 L3).
Qed.

(** C2. The specification asks [toHTML] to fail on an archive that lacks a required
    entry.  Only [load()] runs [validatePPTX], and [toHTML] does not call it:
    for an archive holding nothing but one slide part, [load()] throws the
    error that names the missing presentation part, while [toHTML] returns a
    complete document. *)
Theorem toHTML_does_not_validate :
  fst (load Samples.sample (start (Buffer "PK:bare"))) =
    Thrown (Error "Invalid PPTX file: missing ppt/presentation.xml") /\
  fst (toHTML Samples.sample None (start (Buffer "PK:bare"))) =
    Returned (Samples.document
                (Samples.text_slide_html
                   "<p><span>Hello</span></p><p><span>World</span></p>")).
Proof. split; vm_compute; reflexivity. Qed.

(** ** The stylesheet *)

Lemma generateHTML_document (C : Collaborators) (l : list Slide) (s : State) (html : string) :
  fst (generateHTML C l s) = Returned html ->
  exists body,
    html = document_head ++ generateStyles ++ document_neck ++ body ++ document_tail.
Proof.
  unfold generateHTML. rewrite bind_ret_r.
  destruct (fst (for_of_acc l "" _ s)) as [body | |]; try discriminate.
  intros E. injection E as <-. now exists body.
Qed.

(** Whatever options are passed, the document that [toHTML] returns carries
    the stylesheet of [generateStyles]. *)
Lemma toHTML_has_styles (C : Collaborators) (options : option Options) (s : State)
    (html : string) :
  fst (toHTML C options s) = Returned html ->
  exists body,
    html = document_head ++ generateStyles ++ document_neck ++ body ++ document_tail.
Proof.
  destruct (loadAsync C (pptxBuffer (this s))) as [z |] eqn:L.
  - destruct (toHTML_generate C options s z L) as [t ->].
    destruct (fst (generateHTML C (parsed_slides C z) t)) as [h | |] eqn:G;
      try discriminate.
    intros E. injection E as <-.
    exact (generateHTML_document C _ t h G).
  - rewrite toHTML_run, L. discriminate.
Qed.

(** C3. The specification asks that [includeStyles: false] leave the stylesheet out.
    [toHTML] takes no parameter and [generateHTML] always interpolates
    [generateStyles()]: called with [{ includeStyles: false }], the converter
    returns the same document as without options, stylesheet included. *)
Theorem includeStyles_false_is_ignored :
  let without := {| includeStyles := Some false |} in
  fst (toHTML Samples.sample (Some without) (start (Buffer "PK:hello"))) =
    fst (toHTML Samples.sample None (start (Buffer "PK:hello"))) /\
  fst (toHTML Samples.sample (Some without) (start (Buffer "PK:hello"))) =
    Returned (document_head ++ generateStyles ++ document_neck ++
              Samples.text_slide_html
                "<p><span>Hello</span></p><p><span>World</span></p>" ++
              document_tail) /\
  includes "<style>" generateStyles = true.
Proof. repeat split; vm_compute; reflexivity. Qed.

(** ** Namespace prefixes *)

Lemma span_lower_prefix (prefix rest : string) :
  all_chars is_lower prefix = true ->
  span is_lower (prefix ++ String ":" rest) = (prefix, String ":" rest).
Proof.
  induction prefix as [| c prefix IH]; simpl; intros H; [reflexivity |].
  apply andb_prop in H as [Hc Hp]. now rewrite Hc, (IH Hp).
Qed.

(** The pattern of [parseXml] removes a prefix made of lower-case letters. *)
Lemma strip_lower_prefix_letters (prefix local : string) :
  prefix <> "" ->
  all_chars is_lower prefix = true ->
  strip_lower_prefix (prefix ++ String ":" local) = local.
Proof.
  intros N H. unfold strip_lower_prefix. rewrite (span_lower_prefix _ _ H).
  destruct prefix; [contradiction | reflexivity].
Qed.

(** Attribute names that differ in a lower-case prefix get the same key. *)
Lemma attrNameProcessors_lower_prefix (p1 p2 local : string) :
  p1 <> "" -> p2 <> "" ->
  all_chars is_lower p1 = true -> all_chars is_lower p2 = true ->
  attrNameProcessors (p1 ++ String ":" local) = attrNameProcessors (p2 ++ String ":" local).
Proof.
  intros N1 N2 H1 H2. unfold attrNameProcessors.
  now rewrite (strip_lower_prefix_letters p1 _ N1 H1),
              (strip_lower_prefix_letters p2 _ N2 H2).
Qed.

Lemma toLowerCase_app (a b : string) :
  toLowerCase (a ++ b) = toLowerCase a ++ toLowerCase b.
Proof. induction a as [| c a IH]; simpl; [reflexivity | now rewrite IH]. Qed.

Lemma lower_char_lower (c : ascii) : is_lower c = true -> lower_char c = c.
Proof.
  unfold is_lower, lower_char, is_upper, is_upper_latin1. intros H.
  apply andb_prop in H as [H1 H2]. apply Nat.leb_le in H1, H2.
  replace (Nat.leb (nat_of_ascii c) 90) with false
    by (symmetry; apply Nat.leb_gt; lia).
  replace (Nat.leb 192 (nat_of_ascii c)) with false
    by (symmetry; apply Nat.leb_gt; lia).
  now rewrite andb_false_r.
Qed.

Lemma toLowerCase_lower (a : string) :
  all_chars is_lower a = true -> toLowerCase a = a.
Proof.
  induction a as [| c a IH]; simpl; intros H; [reflexivity |].
  apply andb_prop in H as [Hc Ha]. now rewrite (IH Ha), (lower_char_lower c Hc).
Qed.

(** Tag names that differ in a lower-case prefix get the same key. *)
Lemma tagNameProcessors_lower_prefix (p1 p2 local : string) :
  p1 <> "" -> p2 <> "" ->
  all_chars is_lower p1 = true -> all_chars is_lower p2 = true ->
  tagNameProcessors (p1 ++ String ":" local) = tagNameProcessors (p2 ++ String ":" local).
Proof.
  intros N1 N2 H1 H2. unfold tagNameProcessors.
  rewrite !toLowerCase_app, (toLowerCase_lower p1 H1), (toLowerCase_lower p2 H2).
  change (toLowerCase (String ":" local)) with (String ":" (toLowerCase local)).
  now rewrite (strip_lower_prefix_letters p1 _ N1 H1),
              (strip_lower_prefix_letters p2 _ N2 H2).
Qed.

(** C7. The specification asks that names differing only in their namespace prefix
    get the same key.  The pattern [/^[a-z]+:/] of [parseXml] removes a
    prefix of lower-case letters only; a prefix with a digit, such as [p14] or
    [a14], stays in the key.  So [p:cNvPr] and [p14:cNvPr], which share the
    local name, are parsed to different keys, and so are the attribute names
    [r:embed] and [r2:embed]. *)
Theorem digit_prefix_is_not_stripped :
  tagNameProcessors "p:cNvPr" = "cnvpr" /\
  tagNameProcessors "p14:cNvPr" = "p14:cnvpr" /\
  tagNameProcessors "p:cNvPr" <> tagNameProcessors "p14:cNvPr" /\
  attrNameProcessors "r:embed" = "embed" /\
  attrNameProcessors "r2:embed" = "r2:embed" /\
  attrNameProcessors "r:embed" <> attrNameProcessors "r2:embed".
Proof. repeat split; try reflexivity; vm_compute; discriminate. Qed.

(** ** The theorems at work on the sample decks *)

(** A picture whose image is recognised as the empty text. *)
Lemma blank_recognition_emits_nothing_witness :
  fst (getImageData Samples.sample "ppt/slides/slide1.xml" "rId7"
         (Samples.opened "PK:picture-blank")) = Returned (Some "PNG:blank") /\
  tesseract Samples.sample "PNG:blank" = Recognizes "" true /\
  fst (append_picture Samples.sample "ppt/slides/slide1.xml" "<div>"
         (Samples.picture_shape "rId7") (Samples.opened "PK:picture-blank")) =
    Returned "<div>".
Proof.
  split; [reflexivity | split; [reflexivity |]].
  apply (blank_recognition_emits_nothing Samples.sample "ppt/slides/slide1.xml" "rId7"
           "PNG:blank" (Samples.picture_shape "rId7")
           (Samples.opened "PK:picture-blank")).
  - reflexivity.
  - reflexivity.
  - reflexivity.
Defined.

(** The slide whose one shape has the paragraphs [[["Hello"],["World"]]]: it
    is rendered, and Hello comes first. *)
Lemma text_shape_in_document_order_witness :
  let shape := Samples.text_shape [["Hello"]; ["World"]] in
  let slide := {| file := "ppt/slides/slide1.xml";
                  content := Some ("p:sld", Samples.slide_node [shape] []) |} in
  (exists fragment,
      fst (convertSlideToHTML Samples.steady slide (Samples.opened "PK:hello")) =
        Returned fragment) /\
  (forall fragment,
      fst (convertSlideToHTML Samples.steady slide (Samples.opened "PK:hello")) =
        Returned fragment ->
      exists a b c,
        fragment = a ++ "<p><span>Hello</span></p>" ++ b
                     ++ "<p><span>World</span></p>" ++ c).
Proof.
  intros shape slide.
  assert (HT : slide_shape_tree slide <> None) by (vm_compute; discriminate).
  pose proof (text_shape_in_document_order Samples.steady slide [] [] shape
                (Obj [] [("a:p", [Samples.paragraph_node ["Hello"];
                                  Samples.paragraph_node ["World"]])])
                (Samples.opened "PK:hello") HT eq_refl eq_refl eq_refl) as [R O].
  split.
  - apply R.
    + vm_compute. discriminate.
    + intros image. cbn. destruct (String.eqb image "PNG:blank"); reflexivity.
    + intros image. cbn. destruct (String.eqb image "PNG:blank"); reflexivity.
  - intros fragment F.
    destruct (O fragment F) as (paragraphs & _ & _ & P & _).
    destruct (P [] (Samples.paragraph_node ["Hello"]) []
                (Samples.paragraph_node ["World"]) [] eq_refl)
      as (hp & hq & a & b & c & Hp & Hq & E).
    vm_compute in Hp, Hq. injection Hp as <-. injection Hq as <-.
    now exists a, b, c.
Defined.

(** A fresh converter and a used one in debug mode, on the same bytes. *)
Lemma toHTML_deterministic_witness :
  pptxBuffer (this (start (Buffer "PK:picture-scanned"))) =
    pptxBuffer (this (Samples.reused "PK:picture-scanned")) /\
  fst (toHTML Samples.sample None (start (Buffer "PK:picture-scanned"))) =
    fst (toHTML Samples.sample None (Samples.reused "PK:picture-scanned")).
Proof.
  split; [reflexivity |].
  apply (toHTML_deterministic Samples.sample None
           (start (Buffer "PK:picture-scanned"))
           (Samples.reused "PK:picture-scanned")).
  reflexivity.
Defined.


(** * Further properties *)

(** ** Patterns on part names *)

Lemma prefix_app (p r : string) : String.prefix p (p ++ r) = true.
Proof.
  induction p as [| c p IH]; simpl; [now destruct r |].
  destruct (ascii_dec c c) as [_ | N]; [exact IH | contradiction].
Qed.

Lemma prefix_inv (p s : string) : String.prefix p s = true -> exists r, s = p ++ r.
Proof.
  revert s. induction p as [| c p IH]; intros s H.
  - now exists s.
  - destruct s as [| d s]; simpl in H; [discriminate |].
    destruct (ascii_dec c d) as [-> | _]; [| discriminate].
    destruct (IH s H) as [r ->]. now exists r.
Qed.

Lemma skip_app (p r : string) : skip (String.length p) (p ++ r) = r.
Proof. induction p as [| c p IH]; simpl; [reflexivity | exact IH]. Qed.

Lemma span_spec (p : ascii -> bool) (s a b : string) :
  span p s = (a, b) -> s = a ++ b /\ all_chars p a = true.
Proof.
  revert a b. induction s as [| c s IH]; simpl; intros a b H.
  - injection H as <- <-. now split.
  - destruct (p c) eqn:E.
    + destruct (span p s) as [a' b']. injection H as <- <-.
      destruct (IH a' b' eq_refl) as [-> Ha]. simpl. now rewrite E.
    + injection H as <- <-. now split.
Qed.

Lemma span_app (p : ascii -> bool) (a : string) (c : ascii) (b : string) :
  all_chars p a = true -> p c = false ->
  span p (a ++ String c b) = (a, String c b).
Proof.
  intros Ha Hc. induction a as [| x a IH]; simpl in *.
  - now rewrite Hc.
  - apply andb_prop in Ha as [Hx Ha]. now rewrite Hx, (IH Ha).
Qed.

(** The pattern [pre [0-9]+ post] at the start of a string, for a [post]
    that begins with a character other than a digit. *)
Lemma match_digits_between_iff (pre : string) (c : ascii) (post s ds : string) :
  is_digit c = false ->
  match_digits_between pre (String c post) s = Some ds <->
  ds <> "" /\ all_chars is_digit ds = true /\
  exists rest, s = pre ++ ds ++ String c post ++ rest.
Proof.
  intros Hc. unfold match_digits_between. split.
  - destruct (String.prefix pre s) eqn:P; [| discriminate].
    destruct (prefix_inv _ _ P) as [r ->]. rewrite skip_app.
    destruct (span is_digit r) as [a b] eqn:S.
    destruct (span_spec _ _ _ _ S) as [-> Ha].
    destruct a as [| x a]; [discriminate |].
    destruct (String.prefix (String c post) b) eqn:Q; [| discriminate].
    intros E. injection E as <-.
    destruct (prefix_inv _ _ Q) as [rest ->].
    split; [discriminate | split; [exact Ha |]].
    exists rest. reflexivity.
  - intros (N & D & rest & ->).
    rewrite prefix_app, skip_app.
    change (String c post ++ rest) with (String c (post ++ rest)).
    rewrite (span_app is_digit ds c (post ++ rest) D Hc).
    destruct ds as [| x ds]; [contradiction |].
    change (String c (post ++ rest)) with (String c post ++ rest).
    now rewrite prefix_app.
Qed.

Lemma search_found {A : Type} (m : string -> option A) (a s : string) (r : A) :
  m s = Some r -> exists r', search m (a ++ s) = Some r'.
Proof.
  intros H. induction a as [| c a IH]; simpl.
  - destruct s; simpl; rewrite H; eauto.
  - destruct (m (String c (a ++ s))); [eauto | exact IH].
Qed.

Lemma search_inv {A : Type} (m : string -> option A) (s : string) (r : A) :
  search m s = Some r -> exists a s', s = a ++ s' /\ m s' = Some r.
Proof.
  induction s as [| c s IH]; simpl.
  - destruct (m "") eqn:E; [| discriminate].
    intros H. injection H as <-. now exists "", "".
  - destruct (m (String c s)) eqn:E.
    + intros H. injection H as <-. now exists "", (String c s).
    + intros H. destruct (IH H) as (a & s' & -> & Hm).
      now exists (String c a), s'.
Qed.

Lemma search_cons {A : Type} (m : string -> option A) (c : ascii) (s : string) :
  m (String c s) = None -> search m (String c s) = search m s.
Proof. intros H. simpl. now rewrite H. Qed.

(** X2. The pattern of [validatePPTX] is not anchored: a name counts as a
    slide part exactly when it contains [ppt/slides/slide], at least one
    digit and [.xml] in a row, wherever in the name that is. *)
Theorem matches_slide_part_iff (f : string) :
  matches_slide_part f = true <->
  exists before digits after,
    f = before ++ "ppt/slides/slide" ++ digits ++ ".xml" ++ after /\
    digits <> "" /\ all_chars is_digit digits = true.
Proof.
  unfold matches_slide_part. split.
  - destruct (search _ f) as [ds |] eqn:S; [| discriminate]. intros _.
    destruct (search_inv _ _ _ S) as (a & s' & -> & M).
    apply (match_digits_between_iff "ppt/slides/slide" "." "xml" s' ds eq_refl) in M.
    destruct M as (N & D & rest & ->).
    now exists a, ds, rest.
  - intros (a & ds & b & -> & N & D).
    assert (M : match_digits_between "ppt/slides/slide" ".xml"
                  ("ppt/slides/slide" ++ ds ++ ".xml" ++ b) = Some ds).
    { apply (match_digits_between_iff "ppt/slides/slide" "." "xml" _ ds eq_refl).
      split; [exact N | split; [exact D |]]. now exists b. }
    destruct (search_found _ a _ _ M) as [r ->]. reflexivity.
Qed.

Lemma endsWith_app (a suffix : string) : endsWith suffix (a ++ suffix) = true.
Proof.
  unfold endsWith.
  assert (L : String.length (a ++ suffix) = String.length a + String.length suffix).
  { induction a as [| c a IH]; simpl; [reflexivity | now rewrite IH]. }
  rewrite L. replace (String.length a + String.length suffix - String.length suffix)
    with (String.length a) by lia.
  rewrite skip_app, String.eqb_refl.
  replace (Nat.leb _ _) with true; [reflexivity |].
  symmetry. apply Nat.leb_le. lia.
Qed.

Lemma match_slide_number_part_name (digits : string) :
  digits <> "" -> all_chars is_digit digits = true ->
  match_slide_number (slide_part_name digits) = Some digits.
Proof.
  intros N D. unfold match_slide_number, slide_part_name. cbn [append].
  do 11 (rewrite search_cons by reflexivity).
  assert (M : match_digits_between "slide" ".xml" ("slide" ++ digits ++ ".xml")
              = Some digits).
  { apply (match_digits_between_iff "slide" "." "xml" _ digits eq_refl).
    split; [exact N | split; [exact D |]]. exists "". now rewrite append_nil_r. }
  cbn [append] in M. unfold search. destruct digits; [contradiction |].
  cbn [append] in *. now rewrite M.
Qed.

(** X3. The three patterns the converter applies to part names agree on
    the regular names [ppt/slides/slide<N>.xml]: such a name passes the check
    of [validatePPTX] and the filter of [parseSlides], and [getSlideRels]
    reads the number [N] from it. *)
Theorem numbered_slide_part_recognised (digits : string) :
  digits <> "" -> all_chars is_digit digits = true ->
  matches_slide_part (slide_part_name digits) = true /\
  is_slide_file (slide_part_name digits) = true /\
  match_slide_number (slide_part_name digits) = Some digits.
Proof.
  intros N D. split; [| split].
  - apply matches_slide_part_iff. exists "", digits, "".
    unfold slide_part_name. now rewrite append_nil_r.
  - unfold is_slide_file, slide_part_name, startsWith.
    rewrite prefix_app. rewrite <- append_assoc. now rewrite endsWith_app.
  - exact (match_slide_number_part_name digits N D).
Qed.

(** ** Loading and validation *)

Lemma existsb_eqb_In (k : string) (l : list string) :
  existsb (String.eqb k) l = true <-> In k l.
Proof.
  rewrite existsb_exists. split.
  - intros (x & Hx & E). apply String.eqb_eq in E. now subst.
  - intros H. exists k. split; [exact H | apply String.eqb_refl].
Qed.

Lemma existsb_eqb_not_In (k : string) (l : list string) :
  existsb (String.eqb k) l = false <-> ~ In k l.
Proof.
  rewrite <- existsb_eqb_In. destruct (existsb (String.eqb k) l); split; intros H;
    try reflexivity; try discriminate; try (intros E; discriminate E).
  exfalso. now apply H.
Qed.

Lemma filter_nil_iff {A : Type} (p : A -> bool) (l : list A) :
  filter p l = [] <-> ~ exists x, In x l /\ p x = true.
Proof.
  split.
  - intros H (x & Hx & Px).
    assert (Hin : In x (filter p l)) by (apply filter_In; now split).
    rewrite H in Hin. contradiction.
  - intros H. destruct (filter p l) as [| x l'] eqn:E; [reflexivity |].
    exfalso. apply H. exists x. apply filter_In. rewrite E. now left.
Qed.

Lemma validatePPTX_accepts (s : State) (z : ZipFiles) :
  zip (this s) = Some z ->
  valid_container (keys z) ->
  exists t, validatePPTX s = (Returned tt, t) /\
            this t = with_slideFiles (filter matches_slide_part (keys z)) (this s).
Proof.
  intros Z (P & R & S). unfold validatePPTX. rewrite bind_the_zip, Z.
  destruct (log_run "Files in PPTX:" s) as (t & L & T).
  rewrite (bind_returned _ _ tt s t L).
  unfold requiredFiles. cbn [for_of].
  apply existsb_eqb_In in P, R. rewrite P, R.
  destruct (filter matches_slide_part (keys z)) as [| f fs] eqn:F.
  - exfalso. apply (proj1 (filter_nil_iff _ _) F). exact S.
  - eexists. split; [reflexivity |]. cbn [this]. now rewrite T.
Qed.

(** X1. [load()] accepts exactly the archives that hold the presentation
    part, the root relationship table and at least one entry matching the
    slide pattern, and then records the archive and the matching names in the
    instance.  Otherwise it throws the error of the first check that fails, in
    the order presentation part, root relationships, slides. *)
Theorem load_validates (C : Collaborators) (s : State) (bytes : string) (z : ZipFiles) :
  pptxBuffer (this s) = Buffer bytes ->
  loadAsync C (Buffer bytes) = Some z ->
  (valid_container (keys z) ->
     exists t, load C s = (Returned tt, t) /\
               zip (this t) = Some z /\
               slideFiles (this t) = Some (filter matches_slide_part (keys z))) /\
  (~ In "ppt/presentation.xml" (keys z) ->
     fst (load C s) = Thrown (Error "Invalid PPTX file: missing ppt/presentation.xml")) /\
  (In "ppt/presentation.xml" (keys z) -> ~ In "_rels/.rels" (keys z) ->
     fst (load C s) = Thrown (Error "Invalid PPTX file: missing _rels/.rels")) /\
  (In "ppt/presentation.xml" (keys z) -> In "_rels/.rels" (keys z) ->
   (forall f, In f (keys z) -> matches_slide_part f = false) ->
     fst (load C s) = Thrown (Error "Invalid PPTX file: no slides found")).
Proof.
  intros B L.
  pose proof (load_outcome C s bytes z B L) as O.
  split; [| split; [| split]].
  - intros V. unfold load. rewrite bind_get_this, B. unfold try_catch.
    destruct (log_run "Loading PPTX buffer of size:" s) as (t1 & L1 & T1).
    rewrite (bind_returned _ _ tt s t1 L1).
    assert (I : initialize C t1 =
                (Returned tt, {| this := with_zip (Some z) (this t1); world := world t1 |})).
    { rewrite initialize_run, T1, B, L. reflexivity. }
    rewrite (bind_returned _ _ tt _ _ I).
    match goal with
    | |- context [validatePPTX ?t] =>
        destruct (validatePPTX_accepts t z eq_refl V) as (t2 & R2 & T2); rewrite R2
    end.
    exists t2. split; [reflexivity |]. rewrite T2. split; reflexivity.
  - intros NP. apply existsb_eqb_not_In in NP. now rewrite NP in O.
  - intros P NR. apply existsb_eqb_In in P. apply existsb_eqb_not_In in NR.
    now rewrite P, NR in O.
  - intros P R NS. apply existsb_eqb_In in P, R. rewrite P, R in O.
    assert (F : filter matches_slide_part (keys z) = []).
    { apply filter_nil_iff. intros (f & Hf & Mf). rewrite (NS f Hf) in Mf. discriminate. }
    now rewrite F in O.
Qed.

(** ** Parsing the slides *)

Lemma slide_of_cases (C : Collaborators) (z : ZipFiles) (name : string) :
  slide_of C z name = [] \/
  exists c, slide_of C z name = [{| file := name; content := c |}].
Proof.
  unfold slide_of.
  destruct (zip_file z name) as [o |]; [| now left].
  destruct (data o) as [bytes |]; [| now left].
  destruct (parseStringPromise C bytes); [now left | right; eauto | right; eauto].
Qed.

Lemma parsed_slides_files (C : Collaborators) (z : ZipFiles) (names : list string) :
  map file (flat_map (slide_of C z) names) = filter (readable_slide C z) names.
Proof.
  induction names as [| n names IH]; [reflexivity |].
  cbn [flat_map filter]. rewrite map_app, IH.
  assert (R : readable_slide C z n =
              match slide_of C z n with [] => false | _ => true end) by reflexivity.
  rewrite R. destruct (slide_of_cases C z n) as [E | [c E]]; rewrite E; reflexivity.
Qed.

(** X4. On an opened archive [parseSlides()] never throws.  It replaces
    whatever [this.slides] held by one record per entry whose name begins with
    [ppt/slides/slide] and ends with [.xml], leaving out the parts that cannot
    be read or parsed, in the string order of the names; the archive itself is
    left alone. *)
Theorem parseSlides_spec (C : Collaborators) (z : ZipFiles) (s : State) :
  zip (this s) = Some z ->
  exists t,
    parseSlides C s = (Returned (parsed_slides C z), t) /\
    this t = with_slides (parsed_slides C z) (this s) /\
    map file (parsed_slides C z) =
      filter (readable_slide C z) (sort (filter is_slide_file (keys z))).
Proof.
  intros Z. unfold parseSlides. rewrite bind_the_zip, Z, bind_set_this.
  match goal with
  | |- context [bind (for_of ?l _) _ ?t0] =>
      destruct (parseSlides_loop C z l t0) as (t1 & R1 & T1);
      rewrite (bind_returned _ _ tt t0 t1 R1)
  end.
  cbn [this slides with_slides app] in T1. fold (parsed_slides C z) in T1.
  destruct (log_run "Successfully parsed slides:" t1) as (t2 & L2 & T2).
  rewrite (bind_returned _ _ tt t1 t2 L2), bind_get_this.
  rewrite T2, T1. cbn [slides with_slides].
  assert (F : map file (parsed_slides C z) =
              filter (readable_slide C z) (sort (filter is_slide_file (keys z)))).
  { apply parsed_slides_files. }
  destruct (parsed_slides C z) as [| sl l] eqn:P.
  - exists t2. split; [reflexivity |]. split; [| exact F].
    rewrite T2, T1. now destruct (this s).
  - destruct (log_run "First slide content:" t2) as (t3 & L3 & T3).
    rewrite (bind_returned _ _ tt t2 t3 L3).
    exists t3. split; [reflexivity |]. split; [| exact F].
    rewrite T3, T2, T1. now destruct (this s).
Qed.

(** ** The document *)

(** X5. With an engine that neither ends the process nor fails to
    terminate a worker, [toHTML()] fails in two cases only: when the archive
    cannot be opened, with the error of the archive reader and the instance
    left as it was, and when the text of a run on one of the recorded slides
    cannot be interpolated, with a [TypeError].  Otherwise it returns the
    fixed document skeleton with the stylesheet and, as the body, one
    fragment per slide that [parseSlides] recorded, in that order, each
    fragment a slide container or empty. *)
Theorem toHTML_on_opened_archive (C : Collaborators) (options : option Options)
    (s : State) :
  (forall image, terminate_returns (tesseract C image) = true) ->
  (forall image, ends_process (tesseract C image) = false) ->
  match loadAsync C (pptxBuffer (this s)) with
  | Some z =>
      if forallb renderable (parsed_slides C z) then
        exists fragments,
          Forall2 slide_fragment (parsed_slides C z) fragments /\
          fst (toHTML C options s) =
            Returned (document_head ++ generateStyles ++ document_neck
                        ++ join fragments ++ document_tail)
      else fst (toHTML C options s) = Thrown TypeError
  | None =>
      fst (toHTML C options s) = Thrown (Rejection "jszip") /\
      this (snd (toHTML C options s)) = this s
  end.
Proof.
  intros T N. destruct (loadAsync C (pptxBuffer (this s))) as [z |] eqn:L.
  - pose proof (toHTML_outcome C T N options s z L) as O.
    destruct (forallb renderable (parsed_slides C z)); [| exact O].
    destruct O as [html H].
    destruct (toHTML_slide_containers C options s z html L H) as (fragments & F & ->).
    now exists fragments.
  - rewrite toHTML_run, L. split; reflexivity.
Qed.

(** ** Relationship tables *)

Lemma add_rel_rel_of_node (rels : list (string * Rel)) (rel : node) :
  add_rel rels rel =
  match rel_of_node rel with
  | Some r => (Id r, r) :: rels
  | None => rels
  end.
Proof.
  unfold add_rel, rel_of_node.
  destruct (attribute (Some rel) "Id") as [id |]; [| reflexivity].
  destruct (attribute (Some rel) "Target") as [target |]; [| reflexivity].
  destruct (nonempty id && nonempty target); reflexivity.
Qed.

Lemma fold_add_rel_lookup (id : string) (l : list node) :
  forall acc,
    assoc id (fold_left add_rel l acc) =
    match last_rel id l with
    | Some r => Some r
    | None => assoc id acc
    end.
Proof.
  induction l as [| rel l IH]; intros acc; cbn [fold_left last_rel]; [reflexivity |].
  rewrite IH. destruct (last_rel id l); [reflexivity |].
  rewrite add_rel_rel_of_node.
  destruct (rel_of_node rel) as [r |]; [| reflexivity].
  cbn [assoc]. destruct (String.eqb id (Id r)); reflexivity.
Qed.

(** X6. The table that [getSlideRels] builds from the [Relationship]
    elements answers a lookup with the last element that carries that id,
    elements without a non-empty [Id] and [Target] not counting; the entry
    found repeats the id it was asked for. *)
Theorem rels_table_last_wins (id : string) (l : list node) :
  assoc id (fold_left add_rel l []) = last_rel id l /\
  (forall r, last_rel id l = Some r ->
     Id r = id /\ nonempty (Target r) = true /\
     exists rel, In rel l /\ attribute (Some rel) "Id" = Some id /\
                 attribute (Some rel) "Target" = Some (Target r)).
Proof.
  split.
  - rewrite fold_add_rel_lookup. now destruct (last_rel id l).
  - induction l as [| rel l IH]; cbn [last_rel]; [discriminate |].
    intros r. destruct (last_rel id l) as [r' |].
    + intros E. injection E as ->.
      destruct (IH r eq_refl) as (I & N & rel' & Hin & A1 & A2).
      split; [exact I | split; [exact N |]]. exists rel'. split; [now right | now split].
    + unfold rel_of_node.
      destruct (attribute (Some rel) "Id") as [i |] eqn:A1; [| discriminate].
      destruct (attribute (Some rel) "Target") as [t |] eqn:A2; [| discriminate].
      destruct (nonempty i && nonempty t) eqn:N; [| discriminate].
      cbn [Id]. destruct (String.eqb id i) eqn:E; [| discriminate].
      apply String.eqb_eq in E. subst i.
      intros H. injection H as <-. cbn [Id Target].
      apply andb_prop in N as [_ N].
      split; [reflexivity | split; [exact N |]].
      exists rel. split; [now left | now split].
Qed.

Lemma getSlideRels_keeps_this (C : Collaborators) (slideFile : string) (s : State) :
  this (snd (getSlideRels C slideFile s)) = this s.
Proof.
  apply (agree_getSlideRels C (both (this s)) (both_zip (this s)) slideFile s s).
  split; reflexivity.
Qed.

Lemma async_run (o : ZipObject) (s : State) :
  async (Some o) s =
  match data o with
  | Some bytes => (Returned bytes, s)
  | None => (Thrown (Rejection "jszip"), s)
  end.
Proof. unfold async. destruct (data o); reflexivity. Qed.

(** X7. For the slide part number [N], [getSlideRels] consults the entry
    [ppt/slides/_rels/slide<N>.xml.rels] and nothing else.  It never throws:
    it returns [null] when that entry is missing, is a folder, cannot be read
    or cannot be parsed, and otherwise the table of the [Relationship]
    elements of the parsed part (empty when the root is not
    [Relationships]). *)
Theorem getSlideRels_numbered_slide (C : Collaborators) (z : ZipFiles)
    (digits : string) (s : State) :
  zip (this s) = Some z ->
  digits <> "" -> all_chars is_digit digits = true ->
  fst (getSlideRels C (slide_part_name digits) s) =
  Returned
    match entry_bytes z (slide_rels_name digits) with
    | None => None
    | Some bytes =>
        match parseStringPromise C bytes with
        | ParseError => None
        | ParsedNull => Some []
        | Parsed root n => Some (fold_left add_rel (relationship_nodes (Some (root, n))) [])
        end
    end.
Proof.
  intros Z N D.
  pose proof (match_slide_number_part_name digits N D) as M.
  unfold getSlideRels, try_catch, entry_bytes. rewrite M, bind_the_zip, Z.
  fold (slide_rels_name digits).
  destruct (zip_file z (slide_rels_name digits)) as [o |]; [| reflexivity].
  unfold bind at 1. rewrite async_run.
  destruct (data o) as [bytes |]; [| reflexivity].
  unfold bind, parse, relationship_nodes.
  destruct (parseStringPromise C bytes); reflexivity.
Qed.

(** ** Media assets *)

Lemma last_segment_from_no_slash (acc name : string) :
  all_chars (fun c => negb (is_slash c)) name = true ->
  last_segment_from acc name = acc ++ name.
Proof.
  revert acc. induction name as [| c name IH]; intros acc H; simpl in *.
  - now rewrite append_nil_r.
  - apply andb_prop in H as [Hc Hn]. unfold is_slash in Hc.
    destruct (Ascii.eqb c "/"); [discriminate |].
    rewrite (IH _ Hn). now rewrite append_assoc.
Qed.

Lemma last_segment_from_app (acc dir name : string) :
  last_segment_from acc (dir ++ String "/" name) = last_segment_from "" name.
Proof.
  revert acc. induction dir as [| c dir IH]; intros acc; simpl.
  - reflexivity.
  - destruct (Ascii.eqb c "/"); apply IH.
Qed.

(** [s.split('/').pop()] of a path is its file name. *)
Lemma last_segment_path (dir name : string) :
  all_chars (fun c => negb (is_slash c)) name = true ->
  last_segment (dir ++ String "/" name) = name.
Proof.
  intros H. unfold last_segment.
  now rewrite last_segment_from_app, (last_segment_from_no_slash "" name H).
Qed.

(** X8. [getImageData] resolves a relationship by the file name of its
    target alone: the bytes returned are those of the entry [ppt/media/]
    followed by the text after the last slash of the target, and [null] when
    that entry is missing, a folder or unreadable.  Whatever directory a
    target [dir/name] names, it resolves to [ppt/media/name], so two targets
    with the same file name resolve to the same asset. *)
Theorem getImageData_by_file_name (C : Collaborators) (z : ZipFiles)
    (slideFile rId : string) (table : list (string * Rel)) (rel : Rel) (s : State) :
  zip (this s) = Some z ->
  fst (getSlideRels C slideFile s) = Returned (Some table) ->
  assoc rId table = Some rel ->
  nonempty (Target rel) = true ->
  fst (getImageData C slideFile rId s) =
    Returned (entry_bytes z ("ppt/media/" ++ last_segment (Target rel))) /\
  (forall dir name,
      Target rel = dir ++ String "/" name ->
      all_chars (fun c => negb (is_slash c)) name = true ->
      fst (getImageData C slideFile rId s) =
        Returned (entry_bytes z ("ppt/media/" ++ name))).
Proof.
  intros Z G A NE.
  assert (E : fst (getImageData C slideFile rId s) =
              Returned (entry_bytes z ("ppt/media/" ++ last_segment (Target rel)))).
  { unfold getImageData, try_catch. unfold bind at 1.
    pose proof (getSlideRels_keeps_this C slideFile s) as K.
    destruct (getSlideRels C slideFile s) as [o t]. cbn [fst snd] in G, K. subst o.
    rewrite A, NE, bind_the_zip, K, Z.
    unfold entry_bytes.
    destruct (zip_file z ("ppt/media/" ++ last_segment (Target rel))) as [o |];
      [| reflexivity].
    unfold bind. rewrite async_run. destruct (data o); reflexivity. }
  split; [exact E |].
  intros dir name T N. rewrite E, T. now rewrite (last_segment_path dir name N).
Qed.

(** ** The markup of a slide *)

Lemma pictures_fragments (C : Collaborators) (slideFile : string) (pics : list node) :
  forall html html' s,
    fst (for_of_acc pics html (append_picture C slideFile) s) = Returned html' ->
    exists texts,
      html' = html ++ join (map picture_fragment texts) /\
      Forall (fun t => nonempty t = true) texts /\
      length texts <= length pics.
Proof.
  induction pics as [| pic pics IH]; intros html html' s; cbn [for_of_acc].
  - intros E. injection E as <-. exists []. cbn. rewrite append_nil_r. auto.
  - unfold bind.
    destruct (append_picture C slideFile html pic s) as [[h | e |] t] eqn:A;
      try discriminate.
    intros R. destruct (IH h html' t R) as (texts & -> & F & L).
    destruct (append_picture_cases C slideFile html h pic s)
      as [-> | (rId & image & w & _ & _ & _ & W & ->)]; [now rewrite A | |].
    + exists texts. cbn [length]. repeat split; auto.
    + exists (w :: texts). cbn [map join fold_right length].
      repeat split; [now rewrite ?append_assoc | now constructor | lia].
Qed.

(** X9. A slide that is rendered consists of the slide container holding
    first the markup of all its text shapes in their order and then the
    picture fragments, at most one per picture and each with a non-empty
    text; group shapes and any other element of the shape tree leave no trace.
    A slide without content, without the root [p:sld] or without a shape tree
    is rendered as the empty string. *)
Theorem convertSlideToHTML_layout (C : Collaborators) (slide : Slide) (s : State)
    (fragment : string) :
  fst (convertSlideToHTML C slide s) = Returned fragment ->
  match slide_shape_tree slide with
  | None => fragment = ""
  | Some _ =>
      exists shapes texts,
        sequence (map shape_contribution (slide_shapes slide)) = Some shapes /\
        fragment = slide_open
                     ++ join shapes
                     ++ join (map picture_fragment texts)
                     ++ slide_close /\
        Forall (fun t => nonempty t = true) texts /\
        length texts <= length (slide_pictures slide)
  end.
Proof.
  rewrite convertSlideToHTML_run.
  destruct (slide_shape_tree slide) as [spTree |].
  - unfold slide_text_html.
    destruct (sequence (map shape_contribution (slide_shapes slide))) as [shapes |];
      [| discriminate].
    cbn [option_map].
    destruct (fst (for_of_acc _ _ _ s)) as [html' | |] eqn:P; try discriminate.
    intros E. injection E as <-.
    destruct (pictures_fragments _ _ _ _ _ _ P) as (texts & -> & F & L).
    exists shapes, texts. repeat split; [now rewrite ?append_assoc | exact F | exact L].
  - intros E. now injection E as <-.
Qed.

(** ** Name processors *)

Lemma lower_char_letter (c : ascii) : is_letter c = true -> is_lower (lower_char c) = true.
Proof.
  unfold is_letter. destruct (is_upper c) eqn:U.
  - intros _. unfold lower_char. rewrite U. cbn [orb].
    unfold is_upper in U. apply andb_prop in U as [U1 U2].
    apply Nat.leb_le in U1, U2. unfold is_lower.
    rewrite nat_ascii_embedding by lia.
    apply andb_true_intro. split; apply Nat.leb_le; lia.
  - rewrite orb_false_r. intros L. now rewrite (lower_char_lower c L).
Qed.

Lemma toLowerCase_letters (p : string) :
  all_chars is_letter p = true -> all_chars is_lower (toLowerCase p) = true.
Proof.
  induction p as [| c p IH]; simpl; intros H; [reflexivity |].
  apply andb_prop in H as [Hc Hp]. now rewrite (lower_char_letter c Hc), (IH Hp).
Qed.

(** X10. For a name [prefix:local] whose prefix consists of letters, the key
    of a tag is the lower-cased local name; for an attribute, whose prefix
    must be in lower case, the key is the local name unchanged.  Names that
    differ only in such a prefix therefore share a key. *)
Theorem letter_prefix_is_stripped (prefix local : string) :
  prefix <> "" ->
  (all_chars is_letter prefix = true ->
     tagNameProcessors (prefix ++ String ":" local) = toLowerCase local) /\
  (all_chars is_lower prefix = true ->
     attrNameProcessors (prefix ++ String ":" local) = local).
Proof.
  intros N. split; intros H.
  - unfold tagNameProcessors. rewrite toLowerCase_app.
    change (toLowerCase (String ":" local)) with (String ":" (toLowerCase local)).
    apply strip_lower_prefix_letters; [| now apply toLowerCase_letters].
    destruct prefix; [contradiction | discriminate].
  - unfold attrNameProcessors. now apply strip_lower_prefix_letters.
Qed.

(** ** The parse stage *)

Lemma bind2_returned {A B : Type} (c : M2 A) (k : A -> M2 B) (a : A) (s t : State2) :
  c s = (Returned a, t) -> bind2 c k s = k a t.
Proof. intros H. unfold bind2. now rewrite H. Qed.

Lemma bind2_thrown {A B : Type} (c : M2 A) (k : A -> M2 B) (e : JsError) (s t : State2) :
  c s = (Thrown e, t) -> bind2 c k s = (Thrown e, t).
Proof. intros H. unfold bind2. now rewrite H. Qed.

Lemma lift_the_zip (s : State2) :
  lift the_zip s =
  match zip (this (base s)) with
  | Some z => (Returned z, s)
  | None => (Thrown TypeError, s)
  end.
Proof.
  unfold lift, the_zip. rewrite bind_get_this.
  destruct (zip (this (base s))); destruct s; reflexivity.
Qed.

Lemma lift_async (z : ZipFiles) (name : string) (s : State2) :
  exists e,
    lift (async (zip_file z name)) s =
    match entry_bytes z name with
    | Some bytes => (Returned bytes, s)
    | None => (Thrown e, s)
    end.
Proof.
  unfold lift, entry_bytes, async.
  destruct (zip_file z name) as [o |]; [destruct (data o) |].
  - exists TypeError. now destruct s.
  - exists (Rejection "jszip"). now destruct s.
  - exists TypeError. now destruct s.
Qed.

Lemma lift_log (msg : string) (s : State2) :
  exists t, lift (log msg) s = (Returned tt, t) /\
            parts t = parts s /\ this (base t) = this (base s).
Proof.
  unfold lift. destruct (log_run msg (base s)) as (b & L & T). rewrite L.
  eexists. split; [reflexivity |]. split; [reflexivity | exact T].
Qed.

Lemma all_chars_app (p : ascii -> bool) (a b : string) :
  all_chars p (a ++ b) = all_chars p a && all_chars p b.
Proof. induction a as [| c a IH]; simpl; [reflexivity | now rewrite IH, andb_assoc]. Qed.

Lemma toLowerCase_no_upper (s : string) :
  all_chars (fun c => negb (is_upper c)) (toLowerCase s) = true.
Proof.
  induction s as [| c s IH]; cbn [toLowerCase all_chars]; [reflexivity |].
  apply andb_true_intro. split; [| exact IH].
  unfold lower_char.
  destruct (is_upper c) eqn:U; [| destruct (is_upper_latin1 c) eqn:V]; cbn [orb].
  - unfold is_upper in *. apply andb_prop in U as [U1 U2]. apply Nat.leb_le in U1, U2.
    rewrite nat_ascii_embedding by lia.
    apply negb_true_iff, andb_false_iff. right. apply Nat.leb_gt. lia.
  - unfold is_upper_latin1 in V. apply andb_prop in V as [V _].
    apply andb_prop in V as [V1 V2]. apply Nat.leb_le in V1, V2.
    unfold is_upper. rewrite nat_ascii_embedding by lia.
    apply negb_true_iff, andb_false_iff. right. apply Nat.leb_gt. lia.
  - now rewrite U.
Qed.

Lemma strip_lower_prefix_suffix (s : string) :
  exists a, s = a ++ strip_lower_prefix s.
Proof.
  unfold strip_lower_prefix. destruct (span is_lower s) as [letters rest] eqn:S.
  destruct (span_spec _ _ _ _ S) as [-> _].
  destruct letters as [| x letters]; [now exists "" |].
  destruct rest as [| c rest]; [now exists "" |].
  destruct (Ascii.eqb c ":"); [| now exists ""].
  exists (String x letters ++ String c ""). now rewrite append_assoc.
Qed.

(** The key of a tag never holds an upper-case letter. *)
Lemma tagNameProcessors_no_upper (name : string) :
  all_chars (fun c => negb (is_upper c)) (tagNameProcessors name) = true.
Proof.
  unfold tagNameProcessors.
  destruct (strip_lower_prefix_suffix (toLowerCase name)) as [a E].
  pose proof (toLowerCase_no_upper name) as H. rewrite E, all_chars_app in H.
  now apply andb_prop in H.
Qed.

Lemma root_key_is_not_Relationships (name : string) :
  String.eqb "Relationships" (tagNameProcessors name) = false.
Proof.
  apply String.eqb_neq. intros E.
  pose proof (tagNameProcessors_no_upper name) as H. rewrite <- E in H. discriminate H.
Qed.

Lemma parse_rels_file_records_nothing (P : Platform) (z : ZipFiles) (relsFile : string)
    (s : State2) :
  exists t, ParseStage.parse_rels_file P z relsFile s = (Returned tt, t) /\
            parts t = parts s /\ this (base t) = this (base s).
Proof.
  unfold ParseStage.parse_rels_file, try_catch2.
  destruct (lift_async z relsFile s) as [e A].
  destruct (entry_bytes z relsFile) as [bytes |].
  - rewrite (bind2_returned _ _ bytes s s A).
    unfold ParseStage.parseXml.
    destruct (parseWithOptions P bytes) as [| | name body].
    + unfold bind2 at 1. cbn [throw2]. apply lift_log.
    + exists s. now split.
    + rewrite (bind2_returned (ret2 _) _ _ s s eq_refl).
      cbn [get assoc]. rewrite (root_key_is_not_Relationships name).
      exists s. now split.
  - rewrite (bind2_thrown _ _ e s s A). apply lift_log.
Qed.

(** X11. [parseRelationships()] never records a relationship.  [parseXml]
    lower-cases every tag name, so the key [Relationships] that the method
    looks up in the parsed tree is never there: on an opened archive the
    method returns with [this.relationships] and the rest of the instance
    as they were, whatever the archive holds. *)
Theorem parseRelationships_records_nothing (P : Platform) (z : ZipFiles) (s : State2) :
  zip (this (base s)) = Some z ->
  exists t, ParseStage.parseRelationships P s = (Returned tt, t) /\
            parts t = parts s /\ this (base t) = this (base s).
Proof.
  intros Z. unfold ParseStage.parseRelationships.
  assert (L : lift the_zip s = (Returned z, s)) by (now rewrite lift_the_zip, Z).
  rewrite (bind2_returned _ _ z s s L).
  generalize (filter (endsWith ".rels") (keys z)) as files.
  clear L Z. revert s.
  assert (H : forall files s, exists t,
             for_of2 files (ParseStage.parse_rels_file P z) s = (Returned tt, t) /\
             parts t = parts s /\ this (base t) = this (base s)).
  { induction files as [| f files IH]; intros s; cbn [for_of2].
    - exists s. now split.
    - destruct (parse_rels_file_records_nothing P z f s) as (t1 & R1 & P1 & T1).
      rewrite (bind2_returned _ _ tt s t1 R1).
      destruct (IH t1) as (t2 & R2 & P2 & T2).
      exists t2. split; [exact R2 |]. split; congruence. }
  intros s files. apply H.
Qed.

Lemma assoc_map_set {A : Type} (k k' : string) (v : A) (m : list (string * A)) :
  assoc k' (map_set k v m) = if String.eqb k' k then Some v else assoc k' m.
Proof.
  induction m as [| [k0 x] m IH]; cbn [map_set assoc].
  - reflexivity.
  - destruct (String.eqb_spec k k0) as [-> | N]; cbn [assoc].
    + destruct (String.eqb k' k0); reflexivity.
    + rewrite IH. destruct (String.eqb_spec k' k0) as [-> | N'].
      * destruct (String.eqb_spec k0 k) as [E | _]; [now subst | reflexivity].
      * reflexivity.
Qed.

(** Loops that store one value per file and stop at the first file that has
    none. *)
Section StoreLoop.

Variable A : Type.
Variable value : string -> option A.
Variable getm : Parts -> list (string * A).
Variable frame : Parts -> Parts -> Prop.
Variable step : string -> M2 unit.

Hypothesis frame_refl : forall p, frame p p.
Hypothesis frame_trans : forall p q r, frame p q -> frame q r -> frame p r.
Hypothesis step_some : forall f v s,
  value f = Some v ->
  exists t, step f s = (Returned tt, t) /\
            getm (parts t) = map_set f v (getm (parts s)) /\
            frame (parts s) (parts t) /\ base t = base s.
Hypothesis step_none : forall f s,
  value f = None -> exists e, step f s = (Thrown e, s).

Lemma store_loop_returns (files : list string) :
  forall s,
    Forall (fun f => value f <> None) files ->
    exists t,
      for_of2 files step s = (Returned tt, t) /\
      (forall f, assoc f (getm (parts t)) =
                 if existsb (String.eqb f) files then value f
                 else assoc f (getm (parts s))) /\
      frame (parts s) (parts t) /\ base t = base s.
Proof.
  induction files as [| f0 files IH]; intros s H; cbn [for_of2].
  - exists s. repeat split; auto.
  - inversion H as [| ? ? H0 H']; subst.
    destruct (value f0) as [v0 |] eqn:V0; [| contradiction].
    destruct (step_some f0 v0 s V0) as (t1 & R1 & G1 & F1 & B1).
    rewrite (bind2_returned _ _ tt s t1 R1).
    destruct (IH t1 H') as (t2 & R2 & G2 & F2 & B2).
    exists t2. split; [exact R2 |]. split; [| split; [eauto | congruence]].
    intros f. rewrite G2, G1, assoc_map_set. cbn [existsb].
    destruct (String.eqb_spec f f0) as [-> | N]; cbn [orb].
    + rewrite V0. now destruct (existsb (String.eqb f0) files).
    + reflexivity.
Qed.

Lemma store_loop_throws (files : list string) :
  forall s,
    Exists (fun f => value f = None) files ->
    exists e t, for_of2 files step s = (Thrown e, t) /\ base t = base s.
Proof.
  induction files as [| f0 files IH]; intros s H; cbn [for_of2].
  - inversion H.
  - destruct (value f0) as [v0 |] eqn:V0.
    + destruct (step_some f0 v0 s V0) as (t1 & R1 & _ & _ & B1).
      rewrite (bind2_returned _ _ tt s t1 R1).
      assert (H' : Exists (fun f => value f = None) files).
      { inversion H as [? ? E | ? ? E]; subst; [congruence | exact E]. }
      destruct (IH t1 H') as (e & t2 & R2 & B2).
      exists e, t2. split; [exact R2 | congruence].
    + destruct (step_none f0 s V0) as [e R].
      rewrite (bind2_thrown _ _ e s s R). now exists e, s.
Qed.

End StoreLoop.

Lemma existsb_eqb_false (k : string) (l : list string) :
  ~ In k l -> existsb (String.eqb k) l = false.
Proof. apply existsb_eqb_not_In. Qed.

Section ParseStageSteps.

Variable P : Platform.
Variable z : ZipFiles.

Lemma parseXml_run (bytes : string) (s : State2) :
  ParseStage.parseXml P bytes s =
  match xml_value P bytes with
  | Some v => (Returned v, s)
  | None => (Thrown (Rejection "xml2js"), s)
  end.
Proof.
  unfold ParseStage.parseXml, xml_value.
  destruct (parseWithOptions P bytes); reflexivity.
Qed.

Lemma parse_layout_file_some (f : string) (v : jsval) (s : State2) :
  part_value P z f = Some v ->
  exists t, ParseStage.parse_layout_file P z f s = (Returned tt, t) /\
            slideLayouts (parts t) = map_set f v (slideLayouts (parts s)) /\
            same_but_layouts (parts s) (parts t) /\ base t = base s.
Proof.
  unfold part_value, ParseStage.parse_layout_file. intros V.
  destruct (lift_async z f s) as [e A].
  destruct (entry_bytes z f) as [bytes |]; [| discriminate].
  rewrite (bind2_returned _ _ bytes s s A).
  unfold bind2. rewrite parseXml_run, V.
  eexists. split; [reflexivity |]. repeat split.
Qed.

Lemma parse_layout_file_none (f : string) (s : State2) :
  part_value P z f = None ->
  exists e, ParseStage.parse_layout_file P z f s = (Thrown e, s).
Proof.
  unfold part_value, ParseStage.parse_layout_file. intros V.
  destruct (lift_async z f s) as [e A].
  destruct (entry_bytes z f) as [bytes |].
  - rewrite (bind2_returned _ _ bytes s s A).
    unfold bind2. rewrite parseXml_run, V. eauto.
  - rewrite (bind2_thrown _ _ e s s A). eauto.
Qed.

Lemma parse_master_file_some (f : string) (v : jsval) (s : State2) :
  part_value P z f = Some v ->
  exists t, ParseStage.parse_master_file P z f s = (Returned tt, t) /\
            slideMasters (parts t) = map_set f v (slideMasters (parts s)) /\
            same_but_masters (parts s) (parts t) /\ base t = base s.
Proof.
  unfold part_value, ParseStage.parse_master_file. intros V.
  destruct (lift_async z f s) as [e A].
  destruct (entry_bytes z f) as [bytes |]; [| discriminate].
  rewrite (bind2_returned _ _ bytes s s A).
  unfold bind2. rewrite parseXml_run, V.
  eexists. split; [reflexivity |]. repeat split.
Qed.

Lemma parse_master_file_none (f : string) (s : State2) :
  part_value P z f = None ->
  exists e, ParseStage.parse_master_file P z f s = (Thrown e, s).
Proof.
  unfold part_value, ParseStage.parse_master_file. intros V.
  destruct (lift_async z f s) as [e A].
  destruct (entry_bytes z f) as [bytes |].
  - rewrite (bind2_returned _ _ bytes s s A).
    unfold bind2. rewrite parseXml_run, V. eauto.
  - rewrite (bind2_thrown _ _ e s s A). eauto.
Qed.

Lemma extract_image_some (f : string) (v : Image) (s : State2) :
  image_value P z f = Some v ->
  exists t, ParseStage.extract_image P z f s = (Returned tt, t) /\
            images (parts t) = map_set f v (images (parts s)) /\
            same_but_images (parts s) (parts t) /\ base t = base s.
Proof.
  unfold image_value, ParseStage.extract_image. intros V.
  destruct (lift_async z f s) as [e A].
  destruct (entry_bytes z f) as [bytes |]; [| discriminate].
  rewrite (bind2_returned _ _ bytes s s A).
  destruct (probe P bytes) as [m |]; [| discriminate].
  injection V as <-.
  eexists. split; [reflexivity |]. repeat split.
Qed.

Lemma extract_image_none (f : string) (s : State2) :
  image_value P z f = None ->
  exists e, ParseStage.extract_image P z f s = (Thrown e, s).
Proof.
  unfold image_value, ParseStage.extract_image. intros V.
  destruct (lift_async z f s) as [e A].
  destruct (entry_bytes z f) as [bytes |].
  - rewrite (bind2_returned _ _ bytes s s A).
    destruct (probe P bytes); [discriminate | eexists; reflexivity].
  - rewrite (bind2_thrown _ _ e s s A). eauto.
Qed.

End ParseStageSteps.

Lemma same_but_layouts_refl p : same_but_layouts p p.
Proof. repeat split. Qed.

Lemma same_but_layouts_trans p q r :
  same_but_layouts p q -> same_but_layouts q r -> same_but_layouts p r.
Proof. intros (A1 & A2 & A3) (B1 & B2 & B3). repeat split; congruence. Qed.

Lemma same_but_masters_refl p : same_but_masters p p.
Proof. repeat split. Qed.

Lemma same_but_masters_trans p q r :
  same_but_masters p q -> same_but_masters q r -> same_but_masters p r.
Proof. intros (A1 & A2 & A3) (B1 & B2 & B3). repeat split; congruence. Qed.

Lemma same_but_images_refl p : same_but_images p p.
Proof. repeat split. Qed.

Lemma same_but_images_trans p q r :
  same_but_images p q -> same_but_images q r -> same_but_images p r.
Proof. intros (A1 & A2 & A3) (B1 & B2 & B3). repeat split; congruence. Qed.

Lemma parseSlideLayouts_returns (P : Platform) (z : ZipFiles) (s : State2) :
  zip (this (base s)) = Some z ->
  Forall (fun f => part_value P z f <> None) (layout_files z) ->
  exists t,
    ParseStage.parseSlideLayouts P s = (Returned tt, t) /\
    (forall f, assoc f (slideLayouts (parts t)) =
               if existsb (String.eqb f) (layout_files z) then part_value P z f
               else assoc f (slideLayouts (parts s))) /\
    same_but_layouts (parts s) (parts t) /\ base t = base s.
Proof.
  intros Z H. unfold ParseStage.parseSlideLayouts.
  assert (L : lift the_zip s = (Returned z, s)) by (now rewrite lift_the_zip, Z).
  rewrite (bind2_returned _ _ z s s L).
  apply (store_loop_returns jsval (part_value P z) slideLayouts same_but_layouts
           (ParseStage.parse_layout_file P z) same_but_layouts_refl
           same_but_layouts_trans (parse_layout_file_some P z)); exact H.
Qed.

Lemma parseSlideLayouts_throws (P : Platform) (z : ZipFiles) (s : State2) :
  zip (this (base s)) = Some z ->
  Exists (fun f => part_value P z f = None) (layout_files z) ->
  exists e t, ParseStage.parseSlideLayouts P s = (Thrown e, t) /\ base t = base s.
Proof.
  intros Z H. unfold ParseStage.parseSlideLayouts.
  assert (L : lift the_zip s = (Returned z, s)) by (now rewrite lift_the_zip, Z).
  rewrite (bind2_returned _ _ z s s L).
  apply (store_loop_throws jsval (part_value P z) slideLayouts same_but_layouts
           (ParseStage.parse_layout_file P z)
           (parse_layout_file_some P z) (parse_layout_file_none P z)); exact H.
Qed.

Lemma parseSlideMasters_returns (P : Platform) (z : ZipFiles) (s : State2) :
  zip (this (base s)) = Some z ->
  Forall (fun f => part_value P z f <> None) (master_files z) ->
  exists t,
    ParseStage.parseSlideMasters P s = (Returned tt, t) /\
    (forall f, assoc f (slideMasters (parts t)) =
               if existsb (String.eqb f) (master_files z) then part_value P z f
               else assoc f (slideMasters (parts s))) /\
    same_but_masters (parts s) (parts t) /\ base t = base s.
Proof.
  intros Z H. unfold ParseStage.parseSlideMasters.
  assert (L : lift the_zip s = (Returned z, s)) by (now rewrite lift_the_zip, Z).
  rewrite (bind2_returned _ _ z s s L).
  apply (store_loop_returns jsval (part_value P z) slideMasters same_but_masters
           (ParseStage.parse_master_file P z) same_but_masters_refl
           same_but_masters_trans (parse_master_file_some P z)); exact H.
Qed.

Lemma parseSlideMasters_throws (P : Platform) (z : ZipFiles) (s : State2) :
  zip (this (base s)) = Some z ->
  Exists (fun f => part_value P z f = None) (master_files z) ->
  exists e t, ParseStage.parseSlideMasters P s = (Thrown e, t) /\ base t = base s.
Proof.
  intros Z H. unfold ParseStage.parseSlideMasters.
  assert (L : lift the_zip s = (Returned z, s)) by (now rewrite lift_the_zip, Z).
  rewrite (bind2_returned _ _ z s s L).
  apply (store_loop_throws jsval (part_value P z) slideMasters same_but_masters
           (ParseStage.parse_master_file P z)
           (parse_master_file_some P z) (parse_master_file_none P z)); exact H.
Qed.

Lemma extractImages_returns (P : Platform) (z : ZipFiles) (s : State2) :
  zip (this (base s)) = Some z ->
  Forall (fun f => image_value P z f <> None) (media_files z) ->
  exists t,
    ParseStage.extractImages P s = (Returned tt, t) /\
    (forall f, assoc f (images (parts t)) =
               if existsb (String.eqb f) (media_files z) then image_value P z f
               else assoc f (images (parts s))) /\
    same_but_images (parts s) (parts t) /\ base t = base s.
Proof.
  intros Z H. unfold ParseStage.extractImages.
  assert (L : lift the_zip s = (Returned z, s)) by (now rewrite lift_the_zip, Z).
  rewrite (bind2_returned _ _ z s s L).
  apply (store_loop_returns Image (image_value P z) images same_but_images
           (ParseStage.extract_image P z) same_but_images_refl
           same_but_images_trans (extract_image_some P z)); exact H.
Qed.

Lemma extractImages_throws (P : Platform) (z : ZipFiles) (s : State2) :
  zip (this (base s)) = Some z ->
  Exists (fun f => image_value P z f = None) (media_files z) ->
  exists e t, ParseStage.extractImages P s = (Thrown e, t) /\ base t = base s.
Proof.
  intros Z H. unfold ParseStage.extractImages.
  assert (L : lift the_zip s = (Returned z, s)) by (now rewrite lift_the_zip, Z).
  rewrite (bind2_returned _ _ z s s L).
  apply (store_loop_throws Image (image_value P z) images same_but_images
           (ParseStage.extract_image P z)
           (extract_image_some P z) (extract_image_none P z)); exact H.
Qed.

Lemma lookup_in_files {A : Type} (files : list string) (value : string -> option A)
    (m m0 : list (string * A)) :
  (forall f, assoc f m = if existsb (String.eqb f) files then value f else assoc f m0) ->
  (forall f, In f files -> assoc f m = value f) /\
  (forall f, ~ In f files -> assoc f m = assoc f m0).
Proof.
  intros H. split; intros f Hf; rewrite H.
  - now rewrite (proj2 (existsb_eqb_In f files) Hf).
  - now rewrite (existsb_eqb_false f files Hf).
Qed.


Lemma assoc_In_keys {A : Type} (k : string) (v : A) (m : list (string * A)) :
  assoc k m = Some v -> In k (map fst m).
Proof.
  induction m as [| [k0 x] m IH]; cbn [assoc map fst]; [discriminate |].
  destruct (String.eqb_spec k k0) as [-> | _]; [now left | right; auto].
Qed.

(** X13. [extractImages()] stores, for every entry whose name begins with
    [ppt/media/], the base64 text of its bytes, the metadata sharp reports
    and, as its type, the format of that metadata; the other maps and the
    rest of the instance are untouched.  It has no handler: it throws as soon
    as one such entry is unreadable or cannot be probed, and in particular
    whenever the archive lists the folder [ppt/media/] itself. *)
Theorem extractImages_all_or_nothing (P : Platform) (z : ZipFiles) (s : State2) :
  zip (this (base s)) = Some z ->
  (Forall (fun f => image_value P z f <> None) (media_files z) ->
     exists t,
       ParseStage.extractImages P s = (Returned tt, t) /\
       (forall f data metadata,
           In f (media_files z) -> entry_bytes z f = Some data ->
           probe P data = Some metadata ->
           assoc f (images (parts t)) =
             Some {| image_data := base64 P data; image_metadata := metadata;
                     image_type := format metadata |}) /\
       (forall f, ~ In f (media_files z) ->
                  assoc f (images (parts t)) = assoc f (images (parts s))) /\
       same_but_images (parts s) (parts t) /\ base t = base s) /\
  (Exists (fun f => image_value P z f = None) (media_files z) ->
     exists e t, ParseStage.extractImages P s = (Thrown e, t) /\ base t = base s) /\
  (forall o, assoc "ppt/media/" z = Some o -> dir o = true ->
     exists e t, ParseStage.extractImages P s = (Thrown e, t) /\ base t = base s).
Proof.
  intros Z. split; [| split].
  - intros H. destruct (extractImages_returns P z s Z H) as (t & R & G & F & B).
    destruct (lookup_in_files _ _ _ _ G) as [G1 G2].
    exists t. split; [exact R |]. split; [| split; [exact G2 | split; [exact F | exact B]]].
    intros f data metadata Hf E M. rewrite (G1 f Hf). unfold image_value.
    now rewrite E, M.
  - apply extractImages_throws. exact Z.
  - intros o A D. apply (extractImages_throws P z s Z).
    apply Exists_exists. exists "ppt/media/". split.
    + unfold media_files. apply filter_In. split; [| reflexivity].
      exact (assoc_In_keys _ _ _ A).
    + unfold image_value, entry_bytes, zip_file. now rewrite A, D.
Qed.

Lemma try_catch2_returned {A : Type} (c : M2 A) (h : JsError -> M2 A) (a : A)
    (s t : State2) :
  c s = (Returned a, t) -> try_catch2 c h s = (Returned a, t).
Proof. intros H. unfold try_catch2. now rewrite H. Qed.

Lemma try_catch2_thrown {A : Type} (c : M2 A) (h : JsError -> M2 A) (e : JsError)
    (s t : State2) :
  c s = (Thrown e, t) -> try_catch2 c h s = h e t.
Proof. intros H. unfold try_catch2. now rewrite H. Qed.

Lemma parse_handler (e : JsError) (s : State2) :
  exists t, bind2 (lift (log "Error during parse:")) (fun _ => throw2 e) s
              = (@Thrown unit e, t) /\
            parts t = parts s /\ this (base t) = this (base s).
Proof.
  destruct (lift_log "Error during parse:" s) as (t & L & Pt & T).
  rewrite (bind2_returned _ _ tt s t L). exists t. now split.
Qed.

Lemma lift_parseSlides (C : Collaborators) (z : ZipFiles) (s : State2) :
  zip (this (base s)) = Some z ->
  exists t, lift (parseSlides C) s = (Returned (parsed_slides C z), t) /\
            parts t = parts s /\
            this (base t) = with_slides (parsed_slides C z) (this (base s)).
Proof.
  intros Z. destruct (parseSlides_spec C z (base s) Z) as (b & R & T & _).
  unfold lift. rewrite R. eexists. split; [reflexivity |]. now split.
Qed.

(** X14. [parse()] runs its five steps in order and stops at the first
    that throws.  When every layout, master and media entry can be processed
    it returns with [this.slides] holding the slides [parseSlides] records and
    with the layouts, masters and images stored, [this.relationships] being
    left as it was.  A layout or master that cannot be read or parsed makes
    [parse()] throw before the slides are parsed, so [this.slides] is not
    touched even though every slide may be fine; a media entry that cannot be
    processed makes it throw after the slides were recorded. *)
Theorem parse_runs_in_order (C : Collaborators) (P : Platform) (z : ZipFiles)
    (s : State2) :
  zip (this (base s)) = Some z ->
  (Forall (fun f => part_value P z f <> None) (layout_files z) ->
   Forall (fun f => part_value P z f <> None) (master_files z) ->
   Forall (fun f => image_value P z f <> None) (media_files z) ->
     exists t,
       ParseStage.parse C P s = (Returned tt, t) /\
       this (base t) = with_slides (parsed_slides C z) (this (base s)) /\
       relationships (parts t) = relationships (parts s) /\
       (forall f, In f (layout_files z) ->
                  assoc f (slideLayouts (parts t)) = part_value P z f) /\
       (forall f, In f (master_files z) ->
                  assoc f (slideMasters (parts t)) = part_value P z f) /\
       (forall f, In f (media_files z) ->
                  assoc f (images (parts t)) = image_value P z f)) /\
  (Exists (fun f => part_value P z f = None) (layout_files z) \/
   (Forall (fun f => part_value P z f <> None) (layout_files z) /\
    Exists (fun f => part_value P z f = None) (master_files z)) ->
     exists e t,
       ParseStage.parse C P s = (Thrown e, t) /\ this (base t) = this (base s)) /\
  (Forall (fun f => part_value P z f <> None) (layout_files z) ->
   Forall (fun f => part_value P z f <> None) (master_files z) ->
   Exists (fun f => image_value P z f = None) (media_files z) ->
     exists e t,
       ParseStage.parse C P s = (Thrown e, t) /\
       this (base t) = with_slides (parsed_slides C z) (this (base s))).
Proof.
  intros Z.
  destruct (parseRelationships_records_nothing P z s Z) as (t1 & R1 & P1 & T1).
  assert (Z1 : zip (this (base t1)) = Some z) by (now rewrite T1).
  unfold ParseStage.parse.
  split; [| split].
  - intros HL HM HI.
    destruct (parseSlideLayouts_returns P z t1 Z1 HL) as (t2 & R2 & G2 & F2 & B2).
    assert (Z2 : zip (this (base t2)) = Some z) by (now rewrite B2).
    destruct (parseSlideMasters_returns P z t2 Z2 HM) as (t3 & R3 & G3 & F3 & B3).
    assert (Z3 : zip (this (base t3)) = Some z) by (now rewrite B3).
    destruct (lift_parseSlides C z t3 Z3) as (t4 & R4 & P4 & T4).
    assert (Z4 : zip (this (base t4)) = Some z).
    { rewrite T4. cbn [zip with_slides]. exact Z3. }
    destruct (extractImages_returns P z t4 Z4 HI) as (t5 & R5 & G5 & F5 & B5).
    exists t5. split.
    { apply try_catch2_returned.
      rewrite (bind2_returned _ _ tt s t1 R1), (bind2_returned _ _ tt t1 t2 R2),
        (bind2_returned _ _ tt t2 t3 R3), (bind2_returned _ _ _ t3 t4 R4).
      exact R5. }
    destruct F2 as (F2r & F2m & F2i), F3 as (F3r & F3l & F3i), F5 as (F5r & F5l & F5m).
    destruct (lookup_in_files _ _ _ _ G2) as [L2 _].
    destruct (lookup_in_files _ _ _ _ G3) as [L3 _].
    destruct (lookup_in_files _ _ _ _ G5) as [L5 _].
    split; [| split; [| split; [| split]]].
    + rewrite B5, T4, B3, B2, T1. reflexivity.
    + rewrite F5r, P4, F3r, F2r, P1. reflexivity.
    + intros f Hf. rewrite F5l, P4, F3l. exact (L2 f Hf).
    + intros f Hf. rewrite F5m, P4. exact (L3 f Hf).
    + exact L5.
  - intros [HL | [HL HM]].
    + destruct (parseSlideLayouts_throws P z t1 Z1 HL) as (e & t2 & R2 & B2).
      destruct (parse_handler e t2) as (t3 & R3 & _ & T3).
      exists e, t3. split.
      * rewrite (try_catch2_thrown _ _ e s t2); [exact R3 |].
        rewrite (bind2_returned _ _ tt s t1 R1). now rewrite (bind2_thrown _ _ e t1 t2 R2).
      * now rewrite T3, B2, T1.
    + destruct (parseSlideLayouts_returns P z t1 Z1 HL) as (t2 & R2 & _ & _ & B2).
      assert (Z2 : zip (this (base t2)) = Some z) by (now rewrite B2).
      destruct (parseSlideMasters_throws P z t2 Z2 HM) as (e & t3 & R3 & B3).
      destruct (parse_handler e t3) as (t4 & R4 & _ & T4).
      exists e, t4. split.
      * rewrite (try_catch2_thrown _ _ e s t3); [exact R4 |].
        rewrite (bind2_returned _ _ tt s t1 R1), (bind2_returned _ _ tt t1 t2 R2).
        now rewrite (bind2_thrown _ _ e t2 t3 R3).
      * now rewrite T4, B3, B2, T1.
  - intros HL HM HI.
    destruct (parseSlideLayouts_returns P z t1 Z1 HL) as (t2 & R2 & _ & _ & B2).
    assert (Z2 : zip (this (base t2)) = Some z) by (now rewrite B2).
    destruct (parseSlideMasters_returns P z t2 Z2 HM) as (t3 & R3 & _ & _ & B3).
    assert (Z3 : zip (this (base t3)) = Some z) by (now rewrite B3).
    destruct (lift_parseSlides C z t3 Z3) as (t4 & R4 & P4 & T4).
    assert (Z4 : zip (this (base t4)) = Some z).
    { rewrite T4. cbn [zip with_slides]. exact Z3. }
    destruct (extractImages_throws P z t4 Z4 HI) as (e & t5 & R5 & B5).
    destruct (parse_handler e t5) as (t6 & R6 & _ & T6).
    exists e, t6. split.
    + rewrite (try_catch2_thrown _ _ e s t5); [exact R6 |].
      rewrite (bind2_returned _ _ tt s t1 R1), (bind2_returned _ _ tt t1 t2 R2),
        (bind2_returned _ _ tt t2 t3 R3), (bind2_returned _ _ _ t3 t4 R4).
      exact R5.
    + rewrite T6, B5, T4, B3, B2, T1. reflexivity.
Qed.

(** ** The alternate renderers *)

(** A [reduce] whose callback appends markup or throws appends the markup of
    the elements in order, or throws. *)
Lemma reduce_markup {A : Type} (f : A -> option string)
    (step : string -> A -> Outcome string) (l : list A) :
  (forall acc x, In x l ->
      step acc x = match f x with
                   | Some m => Returned (acc ++ m)
                   | None => Thrown TypeError
                   end) ->
  forall acc,
    reduce l acc step =
    match sequence (map f l) with
    | Some ms => Returned (acc ++ join ms)
    | None => Thrown TypeError
    end.
Proof.
  induction l as [| x l IH]; intros H acc; cbn [reduce map sequence].
  - cbn. now rewrite append_nil_r.
  - rewrite (H acc x (or_introl eq_refl)). destruct (f x) as [m |]; [| reflexivity].
    rewrite IH by (intros acc' y Hy; apply H; now right).
    destruct (sequence (map f l)) as [ms |]; [| reflexivity].
    cbn [option_map join fold_right]. now rewrite append_assoc.
Qed.

Lemma alternate_append_run_markup (html : string) (r : jsval) :
  alternate_append_run html r =
  match alternate_span r with
  | Some m => Returned (html ++ m)
  | None => Thrown TypeError
  end.
Proof.
  unfold alternate_append_run, alternate_span, alternate_run_text.
  destruct (to_string_converts (or_else (get (get r "t") "_") (JStr "")))
    as [[text ->] | ->]; reflexivity.
Qed.

Lemma alternate_append_paragraph_markup (html : string) (p : jsval) :
  nullish p = false ->
  alternate_append_paragraph html p =
  match alternate_paragraph p with
  | Some m => Returned (html ++ m)
  | None => Thrown TypeError
  end.
Proof.
  intros N. unfold alternate_append_paragraph, alternate_paragraph, alternate_runs.
  rewrite N. destruct (truthy_val (get p "r")).
  - rewrite (reduce_markup alternate_span alternate_append_run _
               (fun acc x _ => alternate_append_run_markup acc x)).
    destruct (sequence (map alternate_span (as_array (get p "r")))) as [spans |];
      [| reflexivity].
    cbn [option_map]. now rewrite ?append_assoc.
  - cbn. now rewrite ?append_assoc.
Qed.

Lemma reduce_alternate_paragraphs (ps : list jsval) (html : string) :
  Forall (fun p => nullish p = false) ps ->
  reduce ps html alternate_append_paragraph =
  match sequence (map alternate_paragraph ps) with
  | Some ms => Returned (html ++ join ms)
  | None => Thrown TypeError
  end.
Proof.
  intros F. apply reduce_markup. intros acc p Hp.
  apply alternate_append_paragraph_markup.
  rewrite Forall_forall in F. exact (F p Hp).
Qed.

Lemma reduce_alternate_paragraphs_throws (ps : list jsval) :
  forall html,
    Exists (fun p => nullish p = true) ps ->
    reduce ps html alternate_append_paragraph = Thrown TypeError.
Proof.
  induction ps as [| p ps IH]; intros html H; cbn [reduce].
  - inversion H.
  - destruct (nullish p) eqn:N.
    + unfold alternate_append_paragraph. now rewrite N.
    + rewrite (alternate_append_paragraph_markup html p N).
      destruct (alternate_paragraph p); [| reflexivity].
      apply IH. inversion H as [? ? E | ? ? E]; subst; [congruence | exact E].
Qed.

(** X15. [convertShapeToHTML] returns the empty string for a shape without
    a text body.  Otherwise, when the text of every run can be converted to a
    string, it returns the shape container with one paragraph container per
    paragraph and one span per run, in order, a lone paragraph or run counting
    as a list of one; of two paragraphs the earlier one comes first.  It
    throws a [TypeError] when the text of a run cannot be converted, and when
    the paragraph array holds [null] or [undefined]. *)
Theorem convertShapeToHTML_markup (shape options : jsval) :
  let txBody := or_else (get shape "txbody") (get shape "txBody") in
  (truthy_val txBody = false -> convertShapeToHTML shape options = Returned "") /\
  (truthy_val txBody = true ->
   Forall (fun p => nullish p = false) (alternate_paragraphs txBody) ->
   match sequence (map alternate_paragraph (alternate_paragraphs txBody)) with
   | Some paragraphs =>
       convertShapeToHTML shape options =
         Returned (shape_open ++ join paragraphs ++ "</div>") /\
       forall ps1 p ps2 q ps3,
         alternate_paragraphs txBody = (ps1 ++ p :: ps2 ++ q :: ps3)%list ->
         exists hp hq a b c,
           alternate_paragraph p = Some hp /\ alternate_paragraph q = Some hq /\
           convertShapeToHTML shape options = Returned (a ++ hp ++ b ++ hq ++ c)
   | None => convertShapeToHTML shape options = Thrown TypeError
   end) /\
  (truthy_val txBody = true ->
   Exists (fun p => nullish p = true) (alternate_paragraphs txBody) ->
     convertShapeToHTML shape options = Thrown TypeError).
Proof.
  intros txBody. split; [| split].
  - intros T. unfold convertShapeToHTML. fold txBody. now rewrite T.
  - intros T F.
    assert (E : convertShapeToHTML shape options =
                match sequence (map alternate_paragraph (alternate_paragraphs txBody)) with
                | Some paragraphs => Returned (shape_open ++ join paragraphs ++ "</div>")
                | None => Thrown TypeError
                end).
    { unfold convertShapeToHTML. fold txBody. rewrite T.
      unfold alternate_paragraphs in *. destruct (truthy_val (get txBody "p")).
      - rewrite (reduce_alternate_paragraphs _ _ F).
        destruct (sequence _); [now rewrite ?append_assoc | reflexivity].
      - cbn. now rewrite ?append_assoc. }
    destruct (sequence (map alternate_paragraph (alternate_paragraphs txBody)))
      as [paragraphs |] eqn:S; [| exact E].
    split; [exact E |].
    intros ps1 p ps2 q ps3 H. rewrite H in S.
    destruct (sequence_order _ _ _ _ _ _ _ S) as (hp & hq & a & b & c & Hp & Hq & J).
    exists hp, hq, (shape_open ++ a), b, (c ++ "</div>").
    split; [exact Hp | split; [exact Hq |]].
    rewrite E, J. now rewrite ?append_assoc.
  - intros T X. unfold convertShapeToHTML. fold txBody. rewrite T.
    unfold alternate_paragraphs in X. destruct (truthy_val (get txBody "p")).
    + now rewrite (reduce_alternate_paragraphs_throws _ _ X).
    + inversion X.
Qed.

Lemma getImageData_of_no_ocr (C : Collaborators) (file rId : jsval) (s : State) :
  ocr_events (world (snd (getImageData_of C file rId s))) = ocr_events (world s) /\
  exists r, fst (getImageData_of C file rId s) = Returned r.
Proof.
  split.
  - apply (keeps_getImageData_of C (fun w => ocr_events w = ocr_events (world s))).
    + intros line w H. exact H.
    + reflexivity.
    + apply stays_getImageData_of.
  - pose proof (stays_getImageData_of C file rId s) as N.
    unfold getImageData_of, try_catch in *.
    match goal with
    | |- context [bind ?c ?k s] => destruct (bind c k s) as [[r | e |] t]
    end; [now eexists | now eexists | contradiction].
Qed.

(** X16. [convertPictureToHTML] throws a [TypeError] exactly when the
    picture has a [blip] without attributes (no [$]).  In every other case it
    returns, never running a recognition: the empty string when the picture
    has no [blip] or no [embed] attribute or when the image cannot be
    resolved, and otherwise an [img] element whose [src] is the text of the
    image bytes. *)
Theorem convertPictureToHTML_outcomes (C : Collaborators) (P : Platform)
    (pic options : jsval) (s : State) :
  let blip := get (or_else (get pic "blipfill") (get pic "blipFill")) "blip" in
  (nullish blip = false -> nullish (get blip "$") = true ->
     convertPictureToHTML C P pic options s = (Thrown TypeError, s)) /\
  (nullish blip = true \/ nullish (get blip "$") = false ->
     exists html t,
       convertPictureToHTML C P pic options s = (Returned html, t) /\
       ocr_events (world t) = ocr_events (world s) /\
       (html = "" \/
        exists bytes,
          fst (getImageData_of C (get pic "file") (get (get blip "$") "embed") s)
            = Returned (Some bytes) /\
          html = alternate_picture (utf8 P bytes))).
Proof.
  intros blip. unfold convertPictureToHTML. fold blip. split.
  - intros B A. now rewrite B, A.
  - intros H. destruct (nullish blip) eqn:B.
    { exists "", s. repeat split. now left. }
    destruct H as [H | A]; [discriminate |]. rewrite A.
    destruct (truthy_val (get (get blip "$") "embed")).
    2:{ exists "", s. repeat split. now left. }
    destruct (getImageData_of_no_ocr C (get pic "file") (get (get blip "$") "embed") s)
      as [W [r R]].
    unfold bind.
    destruct (getImageData_of C (get pic "file") (get (get blip "$") "embed") s)
      as [o t]. cbn [fst snd] in W, R. subst o.
    destruct r as [bytes |].
    + exists (alternate_picture (utf8 P bytes)), t. repeat split; [exact W |].
      right. now exists bytes.
    + exists "", t. repeat split; [exact W | now left].
Qed.

(** X17. When the slide of [element] has a relationship table, the embed id
    of its picture is turned into a property key: if that conversion throws,
    [convertShapeOrPicture] throws the [TypeError] on.  When the key resolves
    to a readable asset and the recognition returns a text, the method
    returns a picture fragment with that text, also when the text is empty.
    When reading the asset rejects, the rejection is thrown on: this method
    has no handler. *)
Theorem convertShapeOrPicture_resolved (C : Collaborators) (z : ZipFiles)
    (element : jsval) (slideFile : string) (table : list (string * Rel)) (s : State) :
  let rId := get (get (get (get (get element "pic") "blipFill") "blip") "$") "r:embed" in
  truthy_val (get element "pic") = true ->
  truthy_val rId = true ->
  get element "file" = JStr slideFile ->
  zip (this s) = Some z ->
  fst (getSlideRels C slideFile s) = Returned (Some table) ->
  (to_string rId = Thrown TypeError ->
     fst (convertShapeOrPicture C element s) = Thrown TypeError) /\
  (forall key rel,
      to_string rId = Returned key ->
      assoc key table = Some rel ->
      nonempty (Target rel) = true ->
      (forall image t,
          entry_bytes z ("ppt/media/" ++ last_segment (Target rel)) = Some image ->
          tesseract C image = Recognizes t true ->
          fst (convertShapeOrPicture C element s) =
            Returned (Some (alternate_ocr_fragment t))) /\
      (forall o,
          zip_file z ("ppt/media/" ++ last_segment (Target rel)) = Some o ->
          data o = None ->
          fst (convertShapeOrPicture C element s) = Thrown (Rejection "jszip"))).
Proof.
  intros rId TP TR F Z G.
  assert (NN : nullish element = false).
  { destruct element; try reflexivity; discriminate TP. }
  pose proof (getSlideRels_keeps_this C slideFile s) as K.
  assert (Step : forall k : option (list (string * Rel)) -> M (option string),
            bind (getSlideRels_of C (get element "file")) k s =
            k (Some table) (snd (getSlideRels C slideFile s))).
  { intros k. rewrite F. cbn [getSlideRels_of]. unfold bind.
    destruct (getSlideRels C slideFile s) as [o t]. cbn [fst snd] in G |- *. now subst o. }
  split.
  - intros X. unfold convertShapeOrPicture. rewrite NN, TP. fold rId.
    rewrite TR, Step. cbn [target_of]. now rewrite X.
  - intros key rel X A NE. split.
    + intros image t E B. unfold convertShapeOrPicture. rewrite NN, TP. fold rId.
      rewrite TR, Step. cbn [target_of]. rewrite X, A.
      rewrite (bind_returned (of_outcome (Returned (Target rel))) _ (Target rel) _ _ eq_refl).
      rewrite NE, bind_the_zip, K, Z.
      unfold entry_bytes in E.
      destruct (zip_file z ("ppt/media/" ++ last_segment (Target rel))) as [o |];
        [| discriminate].
      unfold bind at 1. rewrite async_run, E. unfold bind.
      match goal with
      | |- context [processImage C image ?t0] =>
          pose proof (processImage_outcome C image t0) as O;
          destruct (processImage C image t0) as [o' t']
      end.
      cbn [fst] in O. rewrite B in O. now subst o'.
    + intros o E D. unfold convertShapeOrPicture. rewrite NN, TP. fold rId.
      rewrite TR, Step. cbn [target_of]. rewrite X, A.
      rewrite (bind_returned (of_outcome (Returned (Target rel))) _ (Target rel) _ _ eq_refl).
      rewrite NE, bind_the_zip, K, Z, E.
      unfold bind at 1. now rewrite async_run, D.
Qed.

(** ** Pictures that are skipped *)

Lemma getSlideRels_numbered (C : Collaborators) (z : ZipFiles) (digits : string)
    (s : State) :
  zip (this s) = Some z ->
  digits <> "" -> all_chars is_digit digits = true ->
  fst (getSlideRels C (slide_part_name digits) s) =
  Returned (option_map (fun l => fold_left add_rel l [])
              (slide_relationships C z digits)).
Proof.
  intros Z N D.
  pose proof (match_slide_number_part_name digits N D) as M.
  unfold getSlideRels, try_catch, slide_relationships. rewrite M, bind_the_zip, Z.
  fold (slide_rels_name digits).
  destruct (zip_file z (slide_rels_name digits)) as [o |]; [| reflexivity].
  unfold bind at 1. rewrite async_run.
  destruct (data o) as [bytes |]; [| reflexivity].
  unfold bind, parse, relationship_nodes.
  destruct (parseStringPromise C bytes); reflexivity.
Qed.

(** X18. On a slide part [ppt/slides/slide<N>.xml], a picture whose embed id
    no [Relationship] element of the slide's relationship part carries (with
    a non-empty target), or whose slide has no relationship part that can be
    read and parsed, is resolved to [null] without an error: the picture adds
    nothing to the markup, no recognition is attempted, and the slide is
    rendered exactly as if the picture were not there. *)
Theorem unresolved_picture_is_skipped (C : Collaborators) (z : ZipFiles)
    (digits rId : string) (pic : node) (s : State) :
  zip (this s) = Some z ->
  digits <> "" -> all_chars is_digit digits = true ->
  embed_id pic = Some rId ->
  (forall l, slide_relationships C z digits = Some l -> last_rel rId l = None) ->
  fst (getImageData C (slide_part_name digits) rId s) = Returned None /\
  (forall html, exists s',
      append_picture C (slide_part_name digits) html pic s = (Returned html, s') /\
      ocr_events (world s') = ocr_events (world s)) /\
  (forall slide before after html,
      file slide = slide_part_name digits ->
      slide_shape_tree slide <> None ->
      slide_text_html slide = Some html ->
      slide_pictures slide = (before ++ pic :: after)%list ->
      fst (convertSlideToHTML C slide s) =
      match fst (for_of_acc (before ++ after)%list html
                   (append_picture C (slide_part_name digits)) s) with
      | Returned html' => Returned (html' ++ slide_close)
      | Thrown e => Thrown e
      | Exited => Exited
      end).
Proof.
  intros Z N D E H.
  pose proof (getSlideRels_numbered C z digits s Z N D) as R.
  assert (G : fst (getImageData C (slide_part_name digits) rId s) = Returned None).
  { destruct (slide_relationships C z digits) as [l |].
    - apply (getImageData_no_entry C _ _ _ _ R).
      rewrite fold_add_rel_lookup, (H l eq_refl). reflexivity.
    - apply getImageData_no_table. exact R. }
  assert (P : forall html, exists s',
             append_picture C (slide_part_name digits) html pic s = (Returned html, s') /\
             ocr_events (world s') = ocr_events (world s)).
  { intros html. exact (append_picture_unresolved C _ _ html _ _ E G). }
  split; [exact G | split; [exact P |]].
  intros slide before after html F T Ht Hp.
  rewrite (skipped_in_slide C slide pic before after s Hp), Ht, F.
  - destruct (slide_shape_tree slide); [reflexivity | contradiction].
  - rewrite F. intros h. destruct (P h) as (s' & -> & _). reflexivity.
Qed.

(** X19. When the embed id of a picture resolves to a media asset and
    [createWorker()] or [recognize] rejects, the worker then being terminated
    normally, [processImage] catches the rejection and returns [null]: the
    picture contributes no text and no markup, and the slide is rendered
    exactly as if the picture were not there. *)
Theorem rejected_recognition_is_absorbed (C : Collaborators)
    (slideFile rId image : string) (pic : node) (s : State) :
  embed_id pic = Some rId ->
  fst (getImageData C slideFile rId s) = Returned (Some image) ->
  tesseract C image = CreateWorkerFails \/ tesseract C image = RecognizeFails true ->
  (forall s0, fst (processImage C image s0) = Returned None) /\
  (forall html, fst (append_picture C slideFile html pic s) = Returned html) /\
  (forall slide before after html,
      file slide = slideFile ->
      slide_shape_tree slide <> None ->
      slide_text_html slide = Some html ->
      slide_pictures slide = (before ++ pic :: after)%list ->
      fst (convertSlideToHTML C slide s) =
      match fst (for_of_acc (before ++ after)%list html
                   (append_picture C slideFile) s) with
      | Returned html' => Returned (html' ++ slide_close)
      | Thrown e => Thrown e
      | Exited => Exited
      end).
Proof.
  intros E G B.
  assert (P : forall s0, fst (processImage C image s0) = Returned None).
  { intros s0. rewrite processImage_outcome. destruct B as [-> | ->]; reflexivity. }
  assert (K : skipped C slideFile pic s).
  { intros html. rewrite (append_picture_resolved C _ _ html _ _ _ E G), P.
    destruct (nonempty rId); reflexivity. }
  split; [exact P | split; [exact K |]].
  intros slide before after html F T Ht Hp. subst slideFile.
  rewrite (skipped_in_slide C slide pic before after s Hp K), Ht.
  destruct (slide_shape_tree slide); [reflexivity | contradiction].
Qed.

(** ** The further theorems at work on the sample decks *)

Lemma steady_terminates (image : string) :
  terminate_returns (tesseract Samples.steady image) = true.
Proof. cbn. destruct (String.eqb image "PNG:blank"); reflexivity. Qed.

Lemma steady_goes_on (image : string) :
  ends_process (tesseract Samples.steady image) = false.
Proof. cbn. destruct (String.eqb image "PNG:blank"); reflexivity. Qed.

(** The complete one-slide deck is accepted. *)
Lemma load_validates_witness :
  loadAsync Samples.sample (Buffer "PK:hello") = Some Samples.deck_hello /\
  exists t,
    load Samples.sample (start (Buffer "PK:hello")) = (Returned tt, t) /\
    zip (this t) = Some Samples.deck_hello /\
    slideFiles (this t) = Some ["ppt/slides/slide1.xml"].
Proof.
  split; [reflexivity |].
  apply (load_validates Samples.sample (start (Buffer "PK:hello")) "PK:hello"
           Samples.deck_hello eq_refl eq_refl).
  split; [| split].
  - simpl. auto.
  - simpl. auto.
  - exists "ppt/slides/slide1.xml". split; [simpl; auto | reflexivity].
Defined.

(** The twelfth slide. *)
Lemma numbered_slide_part_recognised_witness :
  match_slide_number "ppt/slides/slide12.xml" = Some "12".
Proof.
  apply (numbered_slide_part_recognised "12").
  - discriminate.
  - reflexivity.
Defined.

(** The deck with the slides 2 and 10. *)
Lemma parseSlides_spec_witness :
  zip (this (Samples.opened "PK:2-10")) = Some Samples.deck_2_10 /\
  exists t,
    fst (parseSlides Samples.sample (Samples.opened "PK:2-10")) =
      Returned (parsed_slides Samples.sample Samples.deck_2_10) /\
    map file (slides (this t)) = ["ppt/slides/slide10.xml"; "ppt/slides/slide2.xml"].
Proof.
  split; [reflexivity |].
  destruct (parseSlides_spec Samples.sample Samples.deck_2_10
              (Samples.opened "PK:2-10") eq_refl) as (t & R & T & F).
  exists t. split; [now rewrite R |]. rewrite T. reflexivity.
Defined.

(** The deck with a scanned picture, and a deck with a text that cannot be
    interpolated. *)
Lemma toHTML_on_opened_archive_witness :
  (exists fragments,
      Forall2 slide_fragment
        (parsed_slides Samples.steady
           (Samples.deck_picture (Some "<rels rId7=image1.png/>") "PNG:scanned-text"))
        fragments /\
      fst (toHTML Samples.steady None (start (Buffer "PK:picture-scanned"))) =
        Returned (document_head ++ generateStyles ++ document_neck
                    ++ join fragments ++ document_tail)) /\
  fst (toHTML Samples.steady None (start (Buffer "PK:odd-text"))) = Thrown TypeError.
Proof.
  split.
  - exact (toHTML_on_opened_archive Samples.steady None
             (start (Buffer "PK:picture-scanned")) steady_terminates steady_goes_on).
  - exact (toHTML_on_opened_archive Samples.steady None
             (start (Buffer "PK:odd-text")) steady_terminates steady_goes_on).
Defined.

(** The relationship file of slide 1. *)
Lemma getSlideRels_numbered_slide_witness :
  fst (getSlideRels Samples.sample "ppt/slides/slide1.xml"
         (Samples.opened "PK:picture-scanned")) =
    Returned (Some [("rId7", {| Id := "rId7"; Target := "../media/image1.png" |})]).
Proof.
  apply (getSlideRels_numbered_slide Samples.sample
           (Samples.deck_picture (Some "<rels rId7=image1.png/>") "PNG:scanned-text")
           "1" (Samples.opened "PK:picture-scanned")).
  - reflexivity.
  - discriminate.
  - reflexivity.
Defined.

(** The target [../media/image1.png] resolves to [ppt/media/image1.png]. *)
Lemma getImageData_by_file_name_witness :
  fst (getImageData Samples.sample "ppt/slides/slide1.xml" "rId7"
         (Samples.opened "PK:picture-scanned")) = Returned (Some "PNG:scanned-text").
Proof.
  apply (proj2 (getImageData_by_file_name Samples.sample
                  (Samples.deck_picture (Some "<rels rId7=image1.png/>") "PNG:scanned-text")
                  "ppt/slides/slide1.xml" "rId7"
                  [("rId7", {| Id := "rId7"; Target := "../media/image1.png" |})]
                  {| Id := "rId7"; Target := "../media/image1.png" |}
                  (Samples.opened "PK:picture-scanned")
                  eq_refl eq_refl eq_refl eq_refl) "../media" "image1.png").
  - reflexivity.
  - reflexivity.
Defined.

(** The slide with a title and a scanned picture. *)
Lemma convertSlideToHTML_layout_witness :
  fst (convertSlideToHTML Samples.sample MoreSamples.picture_slide
         (Samples.opened "PK:picture-scanned")) =
    Returned (slide_open ++ shape_open ++ "<p><span>Title</span></p></div>"
                ++ picture_fragment "SCANNED" ++ slide_close) /\
  exists shapes texts,
    sequence (map shape_contribution (slide_shapes MoreSamples.picture_slide)) =
      Some shapes /\
    slide_open ++ shape_open ++ "<p><span>Title</span></p></div>"
      ++ picture_fragment "SCANNED" ++ slide_close =
    slide_open ++ join shapes ++ join (map picture_fragment texts) ++ slide_close /\
    Forall (fun t => nonempty t = true) texts /\
    length texts <= 1.
Proof.
  split; [reflexivity |].
  exact (convertSlideToHTML_layout Samples.sample MoreSamples.picture_slide
           (Samples.opened "PK:picture-scanned") _ eq_refl).
Defined.

(** The prefixes [a] and [P] of a tag, a local name with an upper-case letter
    beyond [A-Z], and the prefix [r] of an attribute. *)
Lemma letter_prefix_is_stripped_witness :
  tagNameProcessors "a:blipFill" = "blipfill" /\
  tagNameProcessors "P:blipFill" = "blipfill" /\
  tagNameProcessors ("p:" ++ String (ascii_of_nat 201) "LAN") =
    String (ascii_of_nat 233) "lan" /\
  attrNameProcessors "r:embed" = "embed".
Proof.
  split; [| split; [| split]].
  - apply (letter_prefix_is_stripped "a" "blipFill"); [discriminate | reflexivity].
  - apply (letter_prefix_is_stripped "P" "blipFill"); [discriminate | reflexivity].
  - apply (letter_prefix_is_stripped "p" (String (ascii_of_nat 201) "LAN"));
      [discriminate | reflexivity].
  - apply (letter_prefix_is_stripped "r" "embed"); [discriminate | reflexivity].
Defined.

(** The relationship file of the full deck leaves [this.relationships] empty. *)
Lemma parseRelationships_records_nothing_witness :
  exists t,
    ParseStage.parseRelationships MoreSamples.sample_platform
      (MoreSamples.opened_with (MoreSamples.deck_full "<layout 1/>")) = (Returned tt, t) /\
    relationships (parts t) = [].
Proof.
  destruct (parseRelationships_records_nothing MoreSamples.sample_platform
              (MoreSamples.deck_full "<layout 1/>")
              (MoreSamples.opened_with (MoreSamples.deck_full "<layout 1/>")) eq_refl)
    as (t & R & Pt & _).
  exists t. split; [exact R | now rewrite Pt].
Defined.


(** The picture of the full deck. *)
Lemma extractImages_all_or_nothing_witness :
  exists t,
    ParseStage.extractImages MoreSamples.sample_platform
      (MoreSamples.opened_with (MoreSamples.deck_full "<layout 1/>")) = (Returned tt, t) /\
    assoc "ppt/media/image1.png" (images (parts t)) =
      Some {| image_data := "base64(PNG:scanned-text)";
              image_metadata := {| format := "png"; width := 640; height := 480 |};
              image_type := "png" |}.
Proof.
  destruct (proj1 (extractImages_all_or_nothing MoreSamples.sample_platform
                     (MoreSamples.deck_full "<layout 1/>")
                     (MoreSamples.opened_with (MoreSamples.deck_full "<layout 1/>"))
                     eq_refl))
    as (t & R & G & _).
  - repeat (constructor; [vm_compute; discriminate |]). constructor.
  - exists t. split; [exact R |].
    apply (G "ppt/media/image1.png" "PNG:scanned-text"
             {| format := "png"; width := 640; height := 480 |}).
    + vm_compute. auto.
    + reflexivity.
    + reflexivity.
Defined.

(** The full deck, and the same deck with a layout that does not parse. *)
Lemma parse_runs_in_order_witness :
  (exists t,
     ParseStage.parse Samples.sample MoreSamples.sample_platform
       (MoreSamples.opened_with (MoreSamples.deck_full "<layout 1/>")) = (Returned tt, t) /\
     map file (slides (this (base t))) = ["ppt/slides/slide1.xml"] /\
     relationships (parts t) = []) /\
  (exists e t,
     ParseStage.parse Samples.sample MoreSamples.sample_platform
       (MoreSamples.opened_with (MoreSamples.deck_full "<layout")) = (Thrown e, t) /\
     slides (this (base t)) = []).
Proof.
  split.
  - destruct (proj1 (parse_runs_in_order Samples.sample MoreSamples.sample_platform
                       (MoreSamples.deck_full "<layout 1/>")
                       (MoreSamples.opened_with (MoreSamples.deck_full "<layout 1/>"))
                       eq_refl))
      as (t & R & T & Rl & _).
    + repeat (constructor; [vm_compute; discriminate |]). constructor.
    + repeat (constructor; [vm_compute; discriminate |]). constructor.
    + repeat (constructor; [vm_compute; discriminate |]). constructor.
    + exists t. split; [exact R |]. split; [now rewrite T | now rewrite Rl].
  - destruct (proj1 (proj2 (parse_runs_in_order Samples.sample MoreSamples.sample_platform
                       (MoreSamples.deck_full "<layout")
                       (MoreSamples.opened_with (MoreSamples.deck_full "<layout"))
                       eq_refl)))
      as (e & t & R & T).
    + left. apply Exists_exists. exists "ppt/slideLayouts/slideLayout1.xml".
      split; [vm_compute; auto | reflexivity].
    + exists e, t. split; [exact R | now rewrite T].
Defined.

(** The shape with the paragraphs Hello and World, each with a lone run, and
    a shape whose run text has a property [toString]. *)
Lemma convertShapeToHTML_markup_witness :
  convertShapeToHTML MoreSamples.alternate_shape JUndefined =
    Returned (shape_open ++ "<p><span>Hello</span></p><p><span>World</span></p></div>") /\
  convertShapeToHTML MoreSamples.alternate_odd_shape JUndefined = Thrown TypeError.
Proof.
  split.
  - apply (proj1 (proj2 (convertShapeToHTML_markup MoreSamples.alternate_shape JUndefined))).
    + reflexivity.
    + repeat constructor.
  - apply (proj1 (proj2 (convertShapeToHTML_markup MoreSamples.alternate_odd_shape
                           JUndefined))).
    + reflexivity.
    + repeat constructor.
Defined.

(** A [blip] element without attributes. *)
Lemma convertPictureToHTML_outcomes_witness :
  convertPictureToHTML Samples.sample MoreSamples.sample_platform
    (JObj [("blipFill", JObj [("blip", JObj [])])]) JUndefined
    (Samples.opened "PK:picture-scanned") =
  (Thrown TypeError, Samples.opened "PK:picture-scanned").
Proof.
  apply (proj1 (convertPictureToHTML_outcomes Samples.sample MoreSamples.sample_platform
                  (JObj [("blipFill", JObj [("blip", JObj [])])]) JUndefined
                  (Samples.opened "PK:picture-scanned"))).
  - reflexivity.
  - reflexivity.
Defined.

(** A picture whose image is recognised as the empty text, and a picture
    whose embed id is an object with a property [toString]. *)
Lemma convertShapeOrPicture_resolved_witness :
  fst (convertShapeOrPicture Samples.sample MoreSamples.picture_element
         (Samples.opened "PK:picture-blank")) =
    Returned (Some (alternate_ocr_fragment "")) /\
  fst (convertShapeOrPicture Samples.sample MoreSamples.odd_picture_element
         (Samples.opened "PK:picture-blank")) = Thrown TypeError.
Proof.
  split.
  - apply (proj1 (proj2 (convertShapeOrPicture_resolved Samples.sample
                    (Samples.deck_picture (Some "<rels rId7=image1.png/>") "PNG:blank")
                    MoreSamples.picture_element "ppt/slides/slide1.xml"
                    [("rId7", {| Id := "rId7"; Target := "../media/image1.png" |})]
                    (Samples.opened "PK:picture-blank")
                    eq_refl eq_refl eq_refl eq_refl eq_refl)
                  "rId7" {| Id := "rId7"; Target := "../media/image1.png" |}
                  eq_refl eq_refl eq_refl)
             "PNG:blank" "").
    + reflexivity.
    + reflexivity.
  - apply (proj1 (convertShapeOrPicture_resolved Samples.sample
                    (Samples.deck_picture (Some "<rels rId7=image1.png/>") "PNG:blank")
                    MoreSamples.odd_picture_element "ppt/slides/slide1.xml"
                    [("rId7", {| Id := "rId7"; Target := "../media/image1.png" |})]
                    (Samples.opened "PK:picture-blank")
                    eq_refl eq_refl eq_refl eq_refl eq_refl)).
    reflexivity.
Defined.

(** A picture [rId7] on a slide whose table only knows [rId1], and the same
    picture on a slide without a relationship file. *)
Lemma unresolved_picture_is_skipped_witness :
  fst (getImageData Samples.sample "ppt/slides/slide1.xml" "rId7"
         (Samples.opened "PK:picture-other-id")) = Returned None /\
  fst (getImageData Samples.sample "ppt/slides/slide1.xml" "rId7"
         (Samples.opened "PK:picture-no-rels")) = Returned None.
Proof.
  split.
  - apply (unresolved_picture_is_skipped Samples.sample
             (Samples.deck_picture (Some "<rels rId1=image1.png/>") "PNG:scanned-text")
             "1" "rId7" (Samples.picture_shape "rId7")
             (Samples.opened "PK:picture-other-id") eq_refl).
    + discriminate.
    + reflexivity.
    + reflexivity.
    + intros l E. vm_compute in E. injection E as <-. reflexivity.
  - apply (unresolved_picture_is_skipped Samples.sample
             (Samples.deck_picture None "PNG:scanned-text")
             "1" "rId7" (Samples.picture_shape "rId7")
             (Samples.opened "PK:picture-no-rels") eq_refl).
    + discriminate.
    + reflexivity.
    + reflexivity.
    + intros l E. vm_compute in E. discriminate E.
Defined.

(** A picture whose recognition rejects. *)
Lemma rejected_recognition_is_absorbed_witness :
  tesseract Samples.sample "PNG:rejected" = RecognizeFails true /\
  fst (append_picture Samples.sample "ppt/slides/slide1.xml" "<div>"
         (Samples.picture_shape "rId7") (Samples.opened "PK:picture-rejected")) =
    Returned "<div>".
Proof.
  split; [reflexivity |].
  apply (rejected_recognition_is_absorbed Samples.sample "ppt/slides/slide1.xml" "rId7"
           "PNG:rejected" (Samples.picture_shape "rId7")
           (Samples.opened "PK:picture-rejected")).
  - reflexivity.
  - reflexivity.
  - right. reflexivity.
Defined.
